(** * Time_Tracker: the time-log aggregation engine

    A shallow embedding of [datetimefuncs.py] and of [dbsanddfs.py]
    (class [SQLAlchemyDB] and the frames of class [AnalysisGraphDFs]), and
    the properties of the duration formatters and of the daily, weekly,
    monthly and windowed summaries.

    Python integers are [Z]; a binary64 float is the rational it denotes,
    with the rounding of every float operation written out; exceptions are
    the left injection of a small error monad. *)

From Stdlib Require Import ZArith QArith Qround Qabs Qpower Qreduction.
From Stdlib Require Import Lia Lqa List String Ascii Bool.
From Stdlib Require Import DecimalString DecimalZ DecimalPos.
From Stdlib Require Floats Uint63.
From Stdlib Require Import Permutation Sorted.
Import ListNotations.

Local Open Scope Z_scope.

(** ** Python: exceptions and the error monad *)

Module Py.

Inductive exn : Type :=
| KeyError (key : string)
| ValueError (msg : string)
| TypeError (msg : string)
| AttributeError (msg : string)
| OverflowError (msg : string)
| ZeroDivisionError (msg : string).

Definition result (A : Type) : Type := (exn + A)%type.

Definition ret {A : Type} (a : A) : result A := inr a.
Definition raise {A : Type} (e : exn) : result A := inl e.

Definition bind {A B : Type} (m : result A) (k : A -> result B) : result B :=
  match m with
  | inl e => inl e
  | inr a => k a
  end.

Fixpoint mapM {A B : Type} (f : A -> result B) (l : list A) : result (list B) :=
  match l with
  | [] => ret []
  | a :: l' =>
      bind (f a) (fun b => bind (mapM f l') (fun bs => ret (b :: bs)))
  end.

Definition fmap {A B : Type} (f : A -> B) (m : result A) : result B :=
  match m with
  | inl e => inl e
  | inr a => inr (f a)
  end.

End Py.

Notation "x <- m ;; k" := (Py.bind m (fun x => k))
  (at level 61, m at next level, right associativity).

(** ** binary64 arithmetic

    A finite double is represented by its value in [Q].  [round] is
    round-to-nearest, ties-to-even, to 53 significant bits; the exponent
    range is not part of [round]: overflow is checked where Python checks
    it, and the subnormal grid (magnitudes below 2^-1022) is never reached
    by the quotients formed in this program, whose magnitude is at least
    1/3600 when they are not zero. *)

Module Float64.

Definition float : Type := Q.

Definition pow2 (e : Z) : Q := (2 ^ e)%Q.

(** floor of the binary logarithm of a positive rational *)
Definition ilog2 (x : Q) : Z :=
  let t := Z.log2 (Qnum x) - Z.log2 (Zpos (Qden x)) in
  if Qle_bool (pow2 t) x then t else t - 1.

(** nearest integer, ties to the even one *)
Definition rint (y : Q) : Z :=
  let f := Qfloor y in
  match (y - inject_Z f ?= 1 # 2)%Q with
  | Lt => f
  | Gt => f + 1
  | Eq => if Z.even f then f else f + 1
  end.

Definition round_pos (x : Q) : Q :=
  let e := ilog2 x - 52 in
  Qred (inject_Z (rint (x / pow2 e)) * pow2 e).

Definition round (x : Q) : float :=
  match (x ?= 0)%Q with
  | Eq => 0%Q
  | Gt => round_pos x
  | Lt => (- round_pos (- x))%Q
  end.

(** the largest magnitude a double holds is below 2^1024 *)
Definition overflows (x : Q) : bool := Qle_bool (pow2 1024) (Qabs x).

(** [a / b] on two Python ints: the correctly rounded quotient
    (CPython's [long_true_divide]). *)
Definition int_truediv (a b : Z) : Py.result float :=
  if b =? 0 then Py.raise (Py.ZeroDivisionError "division by zero")
  else
    let r := round (inject_Z a / inject_Z b) in
    if overflows r
    then Py.raise (Py.OverflowError "integer division result too large for a float")
    else Py.ret r.

(** [float(n)] for a Python int *)
Definition of_int (n : Z) : Py.result float :=
  let r := round (inject_Z n) in
  if overflows r
  then Py.raise (Py.OverflowError "int too large to convert to float")
  else Py.ret r.

(** [x / b] for a float [x] and a Python int [b]: [b] is converted, then
    the IEEE division is rounded.  A quotient beyond the double range is
    the infinity, which [float] does not hold; it becomes an error here and
    cannot occur for |b| >= 1. *)
Definition truediv_int (x : float) (b : Z) : Py.result float :=
  y <- of_int b ;;
  if Qeq_bool y 0 then Py.raise (Py.ZeroDivisionError "float division by zero")
  else
    let r := round (x / y) in
    if overflows r
    then Py.raise (Py.OverflowError "float quotient out of range")
    else Py.ret r.

(** [math.floor] *)
Definition floor (x : float) : Z := Qfloor x.

(** a number a double holds exactly: at most 53 significant bits *)
Definition representable (r : Q) : Prop :=
  exists m c : Z, (Z.abs m < 2 ^ 53)%Z /\ (r == inject_Z m * pow2 c)%Q.

End Float64.

(** ** The kernel's binary64, to test [Float64.round] against

    [div2 a b c] is the double [a / b / c] computed by the machine's
    division from the doubles of three integers below 2^53. *)

Module Hardware.

Definition value (f : PrimFloat.float) : option Q :=
  match FloatOps.Prim2SF f with
  | SpecFloat.S754_zero _ => Some 0%Q
  | SpecFloat.S754_finite s m e =>
      Some (Qred ((if s then - 1 else 1) * inject_Z (Zpos m) * Float64.pow2 e)%Q)
  | _ => None
  end.

Definition of_Z (a : Z) : PrimFloat.float := PrimFloat.of_uint63 (Uint63.of_Z a).

Definition div1 (a b : Z) : option Q := value (PrimFloat.div (of_Z a) (of_Z b)).

Definition div2 (a b c : Z) : option Q :=
  value (PrimFloat.div (PrimFloat.div (of_Z a) (of_Z b)) (of_Z c)).

Definition same (x : option Q) (y : Q) : bool :=
  match x with
  | Some v => Qeq_bool v y
  | None => false
  end.

(** the model and the machine agree on [a / 60] and on [a / 60 / 60] *)
Definition agrees (a : Z) : bool :=
  same (div1 a 60) (Float64.round (inject_Z a / inject_Z 60)) &&
  same (div2 a 60 60)
       (Float64.round (Float64.round (inject_Z a / inject_Z 60) / inject_Z 60)).

Definition samples : list Z :=
  map Z.of_nat (seq 0 400)
  ++ map (fun k => 3600 * Z.of_nat k - 1) (seq 1 400)
  ++ map (fun k => 2 ^ 52 - 200 + Z.of_nat k) (seq 0 400)
  ++ map (fun k => 3600 * 2 ^ 41 - 200 + Z.of_nat k) (seq 0 400)
  ++ map (fun k => 123456789 * Z.of_nat k + 17) (seq 0 400).

End Hardware.

(** ** Python: formatting an int with the format spec [02] *)

Module PyFormat.

Definition decimal (n : Z) : string := NilZero.string_of_int (Z.to_int n).

Fixpoint zeros (k : nat) : string :=
  match k with
  | O => EmptyString
  | S k' => String "0"%char (zeros k')
  end.

(** [format(n, '02')]: the sign, then zeros up to a total width of 2, then
    the digits; a longer numeral is never cut. *)
Definition format_02 (n : Z) : string :=
  let sign := if n <? 0 then "-"%string else EmptyString in
  let digits := decimal (Z.abs n) in
  (sign ++ zeros (2 - String.length sign - String.length digits) ++ digits)%string.

End PyFormat.

(** ** datetimefuncs.py *)

Module TimerFuncs.
Import Float64 PyFormat.

(** the f-string [f'{hours:02}:{minutes:02}:{seconds:02}'] *)
Definition hms_string (hms : Z * Z * Z) : string :=
  let '(hours, minutes, seconds) := hms in
  (format_02 hours ++ ":" ++ format_02 minutes ++ ":" ++ format_02 seconds)%string.

(** the locals [hours], [minutes], [seconds] of [formatted_time] *)
Definition formatted_time_locals (total_seconds : Z) : Py.result (Z * Z * Z) :=
  q <- int_truediv total_seconds 60 ;;
  q' <- truediv_int q 60 ;;
  let hours := floor q' mod 24 in
  m <- int_truediv total_seconds 60 ;;
  let minutes := floor m mod 60 in
  let seconds := total_seconds mod 60 in
  Py.ret (hours, minutes, seconds).

Definition formatted_time (total_seconds : Z) : Py.result string :=
  hms <- formatted_time_locals total_seconds ;;
  Py.ret (hms_string hms).

Definition get_total_seconds (hours minutes seconds : Z) : Z :=
  hours * 3600 + minutes * 60 + seconds.

(** the locals [hours], [minutes], [seconds] of [get_time_hms] *)
Definition get_time_hms_locals (total_seconds : Z) : Py.result (Z * Z * Z) :=
  q <- int_truediv total_seconds 60 ;;
  q' <- truediv_int q 60 ;;
  let hours := floor q' in
  m <- int_truediv total_seconds 60 ;;
  let minutes := floor m mod 60 in
  let seconds := total_seconds mod 60 in
  Py.ret (hours, minutes, seconds).

Definition get_time_hms (total_seconds : Z) : Py.result string :=
  hms <- get_time_hms_locals total_seconds ;;
  Py.ret (hms_string hms).

End TimerFuncs.

(** [date.today() - timedelta(days=n)]: a date is its proleptic Gregorian
    ordinal, and the clock's reading is an argument. *)
Module TimeDeltaDays.

Definition last_seven_days (today : Z) : Z := today - 7.

Definition last_thirty_days (today : Z) : Z := today - 30.

End TimeDeltaDays.

(** ** The HH:MM:SS grammar, to state what the formatters print *)

Module HMS.

Definition digit (d : Z) : ascii := ascii_of_nat (48 + Z.to_nat d).

Definition two_digits (n : Z) : string :=
  String (digit (n / 10)) (String (digit (n mod 10)) EmptyString).

Definition hh_mm_ss (h m s : Z) : string :=
  (two_digits h ++ ":" ++ two_digits m ++ ":" ++ two_digits s)%string.

Definition is_digit (c : ascii) : bool :=
  (48 <=? nat_of_ascii c)%nat && (nat_of_ascii c <=? 57)%nat.

(** the regular expression [^\d{2}:\d{2}:\d{2}$] *)
Definition matches_hh_mm_ss (t : string) : bool :=
  match t with
  | String a (String b (String c (String d (String e (String f (String g (String h EmptyString))))))) =>
      is_digit a && is_digit b && Ascii.eqb c ":" &&
      is_digit d && is_digit e && Ascii.eqb f ":" &&
      is_digit g && is_digit h
  | _ => false
  end.

(** an hour field of at least two characters that ends with the whole
    numeral of [h] *)
Definition padded_numeral (h : Z) : string :=
  (PyFormat.zeros (2 - String.length (PyFormat.decimal h)) ++ PyFormat.decimal h)%string.

End HMS.

(** ** Dates and timestamps

    A [datetime.date] is its proleptic Gregorian ordinal ([date.toordinal],
    day 1 is 0001-01-01) and a naive [datetime.datetime], as SQLite hands it
    back, is the count of microseconds since the midnight that starts day 0.
    [days_before_year], [days_before_month], [ymd2ord] and [weekday] are
    CPython's. *)

Module Calendar.

Definition is_leap (year : Z) : bool :=
  (year mod 4 =? 0) && (negb (year mod 100 =? 0) || (year mod 400 =? 0)).

Definition days_before_year (year : Z) : Z :=
  let y := year - 1 in y * 365 + y / 4 - y / 100 + y / 400.

Definition days_in_month : list Z := [31; 28; 31; 30; 31; 30; 31; 31; 30; 31; 30; 31].

(** the days before [month] in a common year *)
Definition days_before (month : Z) : Z :=
  fold_right Z.add 0 (firstn (Z.to_nat (month - 1)) days_in_month).

Definition days_before_month (year month : Z) : Z :=
  days_before month + (if (2 <? month) && is_leap year then 1 else 0).

Definition ymd2ord (year month day : Z) : Z :=
  days_before_year year + days_before_month year month + day.

(** year, month and day of an ordinal *)
Definition ord2ymd (ordinal : Z) : Z * Z * Z :=
  let n := ordinal - 1 in
  let n400 := n / 146097 in
  let n := n mod 146097 in
  let year := n400 * 400 + 1 in
  let n100 := n / 36524 in
  let n := n mod 36524 in
  let n4 := n / 1461 in
  let n := n mod 1461 in
  let n1 := n / 365 in
  let n := n mod 365 in
  let year := year + n100 * 100 + n4 * 4 + n1 in
  if (n1 =? 4) || (n100 =? 4) then (year - 1, 12, 31)
  else
    let leapyear := (n1 =? 3) && (negb (n4 =? 24) || (n100 =? 3)) in
    let month := Z.shiftr (n + 50) 5 in
    let preceding := days_before month + (if (2 <? month) && leapyear then 1 else 0) in
    if n <? preceding
    then
      let month := month - 1 in
      let preceding :=
        preceding - (nth (Z.to_nat (month - 1)) days_in_month 0
                     + (if (month =? 2) && leapyear then 1 else 0)) in
      (year, month, n - preceding + 1)
    else (year, month, n - preceding + 1).

Definition month_abbr : list string :=
  ["Jan"; "Feb"; "Mar"; "Apr"; "May"; "Jun";
   "Jul"; "Aug"; "Sep"; "Oct"; "Nov"; "Dec"]%string.

(** [strftime('%Y %m')]; the year has its four digits in the range of
    datetime64[ns] *)
Definition strftime_Y_m (ordinal : Z) : string :=
  let '(year, month, _) := ord2ymd ordinal in
  (PyFormat.decimal year ++ " " ++ PyFormat.format_02 month)%string.

(** [strftime('%b')] in the C locale *)
Definition strftime_b (ordinal : Z) : string :=
  let '(_, month, _) := ord2ymd ordinal in
  nth (Z.to_nat (month - 1)) month_abbr EmptyString.

(** [date.weekday()]: Monday is 0 *)
Definition weekday (ordinal : Z) : Z := (ordinal + 6) mod 7.

Definition day_names : list string :=
  ["Monday"; "Tuesday"; "Wednesday"; "Thursday"; "Friday"; "Saturday"; "Sunday"]%string.

Definition day_name (ordinal : Z) : string :=
  nth (Z.to_nat (weekday ordinal)) day_names EmptyString.

Definition us_per_day : Z := 86400 * 1000000.

(** [datetime(year, month, day, hour, minute, second)] *)
Definition datetime (year month day hour minute second : Z) : Z :=
  ymd2ord year month day * us_per_day + ((hour * 60 + minute) * 60 + second) * 1000000.

End Calendar.

(** ** pandas: the part of Series and DataFrame the engine uses

    A Series is a dtype and its values; a DataFrame is the list of its
    named columns, in column order, all of one length.  Timestamps and
    timedeltas are counts of nanoseconds, as in datetime64[ns] and
    timedelta64[ns]; the bounds of int64 are modelled where a column of
    [datetime] is made, where two columns are subtracted and in the sums of
    a groupby. *)

Module Pandas.
Import Py.

Inductive scalar : Type :=
| VInt (n : Z)
| VFloat (x : Q)
| VStr (s : string)
| VTimestamp (ns : Z)
| VTimedelta (ns : Z)
| VDate (ordinal : Z).

Inductive dtype : Type :=
| int64
| float64
| object
| datetime64
| timedelta64
| category (categories : list scalar) (ordered : bool).

Record Series : Type := mkSeries { dtype_of : dtype; values : list scalar }.

Definition DataFrame : Type := list (string * Series).

Definition ns_per_day : Z := 86400 * 1000000000.

(** the range of int64, which holds the nanoseconds of datetime64[ns] and
    of timedelta64[ns] *)
Definition in_int64 (z : Z) : bool := (- 2 ^ 63 <=? z) && (z <? 2 ^ 63).

(** 1970-01-01T00:00, from which datetime64[ns] counts, in the
    nanoseconds counted here from the midnight that starts day 0 *)
Definition epoch : Z := 719163 * ns_per_day.

(** whether datetime64[ns] holds a timestamp: 1677-09-21T00:12:43.145225
    to 2262-04-11T23:47:16.854775 for whole microseconds (the count -2^63,
    which is NaT, is not a whole microsecond) *)
Definition timestamp_fits (ns : Z) : bool := in_int64 (ns - epoch).

(** *** scalars: equality and the order used to sort group keys and
    categories (floats are kept in lowest terms by [Float64.round]) *)

Definition scalar_eqb (a b : scalar) : bool :=
  match a, b with
  | VInt x, VInt y => x =? y
  | VFloat x, VFloat y => (Qnum x =? Qnum y) && (Qden x =? Qden y)%positive
  | VStr x, VStr y => String.eqb x y
  | VTimestamp x, VTimestamp y => x =? y
  | VTimedelta x, VTimedelta y => x =? y
  | VDate x, VDate y => x =? y
  | _, _ => false
  end.

Definition rank (a : scalar) : Z :=
  match a with
  | VInt _ => 0 | VFloat _ => 1 | VStr _ => 2
  | VTimestamp _ => 3 | VTimedelta _ => 4 | VDate _ => 5
  end.

(** values of one kind compare as Python compares them; two kinds never
    meet in one column of this program *)
Definition scalar_leb (a b : scalar) : bool :=
  match a, b with
  | VInt x, VInt y => x <=? y
  | VFloat x, VFloat y => Qle_bool x y
  | VStr x, VStr y => String.leb x y
  | VTimestamp x, VTimestamp y => x <=? y
  | VTimedelta x, VTimedelta y => x <=? y
  | VDate x, VDate y => x <=? y
  | _, _ => rank a <=? rank b
  end.

Fixpoint key_eqb (k1 k2 : list scalar) : bool :=
  match k1, k2 with
  | [], [] => true
  | a :: k1', b :: k2' => scalar_eqb a b && key_eqb k1' k2'
  | _, _ => false
  end.

(** tuples compare lexicographically *)
Fixpoint key_leb (k1 k2 : list scalar) : bool :=
  match k1, k2 with
  | [], _ => true
  | _ :: _, [] => false
  | a :: k1', b :: k2' =>
      if scalar_eqb a b then key_leb k1' k2' else scalar_leb a b
  end.

Fixpoint insert_key (k : list scalar) (l : list (list scalar)) : list (list scalar) :=
  match l with
  | [] => [k]
  | k' :: l' => if key_leb k k' then k :: l else k' :: insert_key k l'
  end.

Definition sort_keys (l : list (list scalar)) : list (list scalar) :=
  fold_right insert_key [] l.

Definition mem_key (k : list scalar) (l : list (list scalar)) : bool :=
  existsb (key_eqb k) l.

(** the distinct keys, each at its first occurrence *)
Fixpoint unique_keys (l : list (list scalar)) : list (list scalar) :=
  match l with
  | [] => []
  | k :: l' => k :: filter (fun k' => negb (key_eqb k k')) (unique_keys l')
  end.

(** *** DataFrame: columns *)

(** [df[c]] *)
Fixpoint getitem (df : DataFrame) (c : string) : result Series :=
  match df with
  | [] => raise (KeyError c)
  | (c', s) :: df' => if String.eqb c' c then ret s else getitem df' c
  end.

(** [df[c] = s]: an existing column is replaced in place, a new one is
    appended *)
Fixpoint setitem (df : DataFrame) (c : string) (s : Series) : DataFrame :=
  match df with
  | [] => [(c, s)]
  | (c', s') :: df' =>
      if String.eqb c' c then (c, s) :: df' else (c', s') :: setitem df' c s
  end.

Definition nrows (df : DataFrame) : nat :=
  match df with
  | [] => O
  | (_, s) :: _ => List.length (values s)
  end.

(** [df[c] = v] for a scalar [v], broadcast over the rows *)
Definition setitem_scalar (df : DataFrame) (c : string) (v : scalar) : DataFrame :=
  setitem df c (mkSeries object (repeat v (nrows df))).

(** [df[[c1, ..., cn]]] *)
Definition select (df : DataFrame) (cols : list string) : result DataFrame :=
  mapM (fun c => s <- getitem df c ;; ret (c, s)) cols.

Fixpoint filter_mask {A : Type} (mask : list bool) (l : list A) : list A :=
  match mask, l with
  | b :: mask', a :: l' => if b then a :: filter_mask mask' l' else filter_mask mask' l'
  | _, _ => []
  end.

(** [df[filt]] for a boolean Series [filt] *)
Definition filter_rows (df : DataFrame) (mask : list bool) : DataFrame :=
  map (fun cs => (fst cs, mkSeries (dtype_of (snd cs)) (filter_mask mask (values (snd cs))))) df.

(** the rows of a frame, each the list of its cells in column order *)
Fixpoint zip_rows (n : nat) (cols : list (list scalar)) : list (list scalar) :=
  match cols with
  | [] => repeat [] n
  | c :: cs => map (fun xr => fst xr :: snd xr) (combine c (zip_rows n cs))
  end.

Definition rows (df : DataFrame) : list (list scalar) :=
  zip_rows (nrows df) (map (fun cs => values (snd cs)) df).

(** *** Series: elementwise operations *)

Definition zipM {A B C : Type} (f : A -> B -> result C) (l1 : list A) (l2 : list B)
  : result (list C) :=
  mapM (fun xy => f (fst xy) (snd xy)) (combine l1 l2).

(** [a - b].  Two datetime64 columns, and a datetime64 and a timedelta64
    column, are subtracted in int64 with the overflow check of pandas;
    two object columns of [datetime] are subtracted by Python, element by
    element, into an object column of [timedelta]; an object column minus
    a datetime64 column is refused, and a datetime64 column minus an object
    column converts each [datetime] to a Timestamp first, which fails for
    the one that made the column an object column. *)
Definition sub (a b : Series) : result Series :=
  match dtype_of a, dtype_of b with
  | datetime64, datetime64 =>
      vs <- zipM (fun x y =>
                    match x, y with
                    | VTimestamp s, VTimestamp t =>
                        if in_int64 (s - t) then ret (VTimedelta (s - t))
                        else raise (OverflowError "Overflow in int64 addition")
                    | _, _ => raise (TypeError "unsupported operand type(s) for -")
                    end) (values a) (values b) ;;
      ret (mkSeries timedelta64 vs)
  | datetime64, timedelta64 =>
      vs <- zipM (fun x y =>
                    match x, y with
                    | VTimestamp s, VTimedelta d =>
                        if timestamp_fits (s - d) then ret (VTimestamp (s - d))
                        else raise (OverflowError "Overflow in int64 addition")
                    | _, _ => raise (TypeError "unsupported operand type(s) for -")
                    end) (values a) (values b) ;;
      ret (mkSeries datetime64 vs)
  | object, object =>
      vs <- zipM (fun x y =>
                    match x, y with
                    | VTimestamp s, VTimestamp t => ret (VTimedelta (s - t))
                    | _, _ => raise (TypeError "unsupported operand type(s) for -")
                    end) (values a) (values b) ;;
      ret (mkSeries object vs)
  | datetime64, object =>
      vs <- zipM (fun x y =>
                    match x, y with
                    | VTimestamp s, VTimestamp t =>
                        if timestamp_fits t && in_int64 (s - t) then ret (VTimedelta (s - t))
                        else raise (ValueError "Out of bounds nanosecond timestamp")
                    | _, _ => raise (TypeError "unsupported operand type(s) for -")
                    end) (values a) (values b) ;;
      ret (mkSeries timedelta64 vs)
  | object, datetime64 =>
      raise (TypeError "cannot subtract DatetimeArray from ndarray")
  | _, _ => raise (TypeError "unsupported operand type(s) for -")
  end.

(** the [.dt] accessor *)
Definition dt (f : Z -> scalar) (out : dtype) (s : Series) : result Series :=
  match dtype_of s with
  | datetime64 =>
      vs <- mapM (fun v => match v with
                           | VTimestamp t => ret (f t)
                           | _ => raise (TypeError "not a Timestamp")
                           end) (values s) ;;
      ret (mkSeries out vs)
  | _ => raise (AttributeError "Can only use .dt accessor with datetimelike values")
  end.

Definition dt_date : Series -> result Series :=
  dt (fun t => VDate (t / ns_per_day)) object.

Definition dt_day_name : Series -> result Series :=
  dt (fun t => VStr (Calendar.day_name (t / ns_per_day))) object.

Definition dt_weekday : Series -> result Series :=
  dt (fun t => VInt (Calendar.weekday (t / ns_per_day))) int64.

Definition dt_strftime_Y_m : Series -> result Series :=
  dt (fun t => VStr (Calendar.strftime_Y_m (t / ns_per_day))) object.

Definition dt_strftime_b : Series -> result Series :=
  dt (fun t => VStr (Calendar.strftime_b (t / ns_per_day))) object.

(** [s.astype('timedelta64[D]')] on integers: numpy's cast, each integer
    is a count of days *)
Definition astype_timedelta_days (s : Series) : result Series :=
  match dtype_of s with
  | int64 =>
      vs <- mapM (fun v => match v with
                           | VInt n => ret (VTimedelta (n * ns_per_day))
                           | _ => raise (TypeError "not an integer")
                           end) (values s) ;;
      ret (mkSeries timedelta64 vs)
  | _ => raise (TypeError "cannot astype to timedelta64[D]")
  end.

(** [s / np.timedelta64(1, unit)]: both counts of nanoseconds become
    doubles and the quotient is rounded *)
Definition div_timedelta (s : Series) (unit_ns : Z) : result Series :=
  match dtype_of s with
  | timedelta64 =>
      vs <- mapM (fun v => match v with
                           | VTimedelta d =>
                               ret (VFloat (Float64.round
                                      (Float64.round (inject_Z d)
                                       / Float64.round (inject_Z unit_ns))))
                           | _ => raise (TypeError "not a Timedelta")
                           end) (values s) ;;
      ret (mkSeries float64 vs)
  | _ => raise (TypeError "unsupported operand type(s) for /")
  end.

(** [s.round()] on doubles: to the nearest integer, ties to even *)
Definition round_ (s : Series) : result Series :=
  match dtype_of s with
  | float64 =>
      vs <- mapM (fun v => match v with
                           | VFloat x => ret (VFloat (inject_Z (Float64.rint x)))
                           | _ => raise (TypeError "not a float")
                           end) (values s) ;;
      ret (mkSeries float64 vs)
  | _ => raise (TypeError "cannot round")
  end.

(** [s.astype(dtype='int64')] on doubles: truncation *)
Definition astype_int64 (s : Series) : result Series :=
  match dtype_of s with
  | float64 =>
      vs <- mapM (fun v => match v with
                           | VFloat x => ret (VInt (Z.quot (Qnum x) (Zpos (Qden x))))
                           | _ => raise (TypeError "not a float")
                           end) (values s) ;;
      ret (mkSeries int64 vs)
  | _ => raise (TypeError "cannot astype to int64")
  end.

(** [s.apply(f)] for a function of an int that returns a str *)
Definition apply (f : Z -> result string) (s : Series) : result Series :=
  vs <- mapM (fun v => match v with
                       | VInt n => t <- f n ;; ret (VStr t)
                       | _ => raise (TypeError "unsupported operand type(s) for /")
                       end) (values s) ;;
  ret (mkSeries object vs).

(** [s.astype('category')]: the categories are the sorted distinct values *)
Definition astype_category (s : Series) : Series :=
  let cats := map (fun k => hd (VInt 0) k)
                  (sort_keys (unique_keys (map (fun v => [v]) (values s)))) in
  mkSeries (category cats false) (values s).

Definition same_items (l1 l2 : list scalar) : bool :=
  forallb (fun a => existsb (scalar_eqb a) l2) l1 &&
  forallb (fun b => existsb (scalar_eqb b) l1) l2.

(** [s.cat.reorder_categories(new_categories, ordered=ordered)] *)
Definition reorder_categories (s : Series) (new_categories : list scalar) (ordered : bool)
  : result Series :=
  match dtype_of s with
  | category cats _ =>
      if same_items cats new_categories
      then ret (mkSeries (category new_categories ordered) (values s))
      else raise (ValueError "items in new_categories are not the same as in old categories")
  | _ => raise (AttributeError "Can only use .cat accessor with a 'category' dtype")
  end.

(** [s >= d] for a column of dates *)
Definition ge_date (s : Series) (d : Z) : result (list bool) :=
  mapM (fun v => match v with
                 | VDate o => ret (d <=? o)
                 | _ => raise (TypeError "'>=' not supported")
                 end) (values s).

(** *** groupby(keys, as_index=False)[val].sum() *)

Fixpoint sum_for (k : list scalar) (kv : list (list scalar * Z)) : Z :=
  match kv with
  | [] => 0
  | (k', v) :: kv' => (if key_eqb k k' then v else 0) + sum_for k kv'
  end.

(** int64 addition wraps around *)
Definition wrap64 (z : Z) : Z := (z + 2 ^ 63) mod 2 ^ 64 - 2 ^ 63.

(** one bucket per distinct key, in key order, with the sum of its rows *)
Definition group_sum (kv : list (list scalar * Z)) : list (list scalar * Z) :=
  map (fun k => (k, wrap64 (sum_for k kv))) (sort_keys (unique_keys (map fst kv))).

(** the numbers a column sums, and how a total goes back in the column *)
Definition summands (s : Series) : result (list Z * (Z -> scalar)) :=
  match dtype_of s with
  | int64 =>
      ns <- mapM (fun v => match v with
                           | VInt n => ret n
                           | _ => raise (TypeError "not an integer")
                           end) (values s) ;;
      ret (ns, VInt)
  | timedelta64 =>
      ns <- mapM (fun v => match v with
                           | VTimedelta n => ret n
                           | _ => raise (TypeError "not a Timedelta")
                           end) (values s) ;;
      ret (ns, VTimedelta)
  | _ => raise (TypeError "sum is not modelled for this dtype")
  end.

Definition groupby_sum (df : DataFrame) (keys : list string) (val : string)
  : result DataFrame :=
  key_cols <- mapM (getitem df) keys ;;
  val_col <- getitem df val ;;
  nw <- summands val_col ;;
  let buckets :=
    group_sum (combine (zip_rows (nrows df) (map values key_cols)) (fst nw)) in
  let key_out :=
    map (fun jc =>
           (fst (snd jc),
            mkSeries (dtype_of (snd (snd jc)))
                     (map (fun b => nth (fst jc) (fst b) (VInt 0)) buckets)))
        (combine (seq 0 (List.length keys)) (combine keys key_cols)) in
  ret (key_out ++ [(val, mkSeries (dtype_of val_col) (map (fun b => snd nw (snd b)) buckets))]).

End Pandas.

(** ** dbsanddfs.py: the two tables

    The engine is SQLite.  An id left out of an INSERT is 1 in an empty
    table and otherwise the largest id of the table plus one, negative ids
    included.  Past the largest id 2^63 - 1 SQLite draws an unused id at
    random, which a function of the table cannot give: [next_rowid] is the
    engine's choice for tables whose ids are below 2^63 - 1, and the
    theorems that name a new id say so.  Foreign keys are not enforced
    (SQLAlchemy leaves the pragma off), so deleting a category leaves the
    log rows that name it as they are. *)

Module SQLAlchemyDB.

Record category_row : Type :=
  mkCategory { c_id : Z; c_activity : string; c_grouping : string }.

Record log_row : Type :=
  mkLog { l_id : Z; l_taskid : Z; l_start : Z; l_stop : Z; l_comments : option string }.

Record db : Type :=
  mkDB { category_table : list category_row; log_table : list log_row }.

(** the largest id of a table that has a row *)
Definition max_rowid (i : Z) (ids : list Z) : Z := fold_right Z.max i ids.

Definition next_rowid (ids : list Z) : Z :=
  match ids with
  | [] => 1
  | i :: ids' => max_rowid i ids' + 1
  end.

Definition check_empty_table {A : Type} (table : list A) : option A := hd_error table.

Definition view_categories (self : db) : list category_row := category_table self.

Definition insert_timestamp (self : db) (activity start stop : Z) : db :=
  mkDB (category_table self)
       (log_table self ++
        [mkLog (next_rowid (map l_id (log_table self))) activity start stop None]).

Definition insert_activity (self : db) (activity category : string) : db :=
  mkDB (category_table self ++
        [mkCategory (next_rowid (map c_id (category_table self))) activity category])
       (log_table self).

Definition delete_activity (self : db) (activity category : string) : db :=
  mkDB (filter (fun c => negb (String.eqb (c_activity c) activity &&
                               String.eqb (c_grouping c) category))
               (category_table self))
       (log_table self).

Definition update_activity (self : db)
  (old_activity old_category new_activity new_category : string) : db :=
  mkDB (map (fun c => if String.eqb (c_activity c) old_activity &&
                         String.eqb (c_grouping c) old_category
                      then mkCategory (c_id c) new_activity new_category
                      else c)
            (category_table self))
       (log_table self).

(** [__init__] on the tables found at [db_path] (both empty for a new
    file); [now] and [now'] are the two readings of [datetime.now()]. *)
Definition init (found : db) (now now' : Z) : db :=
  let self :=
    match check_empty_table (category_table found) with
    | None => insert_activity found "Add Tasks on the Setup Tab" "Double click to edit"
    | Some _ => found
    end in
  match check_empty_table (log_table self) with
  | None => insert_timestamp self 1 now now'
  | Some _ => self
  end.

End SQLAlchemyDB.

(** ** dbsanddfs.py: the summaries *)

Module AnalysisGraphDFs.
Import Py Pandas SQLAlchemyDB.

(** a row of the SELECT of [get_log_df] *)
Record Row : Type :=
  mkRow { id : Z; activity : string; grouping : string; start : Z; stop : Z }.

(** [select(log.id, category.activity, category.grouping, log.start,
    log.stop).where(log.taskid == category.id)] *)
Definition select_log (self : db) : list Row :=
  flat_map (fun l =>
              map (fun c => mkRow (l_id l) (c_activity c) (c_grouping c) (l_start l) (l_stop l))
                  (filter (fun c => l_taskid l =? c_id c) (category_table self)))
           (log_table self).

(** a column of [datetime] objects: datetime64[ns] when every one of them
    fits, and otherwise left a column of objects *)
Definition datetimes (ns : Row -> Z) (result : list Row) : Series :=
  mkSeries (if forallb (fun r => timestamp_fits (ns r)) result then datetime64 else object)
           (map (fun r => VTimestamp (ns r)) result).

(** [pd.DataFrame(result)]: the columns are the fields of the first row,
    so an empty result makes a frame with no column at all. *)
Definition DataFrame (result : list Row) : Pandas.DataFrame :=
  match result with
  | [] => []
  | _ :: _ =>
      [("id", mkSeries int64 (map (fun r => VInt (id r)) result));
       ("activity", mkSeries object (map (fun r => VStr (activity r)) result));
       ("grouping", mkSeries object (map (fun r => VStr (grouping r)) result));
       ("start", datetimes (fun r => start r * 1000) result);
       ("stop", datetimes (fun r => stop r * 1000) result)]%string
  end.

Definition get_log_df (self : db) : result Pandas.DataFrame :=
  let result := select_log self in
  let df := DataFrame result in
  (* df cleanup *)
  stop_ <- getitem df "stop" ;;
  start_ <- getitem df "start" ;;
  duration <- sub stop_ start_ ;;
  let df := setitem df "duration" duration in
  start_ <- getitem df "start" ;;
  date <- dt_date start_ ;;
  let df := setitem df "date" date in
  start_ <- getitem df "start" ;;
  day <- dt_day_name start_ ;;
  let df := setitem df "DayOfWeek" day in
  duration <- getitem df "duration" ;;
  seconds <- div_timedelta duration 1000000000 ;;
  let df := setitem df "seconds_duration" seconds in
  seconds <- getitem df "seconds_duration" ;;
  seconds <- round_ seconds ;;
  let df := setitem df "seconds_duration" seconds in
  seconds <- getitem df "seconds_duration" ;;
  seconds <- astype_int64 seconds ;;
  let df := setitem df "seconds_duration" seconds in
  ret df.

Definition weekdays : list scalar :=
  map VStr ["Monday"; "Tuesday"; "Wednesday"; "Thursday"; "Friday"; "Saturday"; "Sunday"]%string.

(** [try: body except ValueError as e: print(e)]; what is printed is not
    part of the state *)
Definition try_except_ValueError {A : Type} (body : result A) (otherwise : A) : result A :=
  match body with
  | inl (ValueError _) => ret otherwise
  | other => other
  end.

Definition order_weekdays (df : Pandas.DataFrame) : result Pandas.DataFrame :=
  try_except_ValueError
    (day <- getitem df "DayOfWeek" ;;
     day <- reorder_categories day weekdays true ;;
     ret (setitem df "DayOfWeek" day))
    df.

(** The summaries also store the log frame in [self.log_df]; nothing
    reads it back, so it is not part of the state here. *)
Definition get_df_log_summary (self : db) : result Pandas.DataFrame :=
  log_df <- get_log_df self ;;
  (* group by day and day of week *)
  df_log_summary <- groupby_sum log_df ["date"; "DayOfWeek"]%string "seconds_duration" ;;
  seconds <- getitem df_log_summary "seconds_duration" ;;
  hms <- apply TimerFuncs.get_time_hms seconds ;;
  let df_log_summary := setitem df_log_summary "hms_duration" hms in
  day <- getitem df_log_summary "DayOfWeek" ;;
  let df_log_summary := setitem df_log_summary "DayOfWeek" (astype_category day) in
  df_log_summary <- order_weekdays df_log_summary ;;
  select df_log_summary ["date"; "DayOfWeek"; "hms_duration"]%string.

Definition get_df_log_summary_weeks (self : db) : result Pandas.DataFrame :=
  df <- get_log_df self ;;
  (* week start, starts on Monday *)
  start_ <- getitem df "start" ;;
  start' <- getitem df "start" ;;
  weekday <- dt_weekday start' ;;
  days <- astype_timedelta_days weekday ;;
  week_start <- sub start_ days ;;
  let df := setitem df "week_start" week_start in
  week_start <- getitem df "week_start" ;;
  week_start <- dt_date week_start ;;
  let df := setitem df "week_start" week_start in
  (* week grouping and summation of total hh:mm:ss *)
  df_week_summary <- groupby_sum df ["week_start"]%string "seconds_duration" ;;
  seconds <- getitem df_week_summary "seconds_duration" ;;
  hms <- apply TimerFuncs.get_time_hms seconds ;;
  let df_week_summary := setitem df_week_summary "hms_duration" hms in
  let df_week_summary := setitem_scalar df_week_summary "day" (VStr "Monday") in
  select df_week_summary ["week_start"; "day"; "hms_duration"]%string.

Definition get_df_log_summary_months (self : db) : result Pandas.DataFrame :=
  df <- get_log_df self ;;
  (* generate two columns *)
  start_ <- getitem df "start" ;;
  year_month <- dt_strftime_Y_m start_ ;;
  let df := setitem df "year_month" year_month in
  start_ <- getitem df "start" ;;
  month_name <- dt_strftime_b start_ ;;
  let df := setitem df "month_name" month_name in
  (* grouping and summation of total seconds for unrestricted hh:mm:ss *)
  df_month_summary <- groupby_sum df ["year_month"; "month_name"]%string "seconds_duration" ;;
  seconds <- getitem df_month_summary "seconds_duration" ;;
  hms <- apply TimerFuncs.get_time_hms seconds ;;
  let df_month_summary := setitem df_month_summary "hms_duration" hms in
  select df_month_summary ["year_month"; "month_name"; "hms_duration"]%string.

(** [today] is the reading of [date.today()] *)
Definition get_df_summary (self : db) (today : Z) (days : Z) : result Pandas.DataFrame :=
  log_df <- get_log_df self ;;
  df_summary <- groupby_sum log_df ["date"; "DayOfWeek"]%string "duration" ;;
  (* convert duration from timedelta to float hours *)
  duration <- getitem df_summary "duration" ;;
  hours <- div_timedelta duration 3600000000000 ;;
  let df_summary := setitem df_summary "duration" hours in
  day <- getitem df_summary "DayOfWeek" ;;
  let df_summary := setitem df_summary "DayOfWeek" (astype_category day) in
  df_summary <- order_weekdays df_summary ;;
  if days =? 7 then
    date <- getitem df_summary "date" ;;
    filt <- ge_date date (TimeDeltaDays.last_seven_days today) ;;
    ret (filter_rows df_summary filt)
  else if days =? 30 then
    date <- getitem df_summary "date" ;;
    filt <- ge_date date (TimeDeltaDays.last_thirty_days today) ;;
    ret (filter_rows df_summary filt)
  else ret df_summary.

End AnalysisGraphDFs.

(** ** Vocabulary for the statements: what one row of the SELECT
    contributes, and how a summary is read row by row *)

Module Enriched.
Import Pandas AnalysisGraphDFs.

(** the calendar date of [start], as an ordinal *)
Definition row_date (r : Row) : Z := start r * 1000 / ns_per_day.

Definition row_day_name (r : Row) : string := Calendar.day_name (row_date r).

(** [stop - start] in nanoseconds *)
Definition row_duration (r : Row) : Z := stop r * 1000 - start r * 1000.

(** the rounded count of seconds of a timedelta of [d] nanoseconds *)
Definition seconds_of (d : Z) : Z :=
  Float64.rint (Float64.round (Float64.round (inject_Z d)
                               / Float64.round (inject_Z 1000000000))).

Definition row_seconds (r : Row) : Z := seconds_of (row_duration r).

(** the float count of hours of a timedelta of [d] nanoseconds *)
Definition hours_of (d : Z) : Q :=
  Float64.round (Float64.round (inject_Z d) / Float64.round (inject_Z 3600000000000)).

Definition row_week_start (r : Row) : Z := row_date r - Calendar.weekday (row_date r).

(** the frame [get_log_df] builds from the rows of its SELECT *)
Definition enriched (rs : list Row) : Pandas.DataFrame :=
  [("id", mkSeries int64 (map (fun r => VInt (id r)) rs));
   ("activity", mkSeries object (map (fun r => VStr (activity r)) rs));
   ("grouping", mkSeries object (map (fun r => VStr (grouping r)) rs));
   ("start", mkSeries datetime64 (map (fun r => VTimestamp (start r * 1000)) rs));
   ("stop", mkSeries datetime64 (map (fun r => VTimestamp (stop r * 1000)) rs));
   ("duration", mkSeries timedelta64 (map (fun r => VTimedelta (row_duration r)) rs));
   ("date", mkSeries object (map (fun r => VDate (row_date r)) rs));
   ("DayOfWeek", mkSeries object (map (fun r => VStr (row_day_name r)) rs));
   ("seconds_duration", mkSeries int64 (map (fun r => VInt (row_seconds r)) rs))]%string.

(** whether pandas holds the row: both timestamps fit datetime64[ns] and
    their difference fits timedelta64[ns] *)
Definition in_range (r : Row) : bool :=
  timestamp_fits (start r * 1000) && timestamp_fits (stop r * 1000)
  && in_int64 (row_duration r).

(** whether the Monday that starts the week of the row fits datetime64[ns]
    at the time of day of [start] *)
Definition week_in_range (r : Row) : bool :=
  timestamp_fits (start r * 1000 - Calendar.weekday (row_date r) * ns_per_day).

(** what [get_log_df] raises on the rows of its SELECT, if it raises *)
Definition log_check (rs : list Row) : Py.result unit :=
  match rs with
  | [] => Py.raise (Py.KeyError "stop")
  | _ :: _ =>
      match forallb (fun r => timestamp_fits (stop r * 1000)) rs,
            forallb (fun r => timestamp_fits (start r * 1000)) rs with
      | true, true =>
          if forallb (fun r => in_int64 (row_duration r)) rs then Py.ret tt
          else Py.raise (Py.OverflowError "Overflow in int64 addition")
      | true, false => Py.raise (Py.ValueError "Out of bounds nanosecond timestamp")
      | false, true => Py.raise (Py.TypeError "cannot subtract DatetimeArray from ndarray")
      | false, false =>
          Py.raise (Py.AttributeError "Can only use .dt accessor with datetimelike values")
      end
  end.

(** what the subtraction of the weekdays raises in the weekly summary *)
Definition week_check (rs : list Row) : Py.result unit :=
  if forallb week_in_range rs then Py.ret tt
  else Py.raise (Py.OverflowError "Overflow in int64 addition").

Definition daily_key (r : Row) : list scalar := [VDate (row_date r); VStr (row_day_name r)].

Definition weekly_key (r : Row) : list scalar := [VDate (row_week_start r)].

Definition monthly_key (r : Row) : list scalar :=
  [VStr (Calendar.strftime_Y_m (row_date r)); VStr (Calendar.strftime_b (row_date r))].

(** the buckets of the summaries: key and wrapped total *)
Definition daily_buckets (rs : list Row) : list (list scalar * Z) :=
  group_sum (map (fun r => (daily_key r, row_seconds r)) rs).

Definition weekly_buckets (rs : list Row) : list (list scalar * Z) :=
  group_sum (map (fun r => (weekly_key r, row_seconds r)) rs).

Definition monthly_buckets (rs : list Row) : list (list scalar * Z) :=
  group_sum (map (fun r => (monthly_key r, row_seconds r)) rs).

Definition hours_buckets (rs : list Row) : list (list scalar * Z) :=
  group_sum (map (fun r => (daily_key r, row_duration r)) rs).

(** the dtype of the weekday column once [order_weekdays] is through:
    the seven names in order when all seven occur, and otherwise the
    unordered categories that [astype('category')] made *)
Definition weekday_dtype (days : list scalar) : dtype :=
  let cats := map (fun k => hd (VInt 0) k)
                  (sort_keys (unique_keys (map (fun v => [v]) days))) in
  if same_items cats weekdays then category weekdays true else category cats false.

(** the text [get_time_hms] returns *)
Definition hms_text (total : Z) : string :=
  match TimerFuncs.get_time_hms total with
  | inr t => t
  | inl _ => EmptyString
  end.

Definition key_cell (j : nat) (b : list scalar * Z) : scalar := nth j (fst b) (VInt 0).

Definition daily_frame (B : list (list scalar * Z)) : Pandas.DataFrame :=
  [("date", mkSeries object (map (key_cell 0) B));
   ("DayOfWeek", mkSeries (weekday_dtype (map (key_cell 1) B)) (map (key_cell 1) B));
   ("hms_duration", mkSeries object (map (fun b => VStr (hms_text (snd b))) B))]%string.

Definition weekly_frame (B : list (list scalar * Z)) : Pandas.DataFrame :=
  [("week_start", mkSeries object (map (key_cell 0) B));
   ("day", mkSeries object (map (fun _ => VStr "Monday") B));
   ("hms_duration", mkSeries object (map (fun b => VStr (hms_text (snd b))) B))]%string.

Definition monthly_frame (B : list (list scalar * Z)) : Pandas.DataFrame :=
  [("year_month", mkSeries object (map (key_cell 0) B));
   ("month_name", mkSeries object (map (key_cell 1) B));
   ("hms_duration", mkSeries object (map (fun b => VStr (hms_text (snd b))) B))]%string.

Definition hours_frame (B : list (list scalar * Z)) : Pandas.DataFrame :=
  [("date", mkSeries object (map (key_cell 0) B));
   ("DayOfWeek", mkSeries (weekday_dtype (map (key_cell 1) B)) (map (key_cell 1) B));
   ("duration", mkSeries float64 (map (fun b => VFloat (hours_of (snd b))) B))]%string.

(** the rows of the three frames *)
Definition daily_row (b : list scalar * Z) : list scalar :=
  [key_cell 0 b; key_cell 1 b; VStr (hms_text (snd b))].

Definition weekly_row (b : list scalar * Z) : list scalar :=
  [key_cell 0 b; VStr "Monday"; VStr (hms_text (snd b))].

Definition hours_row (b : list scalar * Z) : list scalar :=
  [key_cell 0 b; key_cell 1 b; VFloat (hours_of (snd b))].

(** whether a row of the SELECT belongs to the activity ([activity],
    [grouping]) that [delete_activity] removes *)
Definition of_activity (a g : string) (r : Row) : bool :=
  String.eqb (activity r) a && String.eqb (grouping r) g.

(** the date filter of the windowed summary, in the words of the
    specification: since [today - 7] for 7, since [today - 30] for 30, and
    no filter otherwise *)
Definition in_window (today days : Z) (row : list scalar) : bool :=
  match row with
  | VDate d :: _ =>
      if days =? 7 then today - 7 <=? d
      else if days =? 30 then today - 30 <=? d
      else true
  | _ => negb ((days =? 7) || (days =? 30))
  end.

End Enriched.

(** ** Stores used as examples *)

Module Examples.
Import SQLAlchemyDB Calendar.

(** one activity and the interval 2024-01-01 09:00 to 10:30 *)
Definition one_interval : db :=
  mkDB [mkCategory 1 "A" "work"]
       [mkLog 1 1 (datetime 2024 1 1 9 0 0) (datetime 2024 1 1 10 30 0) None].

(** two activities on one date *)
Definition two_activities_one_date : db :=
  mkDB [mkCategory 1 "A" "work"; mkCategory 2 "B" "home"]
       [mkLog 1 1 (datetime 2024 1 1 9 0 0) (datetime 2024 1 1 10 30 0) None;
        mkLog 2 2 (datetime 2024 1 1 13 0 0) (datetime 2024 1 1 13 45 10) None].

(** entries on a Tuesday and on a Thursday only *)
Definition tuesday_thursday : db :=
  mkDB [mkCategory 1 "A" "work"; mkCategory 2 "B" "home"]
       [mkLog 1 1 (datetime 2024 1 2 9 0 0) (datetime 2024 1 2 10 30 0) None;
        mkLog 2 2 (datetime 2024 1 4 9 0 0) (datetime 2024 1 4 9 20 0) None;
        mkLog 3 1 (datetime 2024 1 4 11 0 0) (datetime 2024 1 4 11 40 0) None].

(** an interval that starts on Wednesday 2024-01-03 *)
Definition wednesday : db :=
  mkDB [mkCategory 1 "A" "work"]
       [mkLog 1 1 (datetime 2024 1 3 9 0 0) (datetime 2024 1 3 10 0 0) None].

(** a new database file, opened, and its placeholder activity deleted on
    the Setup tab *)
Definition placeholder_deleted : db :=
  delete_activity (init (mkDB [] []) (datetime 2024 1 1 9 0 0) (datetime 2024 1 1 9 0 0))
                  "Add Tasks on the Setup Tab" "Double click to edit".

(** the interval 1600-01-03 09:00 to 10:30, before the first timestamp
    that datetime64[ns] holds *)
Definition year_1600 : db :=
  mkDB [mkCategory 1 "A" "work"]
       [mkLog 1 1 (datetime 1600 1 3 9 0 0) (datetime 1600 1 3 10 30 0) None].

(** an interval whose category row does not exist *)
Definition dangling_only : db :=
  mkDB [mkCategory 1 "A" "work"]
       [mkLog 1 7 (datetime 2024 1 1 9 0 0) (datetime 2024 1 1 10 30 0) None].

End Examples.

(** ** More stores used as examples *)

Module MoreExamples.
Import SQLAlchemyDB Calendar.

(** one hour of one activity on each day of the week of Monday
    2024-01-01 *)
Definition full_week : db :=
  mkDB [mkCategory 1 "A" "work"]
       (map (fun k => mkLog k 1 (datetime 2024 1 k 9 0 0) (datetime 2024 1 k 10 0 0) None)
            [1; 2; 3; 4; 5; 6; 7]).

End MoreExamples.

(** * Properties *)

(** ** binary64: rounding never crosses a number a double holds *)

Section FloatFacts.
Import Float64.
Local Open Scope Q_scope.

Lemma pow2_pos e : 0 < pow2 e.
Proof. apply Qpower_0_lt. reflexivity. Qed.

Lemma pow2_add a b : pow2 (a + b) == pow2 a * pow2 b.
Proof. apply Qpower_plus. discriminate. Qed.

Lemma pow2_Z n : (0 <= n)%Z -> pow2 n == inject_Z (2 ^ n).
Proof. intros H. unfold pow2. rewrite Zpower_Qpower by assumption. reflexivity. Qed.

Lemma pow2_le a b : (a <= b)%Z -> pow2 a <= pow2 b.
Proof. intros H. apply Qpower_le_compat_l; [assumption | discriminate]. Qed.

Lemma pow2_succ a : pow2 (a + 1) == 2 * pow2 a.
Proof. rewrite pow2_add. unfold pow2 at 2. simpl. ring. Qed.

Lemma pow2_pred a : 2 * pow2 (a - 1) == pow2 a.
Proof. rewrite <- pow2_succ. replace (a - 1 + 1)%Z with a by lia. reflexivity. Qed.

Lemma Qmake_mult_den n d : (n # d) * inject_Z (Zpos d) == inject_Z n.
Proof. unfold Qeq, Qmult, inject_Z. simpl. rewrite Pos.mul_1_r. ring. Qed.

Lemma ilog2_spec x : 0 < x -> pow2 (ilog2 x) <= x /\ x < pow2 (ilog2 x + 1).
Proof.
  intros Hx. destruct x as [n d]. unfold ilog2. cbn [Qnum Qden].
  assert (Hn : (0 < n)%Z).
  { unfold Qlt in Hx. simpl in Hx. lia. }
  set (la := Z.log2 n). set (lb := Z.log2 (Zpos d)).
  destruct (Z.log2_spec n Hn) as [Ha1 Ha2]. fold la in Ha1, Ha2.
  destruct (Z.log2_spec (Zpos d) eq_refl) as [Hb1 Hb2]. fold lb in Hb1, Hb2.
  assert (Hla : (0 <= la)%Z) by apply Z.log2_nonneg.
  assert (Hlb : (0 <= lb)%Z) by apply Z.log2_nonneg.
  assert (Hup : n # d < pow2 (la - lb + 1)).
  { assert (E : pow2 (la - lb + 1) * pow2 lb == pow2 (la + 1)).
    { rewrite <- pow2_add. replace (la - lb + 1 + lb)%Z with (la + 1)%Z by lia. reflexivity. }
    rewrite (pow2_Z lb), (pow2_Z (la + 1)) in E by lia.
    apply (Qmult_lt_r _ _ (inject_Z (Zpos d))); [reflexivity|].
    apply Qlt_le_trans with (pow2 (la - lb + 1) * inject_Z (2 ^ lb)).
    - rewrite E, Qmake_mult_den. rewrite <- Zlt_Qlt. lia.
    - apply Qmult_le_l; [apply pow2_pos|]. now rewrite <- Zle_Qle. }
  assert (Hlo : pow2 (la - lb - 1) < n # d).
  { assert (E : pow2 (la - lb - 1) * pow2 (lb + 1) == pow2 la).
    { rewrite <- pow2_add. replace (la - lb - 1 + (lb + 1))%Z with la by lia. reflexivity. }
    rewrite (pow2_Z (lb + 1)), (pow2_Z la) in E by lia.
    apply (Qmult_lt_r _ _ (inject_Z (Zpos d))); [reflexivity|].
    apply Qlt_le_trans with (pow2 (la - lb - 1) * inject_Z (2 ^ (lb + 1))).
    - apply Qmult_lt_l; [apply pow2_pos|]. rewrite <- Zlt_Qlt. lia.
    - rewrite E, Qmake_mult_den. now rewrite <- Zle_Qle. }
  destruct (Qle_bool (pow2 (la - lb)) (n # d)) eqn:Hc.
  - apply Qle_bool_iff in Hc. split; assumption.
  - split.
    + apply Qlt_le_weak. assumption.
    + replace (la - lb - 1 + 1)%Z with (la - lb)%Z by lia.
      apply Qnot_le_lt. intros H. apply Qle_bool_iff in H. congruence.
Qed.

Lemma rint_le_int y w : y <= inject_Z w -> (rint y <= w)%Z.
Proof.
  intros H. unfold rint.
  pose proof (Qfloor_le y) as Hf.
  assert (Hfw : (Qfloor y <= w)%Z).
  { rewrite Zle_Qle. eapply Qle_trans; eauto. }
  assert (Hstep : 0 < y - inject_Z (Qfloor y) -> (Qfloor y + 1 <= w)%Z).
  { intros Hp. assert (Hlt : inject_Z (Qfloor y) < inject_Z w) by lra.
    rewrite <- Zlt_Qlt in Hlt. lia. }
  destruct (y - inject_Z (Qfloor y) ?= 1 # 2) eqn:Hc.
  - apply Qeq_alt in Hc. destruct (Z.even (Qfloor y)); [assumption|].
    apply Hstep. rewrite Hc. reflexivity.
  - assumption.
  - apply Qgt_alt in Hc. apply Hstep. lra.
Qed.

Lemma rint_ge_int y w : inject_Z w <= y -> (w <= rint y)%Z.
Proof.
  intros H. unfold rint.
  assert (Hfw : (w <= Qfloor y)%Z).
  { apply Qfloor_resp_le in H. now rewrite Qfloor_Z in H. }
  destruct (y - inject_Z (Qfloor y) ?= 1 # 2);
    [destruct (Z.even (Qfloor y))| |]; lia.
Qed.

Lemma representable_opp r : representable r -> representable (- r).
Proof.
  intros (m & c & Hm & Hr). exists (- m)%Z, c. split; [lia|].
  rewrite Hr, inject_Z_opp. ring.
Qed.

Lemma representable_Z n : (Z.abs n < 2 ^ 53)%Z -> representable (inject_Z n).
Proof.
  intros H. exists n, 0%Z. split; [assumption|]. unfold pow2. simpl. ring.
Qed.

Lemma round_pos_eq x :
  round_pos x == inject_Z (rint (x / pow2 (ilog2 x - 52))) * pow2 (ilog2 x - 52).
Proof. unfold round_pos. apply Qred_correct. Qed.

Lemma scaled_bounds x :
  0 < x ->
  pow2 52 <= x / pow2 (ilog2 x - 52) /\ x / pow2 (ilog2 x - 52) < pow2 53.
Proof.
  intros Hx. destruct (ilog2_spec x Hx) as [H1 H2].
  set (e := (ilog2 x - 52)%Z).
  assert (E1 : pow2 (ilog2 x) == pow2 52 * pow2 e).
  { rewrite <- pow2_add. unfold e. now replace (52 + (ilog2 x - 52))%Z with (ilog2 x) by lia. }
  assert (E2 : pow2 (ilog2 x + 1) == pow2 53 * pow2 e).
  { rewrite <- pow2_add. unfold e. now replace (53 + (ilog2 x - 52))%Z with (ilog2 x + 1)%Z by lia. }
  split.
  - apply Qle_shift_div_l; [apply pow2_pos|]. now rewrite <- E1.
  - apply Qlt_shift_div_r; [apply pow2_pos|]. now rewrite <- E2.
Qed.

Lemma small_repr_lt m c e :
  (Z.abs m < 2 ^ 53)%Z -> (c < e)%Z -> inject_Z m * pow2 c < pow2 52 * pow2 e.
Proof.
  intros Hm Hc.
  apply Qlt_le_trans with (pow2 53 * pow2 c).
  - apply Qmult_lt_compat_r; [apply pow2_pos|].
    rewrite (pow2_Z 53) by lia. rewrite <- Zlt_Qlt. lia.
  - rewrite <- !pow2_add. apply pow2_le. lia.
Qed.

Lemma round_pos_le x u :
  0 < x -> x <= u -> representable u -> round_pos x <= u.
Proof.
  intros Hx Hxu (m & c & Hm & Hu).
  destruct (scaled_bounds x Hx) as [Hlo _].
  rewrite round_pos_eq. set (e := (ilog2 x - 52)%Z) in *.
  pose proof (pow2_pos e) as He.
  destruct (Z_le_gt_dec e c) as [Hc | Hc].
  - assert (Ew : u == inject_Z (m * 2 ^ (c - e)) * pow2 e).
    { rewrite Hu, inject_Z_mult, <- (pow2_Z (c - e)) by lia.
      rewrite <- Qmult_assoc, <- pow2_add. now replace (c - e + e)%Z with c by lia. }
    rewrite Ew. apply Qmult_le_compat_r; [|now apply Qlt_le_weak].
    rewrite <- Zle_Qle. apply rint_le_int.
    apply Qle_shift_div_r; [assumption|]. now rewrite <- Ew.
  - exfalso. assert (Hlt : u < pow2 52 * pow2 e).
    { rewrite Hu. apply small_repr_lt; [assumption | lia]. }
    assert (Hx' : pow2 52 * pow2 e <= x).
    { apply (Qmult_le_compat_r _ _ (pow2 e)) in Hlo; [|now apply Qlt_le_weak].
      eapply Qle_trans; [exact Hlo|]. unfold Qdiv.
      rewrite <- Qmult_assoc, (Qmult_comm (/ pow2 e)), Qmult_inv_r; [|lra]. lra. }
    lra.
Qed.

Lemma round_pos_ge x l :
  0 < x -> l <= x -> representable l -> l <= round_pos x.
Proof.
  intros Hx Hlx (m & c & Hm & Hl).
  destruct (scaled_bounds x Hx) as [Hlo _].
  rewrite round_pos_eq. set (e := (ilog2 x - 52)%Z) in *.
  pose proof (pow2_pos e) as He.
  assert (Hbig : pow2 52 <= inject_Z (rint (x / pow2 e))).
  { rewrite (pow2_Z 52) by lia. rewrite <- Zle_Qle. apply rint_ge_int.
    now rewrite <- (pow2_Z 52) by lia. }
  destruct (Z_le_gt_dec e c) as [Hc | Hc].
  - assert (Ew : l == inject_Z (m * 2 ^ (c - e)) * pow2 e).
    { rewrite Hl, inject_Z_mult, <- (pow2_Z (c - e)) by lia.
      rewrite <- Qmult_assoc, <- pow2_add. now replace (c - e + e)%Z with c by lia. }
    rewrite Ew. apply Qmult_le_compat_r; [|now apply Qlt_le_weak].
    rewrite <- Zle_Qle. apply rint_ge_int.
    apply Qle_shift_div_l; [assumption|]. now rewrite <- Ew.
  - apply Qlt_le_weak. apply Qlt_le_trans with (pow2 52 * pow2 e).
    + rewrite Hl. apply small_repr_lt; [assumption | lia].
    + apply Qmult_le_compat_r; [assumption | now apply Qlt_le_weak].
Qed.

Lemma round_le x u : x <= u -> representable u -> round x <= u.
Proof.
  intros Hxu Hu. unfold round. destruct (x ?= 0) eqn:Hc.
  - apply Qeq_alt in Hc. lra.
  - apply Qlt_alt in Hc.
    assert (H : - u <= round_pos (- x)).
    { apply round_pos_ge; [lra | lra | now apply representable_opp]. }
    lra.
  - apply Qgt_alt in Hc. apply round_pos_le; assumption.
Qed.

Lemma round_ge x l : l <= x -> representable l -> l <= round x.
Proof.
  intros Hlx Hl. unfold round. destruct (x ?= 0) eqn:Hc.
  - apply Qeq_alt in Hc. lra.
  - apply Qlt_alt in Hc.
    assert (H : round_pos (- x) <= - l).
    { apply round_pos_le; [lra | lra | now apply representable_opp]. }
    lra.
  - apply Qgt_alt in Hc. apply round_pos_ge; assumption.
Qed.

Lemma Qfloor_unique x k : inject_Z k <= x -> x < inject_Z (k + 1) -> Qfloor x = k.
Proof.
  intros H1 H2.
  assert (Ha : (k <= Qfloor x)%Z).
  { apply Qfloor_resp_le in H1. now rewrite Qfloor_Z in H1. }
  assert (Hb : (Qfloor x < k + 1)%Z).
  { rewrite Zlt_Qlt. eapply Qle_lt_trans; [apply Qfloor_le | exact H2]. }
  lia.
Qed.

Lemma round_bracket x a b p :
  (0 <= p)%Z -> (Z.abs a < 2 ^ 53)%Z -> (Z.abs (2 ^ p * b - 1) < 2 ^ 53)%Z ->
  inject_Z a <= x -> x <= inject_Z b - pow2 (- p) ->
  inject_Z a <= round x /\ round x <= inject_Z b - pow2 (- p).
Proof.
  intros Hp Ha Hpb Hax Hxb. split.
  - apply round_ge; [assumption | now apply representable_Z].
  - apply round_le; [assumption|].
    exists (2 ^ p * b - 1)%Z, (- p)%Z. split.
    + assumption.
    + unfold Zminus. rewrite inject_Z_plus, inject_Z_mult, <- (pow2_Z p) by assumption.
      assert (E : pow2 p * pow2 (- p) == 1).
      { rewrite <- pow2_add. now replace (p + - p)%Z with 0%Z by lia. }
      setoid_replace ((pow2 p * inject_Z b + inject_Z (- (1))) * pow2 (- p))
        with (inject_Z b * (pow2 p * pow2 (- p)) - pow2 (- p)) by (simpl; ring).
      rewrite E. ring.
Qed.

Lemma not_overflows r : - pow2 1023 <= r -> r <= pow2 1023 -> overflows r = false.
Proof.
  intros H1 H2. unfold overflows.
  destruct (Qle_bool (pow2 1024) (Qabs r)) eqn:Hc; [|reflexivity].
  apply Qle_bool_iff in Hc. exfalso.
  assert (Hlt : pow2 1023 < pow2 1024).
  { rewrite <- (pow2_pred 1024). replace (1024 - 1)%Z with 1023%Z by lia.
    pose proof (pow2_pos 1023). lra. }
  assert (Habs : Qabs r <= pow2 1023) by (apply Qabs_Qle_condition; split; assumption).
  lra.
Qed.

Lemma pow2_ge_Z n : (Z.abs n <= 2 ^ 1000)%Z -> - pow2 1023 <= inject_Z n /\ inject_Z n <= pow2 1023.
Proof.
  intros H.
  assert (Hle : inject_Z (2 ^ 1000) <= pow2 1023).
  { rewrite <- (pow2_Z 1000) by lia. apply pow2_le. lia. }
  assert (H1 : inject_Z n <= inject_Z (2 ^ 1000)) by (rewrite <- Zle_Qle; lia).
  assert (H2 : inject_Z (- 2 ^ 1000) <= inject_Z n) by (rewrite <- Zle_Qle; lia).
  rewrite inject_Z_opp in H2. split; lra.
Qed.

Lemma of_int_60 : of_int 60 = inr (60 # 1).
Proof. vm_compute. reflexivity. Qed.

Lemma truediv_int_60 x :
  truediv_int x 60 =
  if overflows (round (x / (60 # 1)))
  then Py.raise (Py.OverflowError "float quotient out of range")
  else Py.ret (round (x / (60 # 1))).
Proof. unfold truediv_int. rewrite of_int_60. reflexivity. Qed.

Lemma pow2_m6 : pow2 (- 6) == 1 # 64.
Proof. reflexivity. Qed.

Lemma pow2_m12 : pow2 (- 12) == 1 # 4096.
Proof. reflexivity. Qed.

(** Within 3600 * 2^41 seconds of zero the two float quotients floor to
    the exact integer quotients. *)
Lemma decompose_exact s :
  (- (3600 * 2 ^ 41) <= s < 3600 * 2 ^ 41)%Z ->
  exists q q' : float,
    int_truediv s 60 = inr q /\ truediv_int q 60 = inr q' /\
    floor q' = (s / 3600)%Z /\ floor q = (s / 60)%Z.
Proof.
  intros Hs.
  set (k := (s / 3600)%Z). set (j := (s / 60)%Z).
  assert (Hk : (3600 * k <= s < 3600 * k + 3600)%Z).
  { unfold k. pose proof (Z.mul_div_le s 3600). pose proof (Z.mul_succ_div_gt s 3600). lia. }
  assert (Hj : (60 * j <= s < 60 * j + 60)%Z).
  { unfold j. pose proof (Z.mul_div_le s 60). pose proof (Z.mul_succ_div_gt s 60). lia. }
  assert (P41 : (2 ^ 41 = 2199023255552)%Z) by reflexivity.
  assert (P53 : (2 ^ 53 = 9007199254740992)%Z) by reflexivity.
  assert (P6 : (2 ^ 6 = 64)%Z) by reflexivity.
  assert (P12 : (2 ^ 12 = 4096)%Z) by reflexivity.
  assert (Hk0 : (- 2 ^ 41 <= k < 2 ^ 41)%Z) by lia.
  assert (Hj0 : (- (60 * 2 ^ 41) <= j < 60 * 2 ^ 41)%Z) by lia.
  set (x := inject_Z s / inject_Z 60).
  assert (Ex : x * (60 # 1) == inject_Z s).
  { unfold x. change (inject_Z 60) with (60 # 1). field. }
  (* the integer facts, in Q *)
  assert (Qk1 : (60 # 1) * ((60 # 1) * inject_Z k) <= inject_Z s).
  { change (60 # 1) with (inject_Z 60). rewrite <- !inject_Z_mult, <- Zle_Qle. lia. }
  assert (Qk2 : inject_Z s <= (60 # 1) * ((60 # 1) * inject_Z k) + (3599 # 1)).
  { change (60 # 1) with (inject_Z 60). change (3599 # 1) with (inject_Z 3599).
    rewrite <- !inject_Z_mult, <- inject_Z_plus, <- Zle_Qle. lia. }
  assert (Qj1 : (60 # 1) * inject_Z j <= inject_Z s).
  { change (60 # 1) with (inject_Z 60). rewrite <- !inject_Z_mult, <- Zle_Qle. lia. }
  assert (Qj2 : inject_Z s <= (60 # 1) * inject_Z j + (59 # 1)).
  { change (60 # 1) with (inject_Z 60). change (59 # 1) with (inject_Z 59).
    rewrite <- !inject_Z_mult, <- inject_Z_plus, <- Zle_Qle. lia. }
  (* first quotient, bracketed by the minute count *)
  destruct (round_bracket x j (j + 1) 6) as [Bj1 Bj2]; try lia.
  { lra. }
  { rewrite inject_Z_plus, pow2_m6. change (inject_Z 1) with 1. lra. }
  (* and by sixty times the hour count *)
  destruct (round_bracket x (60 * k) (60 * (k + 1)) 6) as [Bk1 Bk2]; try lia.
  { rewrite inject_Z_mult. change (inject_Z 60) with (60 # 1). lra. }
  { rewrite inject_Z_mult, inject_Z_plus, pow2_m6.
    change (inject_Z 60) with (60 # 1). change (inject_Z 1) with 1. lra. }
  rewrite inject_Z_plus, pow2_m6 in Bj2. change (inject_Z 1) with 1 in Bj2.
  rewrite inject_Z_mult in Bk1.
  rewrite inject_Z_mult, inject_Z_plus, pow2_m6 in Bk2.
  change (inject_Z 60) with (60 # 1) in Bk1, Bk2. change (inject_Z 1) with 1 in Bk2.
  set (q := round x) in *.
  (* second quotient *)
  destruct (round_bracket (q / (60 # 1)) k (k + 1) 12) as [Bh1 Bh2]; try lia.
  { apply Qle_shift_div_l; [reflexivity | lra]. }
  { apply Qle_shift_div_r; [reflexivity|].
    rewrite inject_Z_plus, pow2_m12. change (inject_Z 1) with 1. lra. }
  rewrite inject_Z_plus, pow2_m12 in Bh2. change (inject_Z 1) with 1 in Bh2.
  set (q' := round (q / (60 # 1))) in *.
  assert (P1000 : (2 ^ 53 <= 2 ^ 1000)%Z) by (apply Z.pow_le_mono_r; lia).
  destruct (pow2_ge_Z j) as [Hlowj _]; [lia|].
  destruct (pow2_ge_Z (j + 1)) as [_ Hbigj]; [lia|].
  rewrite inject_Z_plus in Hbigj. change (inject_Z 1) with 1 in Hbigj.
  destruct (pow2_ge_Z k) as [Hlowk _]; [lia|].
  destruct (pow2_ge_Z (k + 1)) as [_ Hbigk]; [lia|].
  rewrite inject_Z_plus in Hbigk. change (inject_Z 1) with 1 in Hbigk.
  exists q, q'. repeat split.
  - unfold int_truediv. simpl (60 =? 0)%Z. cbv iota. fold x. fold q.
    rewrite not_overflows; [reflexivity | lra | lra].
  - rewrite truediv_int_60. fold q'.
    rewrite not_overflows; [reflexivity | lra | lra].
  - apply Qfloor_unique; [assumption|].
    rewrite inject_Z_plus. change (inject_Z 1) with 1. lra.
  - apply Qfloor_unique; [assumption|].
    rewrite inject_Z_plus. change (inject_Z 1) with 1. lra.
Qed.

(** the model against the machine's doubles *)
Lemma round_agrees_with_binary64 : forallb Hardware.agrees Hardware.samples = true.
Proof. vm_compute. reflexivity. Qed.

End FloatFacts.

(** ** The formatters *)

Section Formatters.
Import Float64 PyFormat TimerFuncs HMS.

Lemma decompose_total s :
  Z.abs s < 2 ^ 1024 ->
  exists q q' : float, int_truediv s 60 = inr q /\ truediv_int q 60 = inr q'.
Proof.
  intros Hs.
  assert (E5 : (pow2 1024 == (32 # 1) * pow2 1019)%Q).
  { change 1024 with (5 + 1019). rewrite pow2_add. reflexivity. }
  assert (E4 : (pow2 1023 == (16 # 1) * pow2 1019)%Q).
  { change 1023 with (4 + 1019). rewrite pow2_add. reflexivity. }
  pose proof (pow2_pos 1019) as Hp.
  assert (Hr : representable (pow2 1019)).
  { exists 1, 1019. split; [reflexivity | ring]. }
  assert (Hs1 : (inject_Z s <= pow2 1024)%Q).
  { rewrite (pow2_Z 1024) by lia. rewrite <- Zle_Qle. lia. }
  assert (Hs2 : (- pow2 1024 <= inject_Z s)%Q).
  { rewrite (pow2_Z 1024) by lia. rewrite <- inject_Z_opp, <- Zle_Qle. lia. }
  set (x := (inject_Z s / inject_Z 60)%Q).
  assert (Ex : (x * (60 # 1) == inject_Z s)%Q).
  { unfold x. change (inject_Z 60) with (60 # 1). field. }
  assert (B1 : (round x <= pow2 1019)%Q) by (apply round_le; [lra | assumption]).
  assert (B2 : (- pow2 1019 <= round x)%Q).
  { apply round_ge; [lra | now apply representable_opp]. }
  set (q := round x) in *.
  set (y := (q / (60 # 1))%Q).
  assert (Ey : (y * (60 # 1) == q)%Q) by (unfold y; field).
  assert (B3 : (round y <= pow2 1019)%Q) by (apply round_le; [lra | assumption]).
  assert (B4 : (- pow2 1019 <= round y)%Q).
  { apply round_ge; [lra | now apply representable_opp]. }
  exists q, (round y). split.
  - unfold int_truediv. simpl (60 =? 0). cbv iota. fold x. fold q.
    rewrite not_overflows; [reflexivity | lra | lra].
  - rewrite truediv_int_60. fold y.
    rewrite not_overflows; [reflexivity | lra | lra].
Qed.

(** *** What [format_02] prints for a field below 100 *)

Lemma format_02_two_digits n : 0 <= n < 100 -> format_02 n = two_digits n.
Proof.
  intros Hn.
  assert (Hall : forallb (fun k => String.eqb (format_02 (Z.of_nat k)) (two_digits (Z.of_nat k)))
                   (seq 0 100) = true) by (vm_compute; reflexivity).
  rewrite forallb_forall in Hall.
  specialize (Hall (Z.to_nat n)). rewrite Z2Nat.id in Hall by lia.
  apply String.eqb_eq, Hall, in_seq. lia.
Qed.

Lemma two_digits_are_digits n :
  0 <= n < 100 ->
  exists a b, two_digits n = String a (String b EmptyString) /\
              is_digit a = true /\ is_digit b = true.
Proof.
  intros Hn. exists (digit (n / 10)), (digit (n mod 10)). split; [reflexivity|].
  assert (Hd : forall d, 0 <= d < 10 -> is_digit (digit d) = true).
  { intros d Hd.
    assert (Hall : forallb (fun k => is_digit (digit (Z.of_nat k))) (seq 0 10) = true)
      by (vm_compute; reflexivity).
    rewrite forallb_forall in Hall.
    specialize (Hall (Z.to_nat d)). rewrite Z2Nat.id in Hall by lia.
    apply Hall, in_seq. lia. }
  split; apply Hd.
  - split; [apply Z.div_pos; lia | apply Z.div_lt_upper_bound; lia].
  - apply Z.mod_pos_bound. lia.
Qed.

Lemma hh_mm_ss_matches h m s :
  0 <= h < 100 -> 0 <= m < 100 -> 0 <= s < 100 ->
  matches_hh_mm_ss (hh_mm_ss h m s) = true.
Proof.
  intros Hh Hm Hs.
  destruct (two_digits_are_digits h Hh) as (a & b & Eh & Ha & Hb).
  destruct (two_digits_are_digits m Hm) as (c & d & Em & Hc & Hd).
  destruct (two_digits_are_digits s Hs) as (e & f & Es & He & Hf).
  unfold hh_mm_ss. rewrite Eh, Em, Es. simpl. rewrite Ha, Hb, Hc, Hd, He, Hf. reflexivity.
Qed.

Lemma hms_string_clock h m s :
  0 <= h < 100 -> 0 <= m < 100 -> 0 <= s < 100 ->
  hms_string (h, m, s) = hh_mm_ss h m s.
Proof.
  intros Hh Hm Hs. unfold hms_string, hh_mm_ss.
  now rewrite !format_02_two_digits by assumption.
Qed.

Lemma format_02_nonneg h : 0 <= h -> format_02 h = padded_numeral h.
Proof.
  intros Hh. unfold format_02, padded_numeral.
  destruct (Z.ltb_spec h 0) as [Hneg | _]; [lia|].
  rewrite Z.abs_eq by assumption. reflexivity.
Qed.

Lemma string_length_app (a b : string) :
  String.length (a ++ b) = (String.length a + String.length b)%nat.
Proof. induction a as [|c a IH]; simpl; [reflexivity | now rewrite IH]. Qed.

Lemma zeros_length k : String.length (zeros k) = k.
Proof. induction k as [|k IH]; simpl; [reflexivity | now rewrite IH]. Qed.

Lemma padded_numeral_length h : (2 <= String.length (padded_numeral h))%nat.
Proof. unfold padded_numeral. rewrite string_length_app, zeros_length. lia. Qed.

(** the numeral reads back as [h]: no digit is lost *)
Lemma decimal_reads_back h :
  option_map Z.of_int (NilZero.int_of_string (decimal h)) = Some h.
Proof.
  unfold decimal. rewrite NilZero.isi.
  - simpl. now rewrite DecimalZ.of_to.
  - destruct h; simpl; try discriminate.
    intros [= H]. now apply (DecimalPos.Unsigned.to_uint_nonnil p).
  - destruct h; simpl; try discriminate.
    intros [= H]. now apply (DecimalPos.Unsigned.to_uint_nonnil p).
Qed.

Lemma formatted_time_locals_exact s :
  - (3600 * 2 ^ 41) <= s < 3600 * 2 ^ 41 ->
  formatted_time_locals s = inr ((s / 3600) mod 24, (s / 60) mod 60, s mod 60).
Proof.
  intros Hs. destruct (decompose_exact s Hs) as (q & q' & E1 & E2 & F1 & F2).
  unfold formatted_time_locals. rewrite E1. simpl. rewrite E2. simpl.
  now rewrite F1, F2.
Qed.

Lemma get_time_hms_locals_exact s :
  - (3600 * 2 ^ 41) <= s < 3600 * 2 ^ 41 ->
  get_time_hms_locals s = inr (s / 3600, (s / 60) mod 60, s mod 60).
Proof.
  intros Hs. destruct (decompose_exact s Hs) as (q & q' & E1 & E2 & F1 & F2).
  unfold get_time_hms_locals. rewrite E1. simpl. rewrite E2. simpl.
  now rewrite F1, F2.
Qed.

Lemma field_ranges s :
  0 <= (s / 3600) mod 24 < 24 /\ 0 <= (s / 60) mod 60 < 60 /\ 0 <= s mod 60 < 60.
Proof. repeat split; apply Z.mod_pos_bound; lia. Qed.

(** C7 (amended).  For every integer s with 0 <= s < 3600 * 2^41,
    [formatted_time s] is two digits, a colon, two digits, a colon and two
    digits; the hour field is floor(s/3600) mod 24, the minute field is
    floor(s/60) mod 60 and the second field is s mod 60.  Below that bound
    the doubles of [floor(total_seconds / 60 / 60)] and of
    [floor(total_seconds / 60)] floor to the integer quotients. *)
Theorem formatted_time_clock_fields s :
  0 <= s < 3600 * 2 ^ 41 ->
  formatted_time s =
    inr (hh_mm_ss ((s / 3600) mod 24) ((s / 60) mod 60) (s mod 60)) /\
  matches_hh_mm_ss (hh_mm_ss ((s / 3600) mod 24) ((s / 60) mod 60) (s mod 60)) = true.
Proof.
  intros Hs. destruct (field_ranges s) as (Hh & Hm & Hsec). split.
  - unfold formatted_time. rewrite formatted_time_locals_exact by lia. simpl.
    unfold Py.ret. f_equal. apply hms_string_clock; lia.
  - apply hh_mm_ss_matches; lia.
Qed.

Lemma formatted_time_clock_fields_witness :
  formatted_time 90061 = inr "01:01:01"%string.
Proof.
  destruct (formatted_time_clock_fields 90061) as [H _]; [lia|]. exact H.
Defined.

(** C7 as stated, for every non-negative s, fails at s = 3600 * 2^50 - 1:
    the double of s / 60 is 60 * 2^50, so the text is 16:00:59 where the
    claim has hour 15 and minute 59. *)
Lemma formatted_time_large_total :
  0 <= 4053239664633446399 /\
  formatted_time 4053239664633446399 = inr "16:00:59"%string /\
  (4053239664633446399 / 3600) mod 24 = 15 /\
  (4053239664633446399 / 60) mod 60 = 59.
Proof. vm_compute. repeat split; congruence. Qed.

(** C8 (amended).  For every integer s with 0 <= s < 3600 * 2^41,
    [get_time_hms s] has the hour field floor(s/3600), with no modulo, and
    minute and second fields floor(s/60) mod 60 and s mod 60, both in
    [0, 59] and printed on two digits; the hour field is the whole decimal
    numeral of floor(s/3600) behind as many zeros as bring it to width 2,
    so it has at least two characters and reads back as floor(s/3600). *)
Theorem get_time_hms_fields s :
  0 <= s < 3600 * 2 ^ 41 ->
  get_time_hms_locals s = inr (s / 3600, (s / 60) mod 60, s mod 60) /\
  get_time_hms s =
    inr (padded_numeral (s / 3600) ++ ":" ++ two_digits ((s / 60) mod 60)
           ++ ":" ++ two_digits (s mod 60))%string /\
  0 <= (s / 60) mod 60 <= 59 /\ 0 <= s mod 60 <= 59 /\
  (2 <= String.length (padded_numeral (s / 3600)))%nat /\
  option_map Z.of_int (NilZero.int_of_string (decimal (s / 3600))) = Some (s / 3600).
Proof.
  intros Hs. destruct (field_ranges s) as (_ & Hm & Hsec).
  assert (Hh : 0 <= s / 3600) by (apply Z.div_pos; lia).
  split; [apply get_time_hms_locals_exact; lia|].
  split.
  - unfold get_time_hms. rewrite get_time_hms_locals_exact by lia. simpl.
    unfold Py.ret. f_equal.
    rewrite format_02_nonneg by assumption.
    now rewrite !format_02_two_digits by lia.
  - repeat split; try lia.
    + apply padded_numeral_length.
    + apply decimal_reads_back.
Qed.

Lemma get_time_hms_fields_witness :
  get_time_hms 432000 = inr "120:00:00"%string.
Proof.
  destruct (get_time_hms_fields 432000) as (_ & H & _); [lia|]. exact H.
Defined.

(** C8 as stated, for every non-negative s, fails at s = 3600 * 2^50 - 1:
    the hour field is 2^50 where floor(s/3600) is 2^50 - 1, and the minute
    field is 00 where floor(s/60) mod 60 is 59. *)
Lemma get_time_hms_large_total :
  0 <= 4053239664633446399 /\
  get_time_hms 4053239664633446399 = inr "1125899906842624:00:59"%string /\
  4053239664633446399 / 3600 = 1125899906842623 /\
  (4053239664633446399 / 60) mod 60 = 59.
Proof. vm_compute. repeat split; congruence. Qed.

(** C9 (amended).  For all integers 0 <= h < 2^41, 0 <= m < 60 and
    0 <= s < 60, the hours, minutes and seconds that [get_time_hms]
    computes from [get_total_seconds h m s] are h, m and s. *)
Theorem total_seconds_round_trip h m s :
  0 <= h < 2 ^ 41 -> 0 <= m < 60 -> 0 <= s < 60 ->
  get_time_hms_locals (get_total_seconds h m s) = inr (h, m, s).
Proof.
  intros Hh Hm Hs. unfold get_total_seconds.
  assert (P41 : 2 ^ 41 = 2199023255552) by reflexivity.
  rewrite get_time_hms_locals_exact by lia.
  assert (E1 : (h * 3600 + m * 60 + s) / 3600 = h).
  { symmetry. apply (Z.div_unique _ 3600 h (m * 60 + s)); lia. }
  assert (E2 : (h * 3600 + m * 60 + s) / 60 = h * 60 + m).
  { symmetry. apply (Z.div_unique _ 60 (h * 60 + m) s); lia. }
  assert (E3 : (h * 3600 + m * 60 + s) mod 60 = s).
  { symmetry. apply (Z.mod_unique _ 60 (h * 60 + m) s); lia. }
  assert (E4 : (h * 60 + m) mod 60 = m).
  { symmetry. apply (Z.mod_unique _ 60 h m); lia. }
  now rewrite E1, E2, E3, E4.
Qed.

Lemma total_seconds_round_trip_witness :
  get_time_hms_locals (get_total_seconds 120 7 9) = inr (120, 7, 9).
Proof. apply total_seconds_round_trip; lia. Defined.

(** C9 as stated, for all h >= 0, fails at h = 2^50 - 1, m = 59, s = 59:
    the decomposition gives 2^50 hours and 0 minutes. *)
Lemma total_seconds_round_trip_large_hours :
  0 <= 1125899906842623 /\
  get_time_hms_locals (get_total_seconds 1125899906842623 59 59)
    = inr (1125899906842624, 0, 59).
Proof. vm_compute. split; congruence. Qed.

(** C10 (amended).  For every integer s with |s| < 2^1024, negative ones
    included, [formatted_time s] returns a text of the two-digit HH:MM:SS
    grammar whose hour field is in [0, 23] and whose minute and second
    fields are in [0, 59]; within 3600 * 2^41 seconds of zero the fields
    are floor(s/3600) mod 24, floor(s/60) mod 60 and s mod 60 with floor
    division, so that -1 gives 23:59:59. *)
Theorem formatted_time_any_sign s :
  Z.abs s < 2 ^ 1024 ->
  exists h m sec,
    formatted_time_locals s = inr (h, m, sec) /\
    0 <= h <= 23 /\ 0 <= m <= 59 /\ 0 <= sec <= 59 /\
    formatted_time s = inr (hh_mm_ss h m sec) /\
    matches_hh_mm_ss (hh_mm_ss h m sec) = true /\
    (- (3600 * 2 ^ 41) <= s < 3600 * 2 ^ 41 ->
     h = (s / 3600) mod 24 /\ m = (s / 60) mod 60 /\ sec = s mod 60).
Proof.
  intros Hs. destruct (decompose_total s Hs) as (q & q' & E1 & E2).
  exists (floor q' mod 24), (floor q mod 60), (s mod 60).
  assert (L : formatted_time_locals s = inr (floor q' mod 24, floor q mod 60, s mod 60)).
  { unfold formatted_time_locals. rewrite E1. simpl. rewrite E2. reflexivity. }
  pose proof (Z.mod_pos_bound (floor q') 24 eq_refl) as Hh.
  pose proof (Z.mod_pos_bound (floor q) 60 eq_refl) as Hm.
  pose proof (Z.mod_pos_bound s 60 eq_refl) as Hsec.
  repeat split; try lia; try assumption.
  - unfold formatted_time. rewrite L. simpl. unfold Py.ret. f_equal.
    apply hms_string_clock; lia.
  - apply hh_mm_ss_matches; lia.
  - pose proof (formatted_time_locals_exact s H) as L'. congruence.
  - pose proof (formatted_time_locals_exact s H) as L'. congruence.
Qed.

Lemma formatted_time_any_sign_witness :
  exists h m sec,
    formatted_time_locals (-1) = inr (h, m, sec) /\
    0 <= h <= 23 /\ 0 <= m <= 59 /\ 0 <= sec <= 59 /\
    formatted_time (-1) = inr (hh_mm_ss h m sec) /\
    matches_hh_mm_ss (hh_mm_ss h m sec) = true /\
    (- (3600 * 2 ^ 41) <= -1 < 3600 * 2 ^ 41 ->
     h = (-1 / 3600) mod 24 /\ m = (-1 / 60) mod 60 /\ sec = -1 mod 60).
Proof. apply (formatted_time_any_sign (-1)). reflexivity. Defined.

(** C10 as stated, for every integer, fails at s = 60 * 2^1024: the
    quotient s / 60 does not fit a double and Python raises
    OverflowError. *)
Lemma formatted_time_beyond_double_range :
  formatted_time (60 * 2 ^ 1024)
    = inl (Py.OverflowError "integer division result too large for a float").
Proof. vm_compute. reflexivity. Qed.

Lemma formatted_time_minus_one : formatted_time (-1) = inr "23:59:59"%string.
Proof. vm_compute. reflexivity. Qed.

End Formatters.

(** ** Lists, keys and buckets *)

Section Frames.
Import Py Pandas SQLAlchemyDB AnalysisGraphDFs Enriched.

Ltac frame_step :=
  cbn [getitem setitem String.eqb Ascii.eqb Bool.eqb andb Py.bind Py.ret].

(** *** The error monad over lists *)

Lemma mapM_map_ok {A B C : Type} (f : B -> result C) (g : A -> B) (h : A -> C) l :
  (forall x, In x l -> f (g x) = inr (h x)) -> mapM f (map g l) = inr (map h l).
Proof.
  induction l as [|a l IH]; intros H; [reflexivity|].
  simpl. rewrite (H a) by (now left). simpl.
  rewrite IH by (intros x Hx; apply H; now right). reflexivity.
Qed.

Lemma combine_map {A B C : Type} (g1 : A -> B) (g2 : A -> C) l :
  combine (map g1 l) (map g2 l) = map (fun x => (g1 x, g2 x)) l.
Proof. induction l as [|a l IH]; simpl; [reflexivity | now rewrite IH]. Qed.

Lemma zipM_map_ok {A B C D : Type} (f : B -> C -> result D)
  (g1 : A -> B) (g2 : A -> C) (h : A -> D) l :
  (forall x, In x l -> f (g1 x) (g2 x) = inr (h x)) ->
  zipM f (map g1 l) (map g2 l) = inr (map h l).
Proof.
  intros H. unfold zipM. rewrite combine_map.
  apply (mapM_map_ok (fun xy => f (fst xy) (snd xy)) (fun x => (g1 x, g2 x)) h).
  exact H.
Qed.

(** a list of which some element fails, all failures being the same
    exception *)
Lemma mapM_map_error {A B C : Type} (f : B -> result C) (g : A -> B) (ok : A -> bool)
  (e : exn) l :
  (forall x, In x l -> if ok x then exists c, f (g x) = inr c else f (g x) = inl e) ->
  forallb ok l = false -> mapM f (map g l) = inl e.
Proof.
  induction l as [|x l IH]; intros H F; [discriminate|].
  cbn [map mapM]. pose proof (H x (or_introl eq_refl)) as Hx.
  cbn [forallb] in F. destruct (ok x).
  - destruct Hx as (c & ->). cbn [Py.bind]. rewrite IH; [reflexivity | | exact F].
    intros y Hy. apply H. now right.
  - now rewrite Hx.
Qed.

Lemma zipM_map_error {A B C D : Type} (f : B -> C -> result D)
  (g1 : A -> B) (g2 : A -> C) (ok : A -> bool) (e : exn) l :
  (forall x, In x l ->
     if ok x then exists c, f (g1 x) (g2 x) = inr c else f (g1 x) (g2 x) = inl e) ->
  forallb ok l = false -> zipM f (map g1 l) (map g2 l) = inl e.
Proof.
  intros H F. unfold zipM. rewrite combine_map.
  now apply (mapM_map_error (fun xy => f (fst xy) (snd xy)) (fun x => (g1 x, g2 x)) ok).
Qed.

(** *** Keys: equality, distinct keys, sorting *)

Lemma scalar_eqb_eq a b : scalar_eqb a b = true <-> a = b.
Proof.
  destruct a, b; simpl; split; intros H; try discriminate; try congruence;
    try (apply Z.eqb_eq in H; congruence);
    try (injection H as ->; apply Z.eqb_refl).
  - apply andb_true_iff in H. destruct H as [H1 H2].
    apply Z.eqb_eq in H1. apply Pos.eqb_eq in H2.
    destruct x, x0; simpl in *; congruence.
  - injection H as ->. now rewrite Z.eqb_refl, Pos.eqb_refl.
  - apply String.eqb_eq in H. congruence.
  - injection H as ->. apply String.eqb_refl.
Qed.

Lemma key_eqb_eq k1 k2 : key_eqb k1 k2 = true <-> k1 = k2.
Proof.
  revert k2. induction k1 as [|a k1 IH]; intros [|b k2]; simpl; split;
    intros H; try discriminate; try reflexivity.
  - apply andb_true_iff in H. destruct H as [H1 H2].
    apply scalar_eqb_eq in H1. apply IH in H2. congruence.
  - injection H as -> ->. apply andb_true_iff. split.
    + now apply scalar_eqb_eq.
    + now apply IH.
Qed.

Lemma key_eqb_refl k : key_eqb k k = true.
Proof. now apply key_eqb_eq. Qed.

Lemma key_eqb_neq k1 k2 : key_eqb k1 k2 = false <-> k1 <> k2.
Proof.
  split.
  - intros H E. apply key_eqb_eq in E. congruence.
  - intros H. destruct (key_eqb k1 k2) eqn:E; [|reflexivity].
    apply key_eqb_eq in E. contradiction.
Qed.

Lemma insert_key_perm k l : Permutation (insert_key k l) (k :: l).
Proof.
  induction l as [|k' l IH]; simpl; [reflexivity|].
  destruct (key_leb k k'); [reflexivity|].
  rewrite IH. apply perm_swap.
Qed.

Lemma sort_keys_perm l : Permutation (sort_keys l) l.
Proof.
  induction l as [|k l IH]; simpl; [reflexivity|].
  rewrite insert_key_perm. now constructor.
Qed.

Lemma unique_keys_In k l : In k (unique_keys l) <-> In k l.
Proof.
  induction l as [|a l IH]; simpl; [tauto|].
  rewrite filter_In, IH. split.
  - intros [H | [H _]]; auto.
  - intros [H | H]; [now left|].
    destruct (key_eqb a k) eqn:E.
    + left. now apply key_eqb_eq.
    + right. split; [assumption | reflexivity].
Qed.

Lemma unique_keys_NoDup l : NoDup (unique_keys l).
Proof.
  induction l as [|a l IH]; simpl; constructor.
  - rewrite filter_In. intros [_ H]. now rewrite key_eqb_refl in H.
  - now apply NoDup_filter.
Qed.

Lemma sort_keys_singleton k : sort_keys [k] = [k].
Proof. reflexivity. Qed.

Lemma unique_keys_constant k l :
  l <> [] -> (forall k', In k' l -> k' = k) -> unique_keys l = [k].
Proof.
  induction l as [|a l IH]; intros Hne Hall; [contradiction|].
  simpl. rewrite (Hall a) by (now left).
  destruct l as [|b l]; [reflexivity|].
  rewrite IH; [| discriminate | intros k' Hk'; apply Hall; now right].
  simpl. now rewrite key_eqb_refl.
Qed.

(** *** [group_sum] *)

Lemma group_sum_keys kv :
  map fst (group_sum kv) = sort_keys (unique_keys (map fst kv)).
Proof. unfold group_sum. rewrite map_map. simpl. apply map_id. Qed.

Lemma group_sum_keys_NoDup kv : NoDup (map fst (group_sum kv)).
Proof.
  rewrite group_sum_keys.
  eapply Permutation_NoDup; [symmetry; apply sort_keys_perm | apply unique_keys_NoDup].
Qed.

Lemma group_sum_keys_In kv k : In k (map fst (group_sum kv)) <-> In k (map fst kv).
Proof.
  rewrite group_sum_keys. rewrite <- (unique_keys_In k (map fst kv)). split; intros H.
  - eapply Permutation_in; [apply sort_keys_perm | exact H].
  - eapply Permutation_in; [symmetry; apply sort_keys_perm | exact H].
Qed.

Lemma group_sum_In kv k v :
  In (k, v) (group_sum kv) <-> In k (map fst kv) /\ v = wrap64 (sum_for k kv).
Proof.
  unfold group_sum. rewrite in_map_iff. split.
  - intros (k' & [= <- <-] & Hin). split; [|reflexivity].
    apply group_sum_keys_In. now rewrite group_sum_keys.
  - intros [Hin ->]. exists k. split; [reflexivity|].
    rewrite <- group_sum_keys. now apply group_sum_keys_In.
Qed.

Lemma sum_for_all k kv :
  (forall kv', In kv' kv -> fst kv' = k) ->
  sum_for k kv = fold_right Z.add 0 (map snd kv).
Proof.
  induction kv as [|[k' v] kv IH]; intros H; [reflexivity|].
  pose proof (H (k', v) (or_introl eq_refl)) as E. simpl in E. subst k'.
  simpl. rewrite key_eqb_refl.
  rewrite IH by (intros x Hx; apply H; now right). reflexivity.
Qed.

Lemma group_sum_constant k kv :
  kv <> [] -> (forall kv', In kv' kv -> fst kv' = k) ->
  group_sum kv = [(k, wrap64 (fold_right Z.add 0 (map snd kv)))].
Proof.
  intros Hne Hall. unfold group_sum.
  rewrite (unique_keys_constant k).
  - simpl. now rewrite sum_for_all.
  - destruct kv; [contradiction | discriminate].
  - intros k' Hk'. apply in_map_iff in Hk'. destruct Hk' as (x & <- & Hx). now apply Hall.
Qed.

Lemma sum_for_filter k kv (keep : list scalar * Z -> bool) :
  (forall kv', In kv' kv -> fst kv' = k -> keep kv' = true) ->
  sum_for k (filter keep kv) = sum_for k kv.
Proof.
  induction kv as [|[k' v] kv IH]; intros H; [reflexivity|].
  simpl. destruct (keep (k', v)) eqn:E.
  - simpl. rewrite IH by (intros x Hx; apply H; now right). reflexivity.
  - rewrite IH by (intros x Hx; apply H; now right).
    destruct (key_eqb k k') eqn:Ek; [|lia].
    apply key_eqb_eq in Ek. subst k'.
    rewrite (H (k, v)) in E by (auto; now left). discriminate.
Qed.

Lemma wrap64_range z : - 2 ^ 63 <= wrap64 z < 2 ^ 63.
Proof.
  unfold wrap64. pose proof (Z.mod_pos_bound (z + 2 ^ 63) (2 ^ 64) eq_refl).
  change (2 ^ 64) with (2 * 2 ^ 63) in *. lia.
Qed.

Lemma wrap64_small z : - 2 ^ 63 <= z < 2 ^ 63 -> wrap64 z = z.
Proof.
  intros H. unfold wrap64. rewrite Z.mod_small; [lia|].
  change (2 ^ 64) with (2 * 2 ^ 63). lia.
Qed.

Lemma NoDup_map_in {A B : Type} (f : A -> B) (l : list A) :
  (forall x y, In x l -> In y l -> f x = f y -> x = y) -> NoDup l -> NoDup (map f l).
Proof.
  intros Hinj Hnd. induction Hnd as [|a l Hnotin Hnd IH]; simpl; constructor.
  - rewrite in_map_iff. intros (y & E & Hy).
    apply Hinj in E; [| now right | now left]. congruence.
  - apply IH. intros x y Hx Hy. apply Hinj; now right.
Qed.

(** *** Series operations on columns computed row by row *)

Section Columns.
Context {A : Type} (l : list A).

Lemma sub_timestamps (f g : A -> Z) :
  forallb (fun r => in_int64 (f r - g r)) l = true ->
  sub (mkSeries datetime64 (map (fun r => VTimestamp (f r)) l))
      (mkSeries datetime64 (map (fun r => VTimestamp (g r)) l))
  = inr (mkSeries timedelta64 (map (fun r => VTimedelta (f r - g r)) l)).
Proof.
  intros H. rewrite forallb_forall in H. unfold sub. cbn [dtype_of values].
  rewrite (zipM_map_ok _ _ _ (fun r => VTimedelta (f r - g r))); [reflexivity|].
  intros x Hx. now rewrite (H x Hx).
Qed.

Lemma sub_timestamps_overflow (f g : A -> Z) :
  forallb (fun r => in_int64 (f r - g r)) l = false ->
  sub (mkSeries datetime64 (map (fun r => VTimestamp (f r)) l))
      (mkSeries datetime64 (map (fun r => VTimestamp (g r)) l))
  = inl (OverflowError "Overflow in int64 addition").
Proof.
  intros H. unfold sub. cbn [dtype_of values].
  rewrite (zipM_map_error _ _ _ (fun r => in_int64 (f r - g r))
             (OverflowError "Overflow in int64 addition")); [reflexivity | | exact H].
  intros x _. destruct (in_int64 (f x - g x)); [eexists|]; reflexivity.
Qed.

Lemma sub_timestamp_timedelta (f g : A -> Z) :
  forallb (fun r => timestamp_fits (f r - g r)) l = true ->
  sub (mkSeries datetime64 (map (fun r => VTimestamp (f r)) l))
      (mkSeries timedelta64 (map (fun r => VTimedelta (g r)) l))
  = inr (mkSeries datetime64 (map (fun r => VTimestamp (f r - g r)) l)).
Proof.
  intros H. rewrite forallb_forall in H. unfold sub. cbn [dtype_of values].
  rewrite (zipM_map_ok _ _ _ (fun r => VTimestamp (f r - g r))); [reflexivity|].
  intros x Hx. now rewrite (H x Hx).
Qed.

Lemma sub_timestamp_timedelta_overflow (f g : A -> Z) :
  forallb (fun r => timestamp_fits (f r - g r)) l = false ->
  sub (mkSeries datetime64 (map (fun r => VTimestamp (f r)) l))
      (mkSeries timedelta64 (map (fun r => VTimedelta (g r)) l))
  = inl (OverflowError "Overflow in int64 addition").
Proof.
  intros H. unfold sub. cbn [dtype_of values].
  rewrite (zipM_map_error _ _ _ (fun r => timestamp_fits (f r - g r))
             (OverflowError "Overflow in int64 addition")); [reflexivity | | exact H].
  intros x _. destruct (timestamp_fits (f x - g x)); [eexists|]; reflexivity.
Qed.

Lemma sub_objects (f g : A -> Z) :
  sub (mkSeries object (map (fun r => VTimestamp (f r)) l))
      (mkSeries object (map (fun r => VTimestamp (g r)) l))
  = inr (mkSeries object (map (fun r => VTimedelta (f r - g r)) l)).
Proof.
  unfold sub. cbn [dtype_of values].
  rewrite (zipM_map_ok _ _ _ (fun r => VTimedelta (f r - g r))); reflexivity.
Qed.

Lemma sub_timestamp_object (f g : A -> Z) :
  forallb (fun r => timestamp_fits (g r)) l = false ->
  sub (mkSeries datetime64 (map (fun r => VTimestamp (f r)) l))
      (mkSeries object (map (fun r => VTimestamp (g r)) l))
  = inl (ValueError "Out of bounds nanosecond timestamp").
Proof.
  intros H. unfold sub. cbn [dtype_of values].
  rewrite (zipM_map_error _ _ _ (fun r => timestamp_fits (g r) && in_int64 (f r - g r))
             (ValueError "Out of bounds nanosecond timestamp")); [reflexivity | |].
  - intros x _. destruct (timestamp_fits (g x) && in_int64 (f x - g x)); [eexists|];
      reflexivity.
  - clear - H. induction l as [|x l' IH]; [discriminate|].
    cbn [forallb] in *. destruct (timestamp_fits (g x)); [|reflexivity].
    cbn [andb] in *. rewrite (IH H). apply andb_false_r.
Qed.

Lemma dt_timestamps (f : Z -> scalar) (out : dtype) (g : A -> Z) :
  dt f out (mkSeries datetime64 (map (fun r => VTimestamp (g r)) l))
  = inr (mkSeries out (map (fun r => f (g r)) l)).
Proof.
  unfold dt. cbn [dtype_of values].
  rewrite (mapM_map_ok _ _ (fun r => f (g r))); reflexivity.
Qed.

Lemma astype_timedelta_days_ints (g : A -> Z) :
  astype_timedelta_days (mkSeries int64 (map (fun r => VInt (g r)) l))
  = inr (mkSeries timedelta64 (map (fun r => VTimedelta (g r * ns_per_day)) l)).
Proof.
  unfold astype_timedelta_days. cbn [dtype_of values].
  rewrite (mapM_map_ok _ _ (fun r => VTimedelta (g r * ns_per_day))); reflexivity.
Qed.

Lemma div_timedelta_timedeltas (g : A -> Z) (unit_ns : Z) :
  div_timedelta (mkSeries timedelta64 (map (fun r => VTimedelta (g r)) l)) unit_ns
  = inr (mkSeries float64
           (map (fun r => VFloat (Float64.round
                                    (Float64.round (inject_Z (g r))
                                     / Float64.round (inject_Z unit_ns)))) l)).
Proof.
  unfold div_timedelta. cbn [dtype_of values].
  rewrite (mapM_map_ok _ _ (fun r => VFloat (Float64.round
                                    (Float64.round (inject_Z (g r))
                                     / Float64.round (inject_Z unit_ns))))); reflexivity.
Qed.

Lemma round_floats (g : A -> Q) :
  round_ (mkSeries float64 (map (fun r => VFloat (g r)) l))
  = inr (mkSeries float64 (map (fun r => VFloat (inject_Z (Float64.rint (g r)))) l)).
Proof.
  unfold round_. cbn [dtype_of values].
  rewrite (mapM_map_ok _ _ (fun r => VFloat (inject_Z (Float64.rint (g r))))); reflexivity.
Qed.

Lemma astype_int64_integral (g : A -> Z) :
  astype_int64 (mkSeries float64 (map (fun r => VFloat (inject_Z (g r))) l))
  = inr (mkSeries int64 (map (fun r => VInt (g r)) l)).
Proof.
  unfold astype_int64. cbn [dtype_of values].
  rewrite (mapM_map_ok _ _ (fun r => VInt (g r))); [reflexivity|].
  intros x _. cbn [inject_Z Qnum Qden]. now rewrite Z.quot_1_r.
Qed.

Lemma summands_ints (g : A -> Z) :
  summands (mkSeries int64 (map (fun r => VInt (g r)) l)) = inr (map g l, VInt).
Proof.
  unfold summands. cbn [dtype_of values].
  rewrite (mapM_map_ok _ _ g); reflexivity.
Qed.

Lemma summands_timedeltas (g : A -> Z) :
  summands (mkSeries timedelta64 (map (fun r => VTimedelta (g r)) l))
  = inr (map g l, VTimedelta).
Proof.
  unfold summands. cbn [dtype_of values].
  rewrite (mapM_map_ok _ _ g); reflexivity.
Qed.

Lemma ge_date_dates (g : A -> Z) (d : Z) (dt' : dtype) :
  ge_date (mkSeries dt' (map (fun r => VDate (g r)) l)) d
  = inr (map (fun r => d <=? g r) l).
Proof.
  unfold ge_date. cbn [values].
  rewrite (mapM_map_ok _ _ (fun r => d <=? g r)); reflexivity.
Qed.

End Columns.


Lemma DataFrame_nonempty rs :
  rs <> [] ->
  DataFrame rs =
  [("id", mkSeries int64 (map (fun r => VInt (id r)) rs));
   ("activity", mkSeries object (map (fun r => VStr (activity r)) rs));
   ("grouping", mkSeries object (map (fun r => VStr (grouping r)) rs));
   ("start", datetimes (fun r => start r * 1000) rs);
   ("stop", datetimes (fun r => stop r * 1000) rs)]%string.
Proof. destruct rs; [contradiction | reflexivity]. Qed.

Lemma log_check_nonempty rs :
  rs <> [] ->
  log_check rs =
  match forallb (fun r => timestamp_fits (stop r * 1000)) rs,
        forallb (fun r => timestamp_fits (start r * 1000)) rs with
  | true, true =>
      if forallb (fun r => in_int64 (row_duration r)) rs then ret tt
      else raise (OverflowError "Overflow in int64 addition")
  | true, false => raise (ValueError "Out of bounds nanosecond timestamp")
  | false, true => raise (TypeError "cannot subtract DatetimeArray from ndarray")
  | false, false =>
      raise (AttributeError "Can only use .dt accessor with datetimelike values")
  end.
Proof. destruct rs; [contradiction | reflexivity]. Qed.

(** [get_log_df] returns the enriched frame of the rows of its SELECT, or
    raises what [log_check] says *)
Lemma get_log_df_check self :
  get_log_df self = (_ <- log_check (select_log self) ;; ret (enriched (select_log self))).
Proof.
  unfold get_log_df, dt_date, dt_day_name.
  destruct (select_log self) as [|r0 rs0] eqn:E; [reflexivity|].
  assert (Hne : select_log self <> []) by (rewrite E; discriminate).
  rewrite <- E. clear E r0 rs0.
  rewrite (DataFrame_nonempty _ Hne), (log_check_nonempty _ Hne).
  set (rs := select_log self). unfold datetimes.
  destruct (forallb (fun r => timestamp_fits (stop r * 1000)) rs) eqn:Es;
    destruct (forallb (fun r => timestamp_fits (start r * 1000)) rs) eqn:Et.
  - destruct (forallb (fun r => in_int64 (row_duration r)) rs) eqn:Ed.
    + frame_step. rewrite sub_timestamps by exact Ed.
      frame_step. rewrite dt_timestamps.
      frame_step. rewrite dt_timestamps.
      frame_step. rewrite div_timedelta_timedeltas.
      frame_step. rewrite round_floats.
      frame_step. rewrite astype_int64_integral.
      frame_step. reflexivity.
    + frame_step. rewrite sub_timestamps_overflow by exact Ed. reflexivity.
  - frame_step. rewrite sub_timestamp_object by exact Et. reflexivity.
  - frame_step. reflexivity.
  - frame_step. rewrite sub_objects. frame_step. reflexivity.
Qed.

Lemma in_range_check rs :
  forallb in_range rs = true ->
  forallb (fun r => timestamp_fits (stop r * 1000)) rs = true /\
  forallb (fun r => timestamp_fits (start r * 1000)) rs = true /\
  forallb (fun r => in_int64 (row_duration r)) rs = true.
Proof.
  rewrite !forallb_forall. intros H.
  repeat split; intros r Hr; specialize (H r Hr); unfold in_range in H;
    apply andb_true_iff in H as [H H3]; apply andb_true_iff in H as [H1 H2]; assumption.
Qed.

Lemma log_check_ok rs :
  log_check rs = inr tt <-> rs <> [] /\ forallb in_range rs = true.
Proof.
  split.
  - intros H. assert (Hne : rs <> []) by (intros ->; discriminate H).
    split; [assumption|]. rewrite (log_check_nonempty _ Hne) in H.
    destruct (forallb (fun r => timestamp_fits (stop r * 1000)) rs) eqn:Es;
      destruct (forallb (fun r => timestamp_fits (start r * 1000)) rs) eqn:Et;
      try discriminate H.
    destruct (forallb (fun r => in_int64 (row_duration r)) rs) eqn:Ed; try discriminate H.
    rewrite forallb_forall in *. intros r Hr. unfold in_range.
    now rewrite (Es r Hr), (Et r Hr), (Ed r Hr).
  - intros [Hne H]. rewrite (log_check_nonempty _ Hne).
    destruct (in_range_check rs H) as (-> & -> & ->). reflexivity.
Qed.

Lemma get_log_df_nonempty self :
  select_log self <> [] -> forallb in_range (select_log self) = true ->
  get_log_df self = inr (enriched (select_log self)).
Proof.
  intros Hne Hr. rewrite get_log_df_check.
  now rewrite (proj2 (log_check_ok _) (conj Hne Hr)).
Qed.

Lemma get_log_df_empty self :
  select_log self = [] -> get_log_df self = inl (KeyError "stop").
Proof. intros H. unfold get_log_df. rewrite H. reflexivity. Qed.

(** *** Rows of a frame whose columns are computed row by row *)

Lemma zip_rows_nil {A : Type} (l : list A) :
  zip_rows (List.length l) [] = map (fun _ => []) l.
Proof. induction l as [|a l IH]; simpl in *; [reflexivity | now rewrite IH]. Qed.

Lemma zip_rows_cons {A : Type} (l : list A) (g : A -> scalar) (h : A -> list scalar) n cs :
  zip_rows n cs = map h l ->
  zip_rows n (map g l :: cs) = map (fun r => g r :: h r) l.
Proof.
  intros H. simpl. rewrite H, combine_map, map_map. reflexivity.
Qed.

Lemma zip_rows_1 {A : Type} (l : list A) (g1 : A -> scalar) :
  zip_rows (List.length l) [map g1 l] = map (fun r => [g1 r]) l.
Proof. apply zip_rows_cons, zip_rows_nil. Qed.

Lemma zip_rows_2 {A : Type} (l : list A) (g1 g2 : A -> scalar) :
  zip_rows (List.length l) [map g1 l; map g2 l] = map (fun r => [g1 r; g2 r]) l.
Proof. apply zip_rows_cons, zip_rows_1. Qed.

Lemma zip_rows_3 {A : Type} (l : list A) (g1 g2 g3 : A -> scalar) :
  zip_rows (List.length l) [map g1 l; map g2 l; map g3 l]
  = map (fun r => [g1 r; g2 r; g3 r]) l.
Proof. apply zip_rows_cons, zip_rows_2. Qed.

Lemma rows_3 {A : Type} (l : list A) c1 c2 c3 d1 d2 d3 (g1 g2 g3 : A -> scalar) :
  rows [(c1, mkSeries d1 (map g1 l)); (c2, mkSeries d2 (map g2 l));
        (c3, mkSeries d3 (map g3 l))]
  = map (fun r => [g1 r; g2 r; g3 r]) l.
Proof.
  unfold rows. cbn [nrows map snd values]. rewrite length_map. apply zip_rows_3.
Qed.

(** *** [groupby_sum] on one and on two key columns *)

Lemma groupby_sum_2 {A : Type} (l : list A) df k1 k2 val d1 d2 dv
  (g1 g2 : A -> scalar) (vals : list scalar) (v : A -> Z) (w : Z -> scalar) :
  getitem df k1 = inr (mkSeries d1 (map g1 l)) ->
  getitem df k2 = inr (mkSeries d2 (map g2 l)) ->
  getitem df val = inr (mkSeries dv vals) ->
  summands (mkSeries dv vals) = inr (map v l, w) ->
  nrows df = List.length l ->
  groupby_sum df [k1; k2] val =
  inr (let B := group_sum (map (fun r => ([g1 r; g2 r], v r)) l) in
       [(k1, mkSeries d1 (map (fun b => nth 0 (fst b) (VInt 0)) B));
        (k2, mkSeries d2 (map (fun b => nth 1 (fst b) (VInt 0)) B));
        (val, mkSeries dv (map (fun b => w (snd b)) B))]).
Proof.
  intros H1 H2 Hv Hs Hn. unfold groupby_sum. cbn [mapM].
  rewrite H1. cbn [Py.bind]. rewrite H2. cbn [Py.bind Py.ret].
  rewrite Hv. cbn [Py.bind]. rewrite Hs. cbn [Py.bind Py.ret fst snd map values].
  rewrite Hn, zip_rows_2, combine_map. reflexivity.
Qed.

Lemma groupby_sum_1 {A : Type} (l : list A) df k1 val d1 dv
  (g1 : A -> scalar) (vals : list scalar) (v : A -> Z) (w : Z -> scalar) :
  getitem df k1 = inr (mkSeries d1 (map g1 l)) ->
  getitem df val = inr (mkSeries dv vals) ->
  summands (mkSeries dv vals) = inr (map v l, w) ->
  nrows df = List.length l ->
  groupby_sum df [k1] val =
  inr (let B := group_sum (map (fun r => ([g1 r], v r)) l) in
       [(k1, mkSeries d1 (map (fun b => nth 0 (fst b) (VInt 0)) B));
        (val, mkSeries dv (map (fun b => w (snd b)) B))]).
Proof.
  intros H1 Hv Hs Hn. unfold groupby_sum. cbn [mapM].
  rewrite H1. cbn [Py.bind Py.ret].
  rewrite Hv. cbn [Py.bind]. rewrite Hs. cbn [Py.bind Py.ret fst snd map values].
  rewrite Hn, zip_rows_1, combine_map. reflexivity.
Qed.

Lemma get_time_hms_int64 t :
  - 2 ^ 63 <= t < 2 ^ 63 -> TimerFuncs.get_time_hms t = inr (hms_text t).
Proof.
  intros Ht.
  assert (Hbig : Z.abs t < 2 ^ 1024).
  { assert (2 ^ 63 < 2 ^ 1024) by (apply Z.pow_lt_mono_r; lia). lia. }
  destruct (decompose_total t Hbig) as (q & q' & E1 & E2).
  unfold hms_text, TimerFuncs.get_time_hms, TimerFuncs.get_time_hms_locals.
  rewrite E1. cbn [Py.bind]. rewrite E2. reflexivity.
Qed.

Lemma apply_get_time_hms_buckets kv :
  apply TimerFuncs.get_time_hms (mkSeries int64 (map (fun b => VInt (snd b)) (group_sum kv)))
  = inr (mkSeries object (map (fun b => VStr (hms_text (snd b))) (group_sum kv))).
Proof.
  unfold apply. cbn [values].
  rewrite (mapM_map_ok _ _ (fun b => VStr (hms_text (snd b)))); [reflexivity|].
  intros [k v] Hin. apply group_sum_In in Hin. destruct Hin as [_ ->].
  cbn [snd]. rewrite get_time_hms_int64 by apply wrap64_range. reflexivity.
Qed.

Lemma setitem_same df c s : getitem df c = inr s -> setitem df c s = df.
Proof.
  induction df as [|[c' s'] df IH]; simpl; [discriminate|].
  destruct (String.eqb_spec c' c) as [-> | Hne].
  - intros [= ->]. reflexivity.
  - intros H. now rewrite IH.
Qed.

(** whichever way the reordering goes, only the dtype of the weekday
    column is touched *)
Lemma order_weekdays_eq df d vals :
  getitem df "DayOfWeek" = inr (astype_category (mkSeries d vals)) ->
  order_weekdays df =
  inr (setitem df "DayOfWeek" (mkSeries (weekday_dtype vals) vals)).
Proof.
  intros H. unfold order_weekdays. rewrite H. cbn [Py.bind].
  unfold reorder_categories, astype_category, weekday_dtype. cbn [dtype_of values].
  destruct (same_items _ weekdays) eqn:E.
  - reflexivity.
  - cbn [Py.bind Py.raise try_except_ValueError Py.ret]. 
    rewrite setitem_same; [reflexivity | exact H].
Qed.

Lemma get_df_log_summary_check self :
  get_df_log_summary self =
  (_ <- log_check (select_log self) ;;
   ret (daily_frame (daily_buckets (select_log self)))).
Proof.
  unfold get_df_log_summary. rewrite get_log_df_check.
  destruct (log_check (select_log self)) as [e | []]; [reflexivity|].
  set (rs := select_log self). cbn [Py.bind Py.ret].
  rewrite (groupby_sum_2 rs (enriched rs) "date" "DayOfWeek" "seconds_duration"
             object object int64
             (fun r => VDate (row_date r)) (fun r => VStr (row_day_name r))
             (map (fun r => VInt (row_seconds r)) rs) row_seconds VInt);
    try reflexivity.
  2:{ apply summands_ints. }
  2:{ unfold enriched. cbn [nrows values]. apply length_map. }
  cbv zeta. fold (daily_key). 
  change (group_sum (map (fun r => ([VDate (row_date r); VStr (row_day_name r)], row_seconds r)) rs))
    with (daily_buckets rs).
  set (B := daily_buckets rs).
  frame_step. unfold B at 1, daily_buckets. rewrite apply_get_time_hms_buckets.
  fold (daily_buckets rs). fold B.
  frame_step.
  erewrite order_weekdays_eq by (frame_step; reflexivity).
  frame_step. unfold select. cbn [mapM]. frame_step. reflexivity.
Qed.

Lemma get_df_log_summary_nonempty self :
  select_log self <> [] -> forallb in_range (select_log self) = true ->
  get_df_log_summary self = inr (daily_frame (daily_buckets (select_log self))).
Proof.
  intros Hne Hr. rewrite get_df_log_summary_check.
  now rewrite (proj2 (log_check_ok _) (conj Hne Hr)).
Qed.

Lemma get_df_log_summary_empty self :
  select_log self = [] -> get_df_log_summary self = inl (KeyError "stop").
Proof. intros H. unfold get_df_log_summary. now rewrite get_log_df_empty. Qed.

(** *** The weekly summary *)

Lemma week_start_div r :
  (start r * 1000 - Calendar.weekday (start r * 1000 / ns_per_day) * ns_per_day) / ns_per_day
  = row_week_start r.
Proof.
  unfold row_week_start, row_date.
  replace (start r * 1000 - Calendar.weekday (start r * 1000 / ns_per_day) * ns_per_day)
    with (start r * 1000 + (- Calendar.weekday (start r * 1000 / ns_per_day)) * ns_per_day)
    by ring.
  rewrite Z.div_add by (unfold ns_per_day; lia). ring.
Qed.

Lemma repeat_map {A B : Type} (v : B) (l : list A) :
  repeat v (List.length l) = map (fun _ => v) l.
Proof. induction l as [|a l IH]; simpl; [reflexivity | now rewrite IH]. Qed.

Lemma get_df_log_summary_weeks_check self :
  get_df_log_summary_weeks self =
  (_ <- log_check (select_log self) ;;
   _ <- week_check (select_log self) ;;
   ret (weekly_frame (weekly_buckets (select_log self)))).
Proof.
  unfold get_df_log_summary_weeks, dt_weekday, dt_date.
  rewrite get_log_df_check.
  destruct (log_check (select_log self)) as [e | []]; [reflexivity|].
  set (rs := select_log self). cbn [Py.bind Py.ret]. unfold enriched, week_check.
  frame_step. rewrite dt_timestamps.
  frame_step. rewrite astype_timedelta_days_ints.
  frame_step.
  destruct (forallb week_in_range rs) eqn:Ew;
    [|rewrite sub_timestamp_timedelta_overflow by exact Ew; reflexivity].
  rewrite sub_timestamp_timedelta by exact Ew.
  frame_step. rewrite dt_timestamps.
  frame_step.
  erewrite (groupby_sum_1 rs _ "week_start" "seconds_duration" object int64
              _ (map (fun r => VInt (row_seconds r)) rs) row_seconds VInt);
    try reflexivity.
  2:{ apply summands_ints. }
  2:{ cbn [nrows values]. apply length_map. }
  cbv zeta.
  rewrite (map_ext _ (fun r => (weekly_key r, row_seconds r)))
    by (intros r; unfold weekly_key; now rewrite week_start_div).
  fold (weekly_buckets rs). set (B := weekly_buckets rs).
  frame_step. unfold B at 1, weekly_buckets. rewrite apply_get_time_hms_buckets.
  fold (weekly_buckets rs). fold B.
  frame_step. unfold setitem_scalar. cbn [nrows values].
  rewrite length_map, repeat_map.
  frame_step. unfold select. cbn [mapM]. frame_step. reflexivity.
Qed.

Lemma get_df_log_summary_weeks_nonempty self :
  select_log self <> [] -> forallb in_range (select_log self) = true ->
  forallb week_in_range (select_log self) = true ->
  get_df_log_summary_weeks self = inr (weekly_frame (weekly_buckets (select_log self))).
Proof.
  intros Hne Hr Hw. rewrite get_df_log_summary_weeks_check.
  rewrite (proj2 (log_check_ok _) (conj Hne Hr)). unfold week_check. now rewrite Hw.
Qed.

Lemma get_df_log_summary_weeks_empty self :
  select_log self = [] -> get_df_log_summary_weeks self = inl (KeyError "stop").
Proof. intros H. unfold get_df_log_summary_weeks. now rewrite get_log_df_empty. Qed.

(** *** The monthly summary *)

Lemma get_df_log_summary_months_check self :
  get_df_log_summary_months self =
  (_ <- log_check (select_log self) ;;
   ret (monthly_frame (monthly_buckets (select_log self)))).
Proof.
  unfold get_df_log_summary_months, dt_strftime_Y_m, dt_strftime_b.
  rewrite get_log_df_check.
  destruct (log_check (select_log self)) as [e | []]; [reflexivity|].
  set (rs := select_log self). cbn [Py.bind Py.ret]. unfold enriched.
  frame_step. rewrite dt_timestamps.
  frame_step. rewrite dt_timestamps.
  frame_step.
  erewrite (groupby_sum_2 rs _ "year_month" "month_name" "seconds_duration"
              object object int64 _ _
              (map (fun r => VInt (row_seconds r)) rs) row_seconds VInt);
    try reflexivity.
  2:{ apply summands_ints. }
  2:{ cbn [nrows values]. apply length_map. }
  cbv zeta.
  change (group_sum _) with (monthly_buckets rs).
  set (B := monthly_buckets rs).
  frame_step. unfold B at 1, monthly_buckets. rewrite apply_get_time_hms_buckets.
  fold (monthly_buckets rs). fold B.
  frame_step. unfold select. cbn [mapM]. frame_step. reflexivity.
Qed.

Lemma get_df_log_summary_months_nonempty self :
  select_log self <> [] -> forallb in_range (select_log self) = true ->
  get_df_log_summary_months self = inr (monthly_frame (monthly_buckets (select_log self))).
Proof.
  intros Hne Hr. rewrite get_df_log_summary_months_check.
  now rewrite (proj2 (log_check_ok _) (conj Hne Hr)).
Qed.

Lemma get_df_log_summary_months_empty self :
  select_log self = [] -> get_df_log_summary_months self = inl (KeyError "stop").
Proof. intros H. unfold get_df_log_summary_months. now rewrite get_log_df_empty. Qed.

Lemma monthly_buckets_keys rs b :
  In b (monthly_buckets rs) -> exists r, In r rs /\ fst b = monthly_key r.
Proof.
  destruct b as [k v]. unfold monthly_buckets. rewrite group_sum_In.
  intros [Hin _]. rewrite map_map in Hin. apply in_map_iff in Hin.
  destruct Hin as (r & <- & Hr). now exists r.
Qed.

(** *** The windowed summary *)

Lemma filter_mask_map {A B : Type} (m : A -> bool) (g : A -> B) l :
  filter_mask (map m l) (map g l) = map g (filter m l).
Proof.
  induction l as [|a l IH]; simpl; [reflexivity|].
  destruct (m a); simpl; now rewrite IH.
Qed.

Lemma filter_map_swap {A B : Type} (f : B -> bool) (g : A -> B) l :
  filter f (map g l) = map g (filter (fun a => f (g a)) l).
Proof.
  induction l as [|a l IH]; simpl; [reflexivity|].
  destruct (f (g a)); simpl; now rewrite IH.
Qed.

Lemma hours_buckets_keys rs b :
  In b (hours_buckets rs) -> exists r, In r rs /\ fst b = daily_key r.
Proof.
  destruct b as [k v]. unfold hours_buckets. rewrite group_sum_In.
  intros [Hin _]. rewrite map_map in Hin. apply in_map_iff in Hin.
  destruct Hin as (r & <- & Hr). now exists r.
Qed.

Lemma daily_buckets_keys rs b :
  In b (daily_buckets rs) -> exists r, In r rs /\ fst b = daily_key r.
Proof.
  destruct b as [k v]. unfold daily_buckets. rewrite group_sum_In.
  intros [Hin _]. rewrite map_map in Hin. apply in_map_iff in Hin.
  destruct Hin as (r & <- & Hr). now exists r.
Qed.

Lemma weekly_buckets_keys rs b :
  In b (weekly_buckets rs) -> exists r, In r rs /\ fst b = weekly_key r.
Proof.
  destruct b as [k v]. unfold weekly_buckets. rewrite group_sum_In.
  intros [Hin _]. rewrite map_map in Hin. apply in_map_iff in Hin.
  destruct Hin as (r & <- & Hr). now exists r.
Qed.

Lemma ge_date_buckets rs today days bound :
  (forall x t, in_window today days (VDate x :: t) = (bound <=? x)) ->
  ge_date (mkSeries object (map (key_cell 0) (hours_buckets rs))) bound
  = inr (map (fun b => in_window today days (hours_row b)) (hours_buckets rs)).
Proof.
  intros Hw. unfold ge_date. cbn [values].
  apply (mapM_map_ok _ (key_cell 0) (fun b => in_window today days (hours_row b))).
  intros b Hb. destruct (hours_buckets_keys _ _ Hb) as (r & _ & E).
  unfold hours_row, key_cell. rewrite E. cbn [daily_key nth]. now rewrite Hw.
Qed.

Lemma get_df_summary_check self today days :
  get_df_summary self today days =
  (_ <- log_check (select_log self) ;;
   ret (let B := hours_buckets (select_log self) in
        if (days =? 7) || (days =? 30)
        then filter_rows (hours_frame B) (map (fun b => in_window today days (hours_row b)) B)
        else hours_frame B)).
Proof.
  unfold get_df_summary. rewrite get_log_df_check.
  destruct (log_check (select_log self)) as [e | []]; [reflexivity|].
  set (rs := select_log self). cbn [Py.bind Py.ret].
  rewrite (groupby_sum_2 rs (enriched rs) "date" "DayOfWeek" "duration"
             object object timedelta64
             (fun r => VDate (row_date r)) (fun r => VStr (row_day_name r))
             (map (fun r => VTimedelta (row_duration r)) rs) row_duration VTimedelta);
    try reflexivity.
  2:{ apply summands_timedeltas. }
  2:{ unfold enriched. cbn [nrows values]. apply length_map. }
  cbv zeta.
  change (group_sum (map (fun r => ([VDate (row_date r); VStr (row_day_name r)], row_duration r)) rs))
    with (hours_buckets rs).
  set (B := hours_buckets rs).
  frame_step. rewrite div_timedelta_timedeltas.
  frame_step.
  erewrite order_weekdays_eq by (frame_step; reflexivity).
  frame_step.
  destruct (days =? 7) eqn:E7; [|destruct (days =? 30) eqn:E30]; cbn [orb].
  - frame_step. unfold B at 1.
    rewrite (ge_date_buckets rs today days).
    + reflexivity.
    + intros x t. unfold in_window. now rewrite E7.
  - frame_step. unfold B at 1.
    rewrite (ge_date_buckets rs today days).
    + reflexivity.
    + intros x t. unfold in_window. now rewrite E7, E30.
  - reflexivity.
Qed.

Lemma get_df_summary_nonempty self today days :
  select_log self <> [] -> forallb in_range (select_log self) = true ->
  get_df_summary self today days =
  inr (let B := hours_buckets (select_log self) in
       if (days =? 7) || (days =? 30)
       then filter_rows (hours_frame B) (map (fun b => in_window today days (hours_row b)) B)
       else hours_frame B).
Proof.
  intros Hne Hr. rewrite get_df_summary_check.
  now rewrite (proj2 (log_check_ok _) (conj Hne Hr)).
Qed.

Lemma get_df_summary_empty self today days :
  select_log self = [] -> get_df_summary self today days = inl (KeyError "stop").
Proof. intros H. unfold get_df_summary. now rewrite get_log_df_empty. Qed.

Lemma rows_hours_frame B : rows (hours_frame B) = map hours_row B.
Proof. unfold hours_frame. apply rows_3. Qed.

Lemma rows_filter_hours_frame B (m : list scalar * Z -> bool) :
  rows (filter_rows (hours_frame B) (map m B)) = map hours_row (filter m B).
Proof.
  unfold filter_rows, hours_frame. cbn [map fst snd dtype_of values].
  rewrite !filter_mask_map. apply rows_3.
Qed.

(** the rows of the windowed summary are the buckets that pass the window *)
Lemma windowed_rows rs today days :
  rows (let B := hours_buckets rs in
        if (days =? 7) || (days =? 30)
        then filter_rows (hours_frame B) (map (fun b => in_window today days (hours_row b)) B)
        else hours_frame B)
  = filter (in_window today days) (map hours_row (hours_buckets rs)).
Proof.
  cbv zeta. set (B := hours_buckets rs).
  rewrite filter_map_swap.
  destruct ((days =? 7) || (days =? 30)) eqn:E.
  - apply rows_filter_hours_frame.
  - rewrite rows_hours_frame. f_equal. symmetry.
    apply forallb_filter_id. apply forallb_forall. intros b Hb.
    destruct (hours_buckets_keys _ _ Hb) as (r & _ & Ek).
    unfold hours_row, key_cell. rewrite Ek. cbn [daily_key nth].
    apply orb_false_iff in E. destruct E as [E7 E30].
    unfold in_window. now rewrite E7, E30.
Qed.


Lemma get_df_summary_rows self today days :
  select_log self <> [] -> forallb in_range (select_log self) = true ->
  exists out,
    get_df_summary self today days = inr out /\
    rows out = filter (in_window today days) (map hours_row (hours_buckets (select_log self))).
Proof.
  intros Hne Hr. eexists. split; [apply get_df_summary_nonempty; assumption|].
  apply windowed_rows.
Qed.

Lemma rows_daily_frame B : rows (daily_frame B) = map daily_row B.
Proof. unfold daily_frame. apply rows_3. Qed.

Lemma rows_weekly_frame B : rows (weekly_frame B) = map weekly_row B.
Proof. unfold weekly_frame. apply rows_3. Qed.

Lemma init_new_file_joins now now' :
  select_log (init (mkDB [] []) now now') <> [].
Proof. discriminate. Qed.

(** C1.  The code departs from the claim.  On the store with no
    interval, on the store a user reaches by opening a new database and
    deleting the placeholder activity (one interval, none joinable), and
    on a store whose constructor found activities but none with id 1 and
    no interval, so that its placeholder interval of task 1 joins nothing,
    the SELECT of [get_log_df] is empty, [pd.DataFrame] makes a frame
    with no column, and [get_log_df] and the summaries raise KeyError
    'stop' where the claim has an empty sequence and no exception. *)
Lemma no_joinable_row_raises :
  select_log (mkDB [] []) = [] /\
  get_log_df (mkDB [] []) = inl (KeyError "stop") /\
  get_df_log_summary (mkDB [] []) = inl (KeyError "stop") /\
  select_log Examples.placeholder_deleted = [] /\
  log_table Examples.placeholder_deleted <> [] /\
  get_log_df Examples.placeholder_deleted = inl (KeyError "stop") /\
  get_df_log_summary Examples.placeholder_deleted = inl (KeyError "stop") /\
  get_df_log_summary_weeks Examples.placeholder_deleted = inl (KeyError "stop") /\
  get_df_log_summary_months Examples.placeholder_deleted = inl (KeyError "stop") /\
  get_df_summary Examples.placeholder_deleted (Calendar.ymd2ord 2024 1 2) 7
    = inl (KeyError "stop") /\
  get_log_df (init (mkDB [mkCategory 2 "A" "work"] [])
                   (Calendar.datetime 2024 1 1 9 0 0) (Calendar.datetime 2024 1 1 9 0 0))
    = inl (KeyError "stop").
Proof. vm_compute. repeat split; try reflexivity; discriminate. Qed.

(** *** The daily summary of one date *)

Lemma weekday_dtype_single v : weekday_dtype [v] = category [v] false.
Proof.
  unfold weekday_dtype. cbn [map unique_keys filter sort_keys fold_right insert_key hd].
  assert (E : same_items [v] weekdays = false).
  { unfold same_items. apply andb_false_iff. right.
    destruct v; try reflexivity.
    unfold weekdays. cbn [map forallb existsb scalar_eqb orb].
    destruct (String.eqb_spec "Monday" s) as [<- | Hne]; reflexivity. }
  now rewrite E.
Qed.

Lemma seconds_of_day_bound d :
  - (86400 * 1000000000) <= d <= 86400 * 1000000000 -> - 86400 <= seconds_of d <= 86400.
Proof.
  intros Hd. unfold seconds_of.
  assert (E9 : Float64.round (inject_Z 1000000000) = (1000000000 # 1)%Q) by (vm_compute; reflexivity).
  rewrite E9.
  assert (R1 : (Float64.round (inject_Z d) <= inject_Z (86400 * 1000000000))%Q).
  { apply round_le; [rewrite <- Zle_Qle; lia | apply representable_Z; reflexivity]. }
  assert (R2 : (inject_Z (- (86400 * 1000000000)) <= Float64.round (inject_Z d))%Q).
  { apply round_ge; [rewrite <- Zle_Qle; lia | apply representable_Z; reflexivity]. }
  set (x := Float64.round (inject_Z d)) in *.
  change (inject_Z (86400 * 1000000000)) with (86400000000000 # 1)%Q in R1.
  change (inject_Z (- (86400 * 1000000000))) with (-86400000000000 # 1)%Q in R2.
  set (y := (x / (1000000000 # 1))%Q).
  assert (Ey : (y * (1000000000 # 1) == x)%Q) by (unfold y; field).
  assert (S1 : (Float64.round y <= inject_Z 86400)%Q).
  { apply round_le; [change (inject_Z 86400) with (86400 # 1)%Q; lra
                    | apply representable_Z; reflexivity]. }
  assert (S2 : (inject_Z (- 86400) <= Float64.round y)%Q).
  { apply round_ge; [change (inject_Z (- 86400)) with (- 86400 # 1)%Q; lra
                    | apply representable_Z; reflexivity]. }
  split.
  - now apply rint_ge_int.
  - now apply rint_le_int.
Qed.

Lemma same_date_duration a b d :
  a * 1000 / ns_per_day = d -> b * 1000 / ns_per_day = d ->
  - (86400 * 1000000000) <= b * 1000 - a * 1000 <= 86400 * 1000000000.
Proof.
  intros Ha Hb.
  pose proof (Z.mul_div_le (a * 1000) ns_per_day eq_refl).
  pose proof (Z.mul_succ_div_gt (a * 1000) ns_per_day eq_refl).
  pose proof (Z.mul_div_le (b * 1000) ns_per_day eq_refl).
  pose proof (Z.mul_succ_div_gt (b * 1000) ns_per_day eq_refl).
  rewrite Ha in *. rewrite Hb in *. unfold ns_per_day in *. lia.
Qed.

Lemma daily_row_In rs d n h :
  In [VDate d; n; h] (map daily_row (daily_buckets rs)) <->
  exists v, In ([VDate d; n], v) (daily_buckets rs) /\ h = VStr (hms_text v).
Proof.
  rewrite in_map_iff. split.
  - intros ([k v] & E & Hb). destruct (daily_buckets_keys _ _ Hb) as (r & _ & Ek).
    cbn [fst] in Ek. subst k. unfold daily_row, key_cell in E.
    cbn [fst snd daily_key nth] in E. injection E as E1 E2 E3.
    exists v. split; [|now symmetry]. unfold daily_key in Hb. now rewrite E1, E2 in Hb.
  - intros (v & Hb & ->). exists ([VDate d; n], v). split; [reflexivity | assumption].
Qed.

Lemma sum_for_key {A : Type} (key : A -> list scalar) (val : A -> Z) k l :
  sum_for k (map (fun x => (key x, val x)) l)
  = fold_right Z.add 0 (map val (filter (fun x => key_eqb k (key x)) l)).
Proof.
  induction l as [|x l IH]; [reflexivity|].
  cbn [map sum_for filter]. rewrite IH.
  destruct (key_eqb k (key x)); cbn [map fold_right]; lia.
Qed.

Lemma daily_key_eqb d r :
  key_eqb [VDate d; VStr (Calendar.day_name d)] (daily_key r) = (row_date r =? d).
Proof.
  unfold daily_key, row_day_name. cbn [key_eqb scalar_eqb].
  rewrite (Z.eqb_sym d). destruct (Z.eqb_spec (row_date r) d) as [-> | _]; [|reflexivity].
  now rewrite String.eqb_refl.
Qed.

(** the total of the bucket of date [d]: the int64 sum of the rounded
    seconds of the intervals that start on [d] *)
Lemma daily_row_of_date rs d n h :
  In [VDate d; VStr n; VStr h] (map daily_row (daily_buckets rs)) <->
  (exists r, In r rs /\ row_date r = d) /\
  n = Calendar.day_name d /\
  h = hms_text (wrap64 (fold_right Z.add 0
                          (map row_seconds (filter (fun r => row_date r =? d) rs)))).
Proof.
  rewrite daily_row_In. unfold daily_buckets. split.
  - intros (v & Hin & Eh). apply group_sum_In in Hin as [Hk Ev].
    rewrite map_map in Hk. cbn [fst] in Hk. apply in_map_iff in Hk as (r & Ek & Hr).
    unfold daily_key, row_day_name in Ek. injection Ek as Ed En.
    split; [now exists r|]. split; [congruence|].
    injection Eh as ->. rewrite Ev. subst n. rewrite Ed.
    rewrite sum_for_key. do 4 f_equal. apply filter_ext. intros x. apply daily_key_eqb.
  - intros ((r & Hr & Ed) & -> & ->).
    eexists. split; [|reflexivity]. apply group_sum_In. split.
    + rewrite map_map. cbn [fst]. apply in_map_iff. exists r. split; [|assumption].
      unfold daily_key, row_day_name. now rewrite Ed.
    + rewrite sum_for_key. do 3 f_equal. apply filter_ext. intros x.
      symmetry. apply daily_key_eqb.
Qed.

(** C3 (amended).  For a store whose joined intervals have timestamps
    that datetime64[ns] holds and durations that fit int64 nanoseconds, the
    daily summary has one row for each date on which a joined interval
    starts, and no other: the row of date d holds d, the weekday name of d
    and the int64 sum of the rounded integer seconds of the intervals that
    start on d, formatted by [get_time_hms].  When every joined interval
    starts on one date the summary is that single row, and for two
    intervals that also stop on that date the total is the plain sum of
    the two; the interval 2024-01-01 09:00 to 10:30 gives the row
    (2024-01-01, Monday, 01:30:00), and intervals on a Tuesday and on a
    Thursday give a row for each of the two dates. *)
Theorem daily_summary_of_one_date :
  (forall (self : db),
     select_log self <> [] ->
     (forall r, In r (select_log self) -> in_range r = true) ->
     exists daily,
       get_df_log_summary self = inr daily /\
       (forall d n h,
          In [VDate d; VStr n; VStr h] (rows daily) <->
          (exists r, In r (select_log self) /\ row_date r = d) /\
          n = Calendar.day_name d /\
          h = hms_text (wrap64 (fold_right Z.add 0
                  (map row_seconds
                       (filter (fun r => row_date r =? d) (select_log self)))))) /\
       (forall row, In row (rows daily) ->
          exists d n h, row = [VDate d; VStr n; VStr h]) /\
       NoDup (map (fun row => nth 0 row (VInt 0)) (rows daily))) /\
  (forall (self : db) (d : Z),
     select_log self <> [] ->
     (forall r, In r (select_log self) -> in_range r = true) ->
     (forall r, In r (select_log self) -> row_date r = d) ->
     let total := wrap64 (fold_right Z.add 0 (map row_seconds (select_log self))) in
     get_df_log_summary self =
       inr [("date", mkSeries object [VDate d]);
            ("DayOfWeek", mkSeries (category [VStr (Calendar.day_name d)] false)
                                   [VStr (Calendar.day_name d)]);
            ("hms_duration", mkSeries object [VStr (hms_text total)])]%string /\
     TimerFuncs.get_time_hms total = inr (hms_text total) /\
     (forall r1 r2,
        select_log self = [r1; r2] ->
        stop r1 * 1000 / ns_per_day = d -> stop r2 * 1000 / ns_per_day = d ->
        total = row_seconds r1 + row_seconds r2)) /\
  get_df_log_summary Examples.one_interval =
    inr [("date", mkSeries object [VDate (Calendar.ymd2ord 2024 1 1)]);
         ("DayOfWeek", mkSeries (category [VStr "Monday"] false) [VStr "Monday"]);
         ("hms_duration", mkSeries object [VStr "01:30:00"])]%string /\
  fmap rows (get_df_log_summary Examples.tuesday_thursday) =
    inr [[VDate (Calendar.ymd2ord 2024 1 2); VStr "Tuesday"; VStr "01:30:00"];
         [VDate (Calendar.ymd2ord 2024 1 4); VStr "Thursday"; VStr "01:00:00"]].
Proof.
  split; [|split; [|split; vm_compute; reflexivity]].
  - intros self Hne Hr. apply forallb_forall in Hr.
    exists (daily_frame (daily_buckets (select_log self))).
    split; [now apply get_df_log_summary_nonempty|].
    rewrite rows_daily_frame. split; [|split].
    + intros d n h. apply daily_row_of_date.
    + intros row Hrow. apply in_map_iff in Hrow as (b & <- & Hb).
      destruct (daily_buckets_keys _ _ Hb) as (r & _ & Ek).
      unfold daily_row, key_cell. rewrite Ek. cbn [daily_key nth].
      now eexists _, _, _.
    + rewrite map_map. cbn [daily_row nth].
      assert (E : map (fun b => key_cell 0 b) (daily_buckets (select_log self))
                  = map (fun k => hd (VInt 0) k) (map fst (daily_buckets (select_log self)))).
      { rewrite map_map. apply map_ext_in. intros b Hb.
        destruct (daily_buckets_keys _ _ Hb) as (r' & _ & Ek).
        unfold key_cell. now rewrite Ek. }
      rewrite E. apply NoDup_map_in; [|apply group_sum_keys_NoDup].
      intros k1 k2 H1 H2 Hhd. unfold daily_buckets in H1, H2.
      apply (proj1 (group_sum_keys_In _ _)) in H1.
      apply (proj1 (group_sum_keys_In _ _)) in H2.
      rewrite map_map in H1. rewrite map_map in H2.
      apply in_map_iff in H1. apply in_map_iff in H2.
      destruct H1 as (r1 & <- & _). destruct H2 as (r2 & <- & _).
      unfold daily_key, row_day_name in *. cbn [fst hd] in Hhd |- *.
      injection Hhd as Hd. now rewrite Hd.
  - intros self d Hne Hr Hall total. apply forallb_forall in Hr. split; [|split].
    + rewrite (get_df_log_summary_nonempty _ Hne Hr). unfold daily_buckets.
      rewrite (group_sum_constant [VDate d; VStr (Calendar.day_name d)]).
      * rewrite map_map. cbn [snd]. fold total.
        unfold daily_frame. cbn [map key_cell fst snd nth].
        now rewrite weekday_dtype_single.
      * destruct (select_log self); [contradiction | discriminate].
      * intros kv Hkv. apply in_map_iff in Hkv. destruct Hkv as (r & <- & Hr').
        cbn [fst]. unfold daily_key, row_day_name. now rewrite (Hall r Hr').
    + apply get_time_hms_int64, wrap64_range.
    + intros r1 r2 E H1 H2. unfold total. rewrite E. cbn [map fold_right].
      rewrite Z.add_0_r. apply wrap64_small.
      assert (B1 : - 86400 <= row_seconds r1 <= 86400).
      { apply seconds_of_day_bound. unfold row_duration.
        apply (same_date_duration _ _ d); [|assumption].
        apply (Hall r1). rewrite E. now left. }
      assert (B2 : - 86400 <= row_seconds r2 <= 86400).
      { apply seconds_of_day_bound. unfold row_duration.
        apply (same_date_duration _ _ d); [|assumption].
        apply (Hall r2). rewrite E. right. now left. }
      assert (2 ^ 63 = 9223372036854775808) by reflexivity. lia.
Qed.

Lemma daily_summary_of_one_date_witness :
  exists daily,
    get_df_log_summary Examples.two_activities_one_date = inr daily /\
    rows daily = [[VDate (Calendar.ymd2ord 2024 1 1); VStr "Monday"; VStr "02:15:10"]].
Proof.
  destruct daily_summary_of_one_date as (G & _).
  destruct (G Examples.two_activities_one_date) as (daily & E & _).
  - discriminate.
  - intros r Hr. vm_compute in Hr.
    repeat (destruct Hr as [<- | Hr]; [vm_compute; reflexivity|]). contradiction.
  - exists daily. split; [exact E|].
    vm_compute in E. injection E as <-. vm_compute. reflexivity.
Defined.

(** C3 as stated, for every store, fails on the interval 1600-01-03 09:00
    to 10:30 of one activity: datetime64[ns] does not hold the year 1600,
    the start column stays a column of objects, and the daily summary
    raises AttributeError where the claim has one row. *)
Lemma daily_summary_out_of_range :
  select_log Examples.year_1600
    = [mkRow 1 "A" "work" (Calendar.datetime 1600 1 3 9 0 0)
             (Calendar.datetime 1600 1 3 10 30 0)] /\
  get_df_log_summary Examples.year_1600
    = inl (AttributeError "Can only use .dt accessor with datetimelike values").
Proof. vm_compute. split; reflexivity. Qed.

Lemma two_activities_one_date_example :
  get_df_log_summary Examples.two_activities_one_date =
    inr [("date", mkSeries object [VDate (Calendar.ymd2ord 2024 1 1)]);
         ("DayOfWeek", mkSeries (category [VStr "Monday"] false) [VStr "Monday"]);
         ("hms_duration", mkSeries object [VStr "02:15:10"])]%string.
Proof. vm_compute. reflexivity. Qed.

(** *** The weekly bucket *)

Lemma weekday_range d : 0 <= Calendar.weekday d < 7.
Proof. unfold Calendar.weekday. apply Z.mod_pos_bound. lia. Qed.

Lemma weekday_shift d k : Calendar.weekday (d - k) = (Calendar.weekday d - k) mod 7.
Proof.
  unfold Calendar.weekday.
  replace (d - k + 6) with (d + 6 - k) by ring.
  now rewrite Zminus_mod_idemp_l.
Qed.

Lemma week_start_is_monday r : Calendar.weekday (row_week_start r) = 0.
Proof.
  unfold row_week_start. rewrite weekday_shift, Z.sub_diag. reflexivity.
Qed.

(** C4 (amended).  For a store whose joined intervals have timestamps
    that datetime64[ns] holds, durations that fit int64 nanoseconds and
    week starts that datetime64[ns] holds as well, and for every joined
    interval of it, the weekly summary has a row whose key is the start
    date minus its weekday index (Monday = 0), every key of the summary is
    of that form and occurs once, that date is a Monday on or at most six
    days before the start date, every row carries the label Monday, and an
    interval that starts on a Wednesday is under the Monday two days
    before. *)
Theorem weekly_bucket_is_the_monday_on_or_before (self : db) (r : Row) :
  In r (select_log self) ->
  (forall r', In r' (select_log self) -> in_range r' = true) ->
  (forall r', In r' (select_log self) -> week_in_range r' = true) ->
  exists out,
    get_df_log_summary_weeks self = inr out /\
    (exists total,
       In [VDate (row_date r - Calendar.weekday (row_date r)); VStr "Monday"; VStr total]
          (rows out)) /\
    (forall row, In row (rows out) ->
       nth 1 row (VInt 0) = VStr "Monday" /\
       exists r', In r' (select_log self) /\
                  nth 0 row (VInt 0) = VDate (row_date r' - Calendar.weekday (row_date r'))) /\
    NoDup (map (fun row => nth 0 row (VInt 0)) (rows out)) /\
    Calendar.weekday (row_date r - Calendar.weekday (row_date r)) = 0 /\
    row_date r - 6 <= row_date r - Calendar.weekday (row_date r) <= row_date r /\
    (Calendar.day_name (row_date r) = "Wednesday"%string ->
     row_date r - Calendar.weekday (row_date r) = row_date r - 2).
Proof.
  intros Hr Hfit Hweek. apply forallb_forall in Hfit. apply forallb_forall in Hweek.
  assert (Hne : select_log self <> []) by (intros E; rewrite E in Hr; contradiction).
  exists (weekly_frame (weekly_buckets (select_log self))).
  split; [now apply get_df_log_summary_weeks_nonempty|].
  rewrite rows_weekly_frame. set (rs := select_log self) in *.
  split; [|split; [|split; [|split; [|split]]]].
  - exists (hms_text (wrap64 (sum_for (weekly_key r)
                                (map (fun r => (weekly_key r, row_seconds r)) rs)))).
    apply in_map_iff.
    exists (weekly_key r, wrap64 (sum_for (weekly_key r)
                                    (map (fun r => (weekly_key r, row_seconds r)) rs))).
    split; [reflexivity|].
    unfold weekly_buckets. apply group_sum_In. split; [|reflexivity].
    rewrite map_map. cbn [fst]. now apply in_map.
  - intros row Hrow. apply in_map_iff in Hrow. destruct Hrow as (b & <- & Hb).
    split; [reflexivity|].
    destruct (weekly_buckets_keys _ _ Hb) as (r' & Hr' & E).
    exists r'. split; [assumption|].
    unfold weekly_row, key_cell. cbn [nth]. now rewrite E.
  - rewrite map_map. cbn [weekly_row nth].
    assert (E : map (fun b => key_cell 0 b) (weekly_buckets rs)
                = map (fun k => hd (VInt 0) k) (map fst (weekly_buckets rs))).
    { rewrite map_map. apply map_ext_in. intros b Hb.
      destruct (weekly_buckets_keys _ _ Hb) as (r' & _ & Ek).
      unfold key_cell. now rewrite Ek. }
    rewrite E. apply NoDup_map_in.
    + intros k1 k2 H1 H2 Hhd.
      unfold weekly_buckets in H1, H2.
      apply (proj1 (group_sum_keys_In _ _)) in H1.
      apply (proj1 (group_sum_keys_In _ _)) in H2.
      rewrite map_map in H1. rewrite map_map in H2.
      apply in_map_iff in H1. apply in_map_iff in H2.
      destruct H1 as (r1 & <- & _). destruct H2 as (r2 & <- & _).
      unfold weekly_key in *. cbn [fst hd] in Hhd |- *. now rewrite Hhd.
    + apply group_sum_keys_NoDup.
  - apply week_start_is_monday.
  - pose proof (weekday_range (row_date r)). lia.
  - intros Hwed.
    assert (Hw : Calendar.weekday (row_date r) = 2).
    { unfold Calendar.day_name in Hwed.
      pose proof (weekday_range (row_date r)) as Hrange.
      destruct (Calendar.weekday (row_date r)) as [|p|p] eqn:Ew; try lia;
        [discriminate Hwed|].
      do 6 (destruct p as [p|p|]; try lia; try discriminate Hwed; try reflexivity). }
    now rewrite Hw.
Qed.

Lemma weekly_bucket_is_the_monday_on_or_before_witness :
  exists out,
    get_df_log_summary_weeks Examples.wednesday = inr out /\
    rows out = [[VDate (Calendar.ymd2ord 2024 1 1); VStr "Monday"; VStr "01:00:00"]].
Proof.
  destruct (weekly_bucket_is_the_monday_on_or_before Examples.wednesday
              (mkRow 1 "A" "work" (Calendar.datetime 2024 1 3 9 0 0)
                     (Calendar.datetime 2024 1 3 10 0 0)))
    as (out & E & _).
  - now left.
  - intros r' [<- | []]. vm_compute. reflexivity.
  - intros r' [<- | []]. vm_compute. reflexivity.
  - exists out. split; [exact E|].
    vm_compute in E. injection E as <-. vm_compute. reflexivity.
Defined.

(** C4 as stated fails on an interval that starts on Wednesday
    2024-01-03: its bucket is 2024-01-01, two days before; three days
    before is 2023-12-31, a Sunday.  As stated for every interval it also
    fails on the interval 1600-01-03 09:00 to 10:30, which datetime64[ns]
    does not hold: the weekly summary raises AttributeError and has no
    bucket for it. *)
Lemma wednesday_is_two_days_after_monday :
  Calendar.day_name (Calendar.ymd2ord 2024 1 3) = "Wednesday"%string /\
  get_df_log_summary_weeks Examples.wednesday =
    inr [("week_start", mkSeries object [VDate (Calendar.ymd2ord 2024 1 3 - 2)]);
         ("day", mkSeries object [VStr "Monday"]);
         ("hms_duration", mkSeries object [VStr "01:00:00"])]%string /\
  Calendar.ymd2ord 2024 1 3 - 2 <> Calendar.ymd2ord 2024 1 3 - 3 /\
  Calendar.day_name (Calendar.ymd2ord 2024 1 3 - 3) = "Sunday"%string /\
  get_df_log_summary_weeks Examples.year_1600
    = inl (AttributeError "Can only use .dt accessor with datetimelike values").
Proof. vm_compute. repeat split; try reflexivity; discriminate. Qed.

(** *** The date window *)




(** *** Sparse weekdays *)

Lemma categories_are_values vals c :
  In c (map (fun k => hd (VInt 0) k) (sort_keys (unique_keys (map (fun v => [v]) vals)))) ->
  In c vals.
Proof.
  intros H. apply in_map_iff in H. destruct H as (k & <- & Hk).
  apply (Permutation_in _ (sort_keys_perm _)) in Hk.
  apply (proj1 (unique_keys_In _ _)) in Hk. apply in_map_iff in Hk.
  destruct Hk as (v & <- & Hv). exact Hv.
Qed.

Lemma missing_weekday_fails_reorder vals name :
  In name Calendar.day_names -> ~ In (VStr name) vals ->
  same_items (map (fun k => hd (VInt 0) k) (sort_keys (unique_keys (map (fun v => [v]) vals))))
             weekdays = false.
Proof.
  intros Hname Hmiss. unfold same_items. apply andb_false_iff. right.
  destruct (forallb _ weekdays) eqn:E; [|reflexivity]. exfalso.
  rewrite forallb_forall in E.
  assert (Hin : In (VStr name) weekdays) by (unfold weekdays; now apply in_map).
  specialize (E _ Hin). apply existsb_exists in E. destruct E as (c & Hc & Heq).
  apply scalar_eqb_eq in Heq. subst c.
  now apply Hmiss, categories_are_values.
Qed.

Lemma weekday_dtype_sparse vals name :
  In name Calendar.day_names -> ~ In (VStr name) vals ->
  weekday_dtype vals =
  category (map (fun k => hd (VInt 0) k) (sort_keys (unique_keys (map (fun v => [v]) vals)))) false.
Proof.
  intros H1 H2. unfold weekday_dtype. now rewrite (missing_weekday_fails_reorder vals name).
Qed.

Lemma NoDup_map_filter {A B : Type} (g : A -> B) (f : A -> bool) l :
  NoDup (map g l) -> NoDup (map g (filter f l)).
Proof.
  induction l as [|a l IH]; simpl; intros H; [constructor|].
  inversion H as [|x xs Hnotin Hnd]; subst.
  destruct (f a); simpl; [|now apply IH].
  constructor; [|now apply IH].
  rewrite in_map_iff. intros (y & E & Hy). apply filter_In in Hy.
  apply Hnotin. rewrite in_map_iff. exists y. tauto.
Qed.

Lemma daily_row_key rs b :
  In b (daily_buckets rs) -> firstn 2 (daily_row b) = fst b.
Proof.
  intros Hb. destruct (daily_buckets_keys _ _ Hb) as (r & _ & E).
  unfold daily_row, key_cell. rewrite E. reflexivity.
Qed.

Lemma hours_row_key rs b :
  In b (hours_buckets rs) -> firstn 2 (hours_row b) = fst b.
Proof.
  intros Hb. destruct (hours_buckets_keys _ _ Hb) as (r & _ & E).
  unfold hours_row, key_cell. rewrite E. reflexivity.
Qed.

Lemma in_window_key rs today days b :
  In b (hours_buckets rs) ->
  in_window today days (hours_row b) = in_window today days (fst b).
Proof.
  intros Hb. destruct (hours_buckets_keys _ _ Hb) as (r & _ & E).
  unfold hours_row, key_cell. rewrite E. reflexivity.
Qed.

Lemma daily_bucket_keys_In rs k :
  In k (map fst (daily_buckets rs)) <-> In k (map daily_key rs).
Proof. unfold daily_buckets. rewrite group_sum_keys_In, map_map. reflexivity. Qed.

Lemma hours_bucket_keys_In rs k :
  In k (map fst (hours_buckets rs)) <-> In k (map daily_key rs).
Proof. unfold hours_buckets. rewrite group_sum_keys_In, map_map. reflexivity. Qed.

(** C2 (amended).  For every store with at least one joinable interval
    whose joined intervals leave out some weekday and have timestamps that
    datetime64[ns] holds and durations that fit int64 nanoseconds, the
    daily and the windowed
    summary return a frame: reordering the categories raises ValueError,
    which is caught, and the weekday column keeps its unordered
    categories; the daily summary has each populated (date, weekday)
    bucket exactly once, and the windowed summary each populated bucket
    that passes its date filter exactly once. *)
Theorem sparse_weekdays_are_tolerated (self : db) (today days : Z) (name : string) :
  select_log self <> [] ->
  (forall r, In r (select_log self) -> in_range r = true) ->
  In name Calendar.day_names ->
  (forall r, In r (select_log self) -> row_day_name r <> name) ->
  exists daily windowed day cats,
    get_df_log_summary self = inr daily /\
    get_df_summary self today days = inr windowed /\
    getitem daily "DayOfWeek" = inr day /\
    dtype_of day = category cats false /\
    reorder_categories day weekdays true =
      inl (ValueError "items in new_categories are not the same as in old categories") /\
    NoDup (map (firstn 2) (rows daily)) /\
    (forall k, In k (map (firstn 2) (rows daily)) <-> In k (map daily_key (select_log self))) /\
    NoDup (map (firstn 2) (rows windowed)) /\
    (forall k, In k (map (firstn 2) (rows windowed)) <->
               In k (map daily_key (select_log self)) /\ in_window today days k = true).
Proof.
  intros Hne Hfit Hname Hmiss. apply forallb_forall in Hfit.
  set (rs := select_log self) in *.
  destruct (get_df_summary_rows self today days Hne Hfit) as (windowed & Ew & Hrows).
  fold rs in Hrows.
  set (vals := map (key_cell 1) (daily_buckets rs)).
  assert (Hvals : ~ In (VStr name) vals).
  { unfold vals. rewrite in_map_iff. intros (b & E & Hb).
    destruct (daily_buckets_keys _ _ Hb) as (r & Hr & Ek).
    unfold key_cell in E. rewrite Ek in E. cbn [daily_key nth] in E.
    injection E as E. now apply (Hmiss r Hr). }
  exists (daily_frame (daily_buckets rs)), windowed,
         (mkSeries (weekday_dtype vals) vals),
         (map (fun k => hd (VInt 0) k) (sort_keys (unique_keys (map (fun v => [v]) vals)))).
  assert (Hkeys : map (firstn 2) (rows (daily_frame (daily_buckets rs)))
                  = map fst (daily_buckets rs)).
  { rewrite rows_daily_frame, map_map. apply map_ext_in.
    intros b Hb. now apply (daily_row_key rs). }
  assert (Hkeysw : map (firstn 2) (rows windowed)
                   = map fst (filter (fun b => in_window today days (fst b)) (hours_buckets rs))).
  { rewrite Hrows, filter_map_swap, map_map.
    rewrite (filter_ext_in _ (fun b => in_window today days (fst b)))
      by (intros b Hb; now apply (in_window_key rs)).
    apply map_ext_in. intros b Hb. apply filter_In in Hb.
    now apply (hours_row_key rs). }
  repeat split.
  - now apply get_df_log_summary_nonempty.
  - exact Ew.
  - cbn [dtype_of]. now apply (weekday_dtype_sparse vals name).
  - unfold reorder_categories. cbn [dtype_of values].
    rewrite (weekday_dtype_sparse vals name) by assumption.
    now rewrite (missing_weekday_fails_reorder vals name).
  - rewrite Hkeys. apply group_sum_keys_NoDup.
  - rewrite Hkeys. apply daily_bucket_keys_In.
  - rewrite Hkeys. apply daily_bucket_keys_In.
  - rewrite Hkeysw. apply NoDup_map_filter. apply group_sum_keys_NoDup.
  - rewrite Hkeysw in H. apply in_map_iff in H. destruct H as (b & <- & Hb).
    apply filter_In in Hb. apply hours_bucket_keys_In. apply in_map. tauto.
  - rewrite Hkeysw in H. apply in_map_iff in H. destruct H as (b & <- & Hb).
    apply filter_In in Hb. tauto.
  - intros [Hk Hw]. rewrite Hkeysw.
    apply hours_bucket_keys_In in Hk. apply in_map_iff in Hk.
    destruct Hk as (b & <- & Hb). apply in_map. apply filter_In. tauto.
Qed.

Lemma sparse_weekdays_are_tolerated_witness :
  exists daily windowed,
    get_df_log_summary Examples.tuesday_thursday = inr daily /\
    get_df_summary Examples.tuesday_thursday (Calendar.ymd2ord 2024 1 5) 7 = inr windowed /\
    map (firstn 2) (rows daily) =
      [[VDate (Calendar.ymd2ord 2024 1 2); VStr "Tuesday"];
       [VDate (Calendar.ymd2ord 2024 1 4); VStr "Thursday"]] /\
    map (firstn 2) (rows windowed) =
      [[VDate (Calendar.ymd2ord 2024 1 2); VStr "Tuesday"];
       [VDate (Calendar.ymd2ord 2024 1 4); VStr "Thursday"]].
Proof.
  destruct (sparse_weekdays_are_tolerated Examples.tuesday_thursday
              (Calendar.ymd2ord 2024 1 5) 7 "Monday")
    as (daily & windowed & day & cats & E1 & E2 & _).
  - discriminate.
  - intros r Hr. vm_compute in Hr.
    repeat (destruct Hr as [<- | Hr]; [vm_compute; reflexivity|]). contradiction.
  - now left.
  - intros r Hr. vm_compute in Hr.
    repeat (destruct Hr as [<- | Hr]; [vm_compute; discriminate|]). contradiction.
  - exists daily, windowed. split; [exact E1|]. split; [exact E2|].
    vm_compute in E1. injection E1 as <-.
    vm_compute in E2. injection E2 as <-.
    vm_compute. split; reflexivity.
Defined.

(** C2 as stated fails three times: a store whose only interval joins
    no category covers no weekday, and both summaries raise KeyError
    'stop'; with entries on a Tuesday and a Thursday only, the windowed
    summary for the last 7 days, asked 16 days later, returns no bucket;
    and the one interval of 1600-01-03, which datetime64[ns] does not
    hold, makes both summaries raise AttributeError. *)
Lemma sparse_weekdays_counterexample :
  get_df_log_summary Examples.dangling_only = inl (KeyError "stop") /\
  get_df_summary Examples.dangling_only (Calendar.ymd2ord 2024 1 5) 7 = inl (KeyError "stop") /\
  fmap rows (get_df_summary Examples.tuesday_thursday (Calendar.ymd2ord 2024 1 20) 7) = inr [] /\
  get_df_log_summary Examples.year_1600
    = inl (AttributeError "Can only use .dt accessor with datetimelike values") /\
  get_df_summary Examples.year_1600 (Calendar.ymd2ord 2024 1 5) 30
    = inl (AttributeError "Can only use .dt accessor with datetimelike values").
Proof. vm_compute. repeat split; reflexivity. Qed.

(** *** Dangling references *)

Lemma select_log_app cats l1 l2 :
  select_log (mkDB cats (l1 ++ l2)) = select_log (mkDB cats l1) ++ select_log (mkDB cats l2).
Proof. unfold select_log. cbn [log_table category_table]. apply flat_map_app. Qed.

Lemma filter_none {A : Type} (f : A -> bool) l :
  (forall x, In x l -> f x = false) -> filter f l = [].
Proof.
  induction l as [|a l IH]; intros H; [reflexivity|].
  simpl. rewrite (H a) by (now left). apply IH. intros x Hx. apply H. now right.
Qed.

Lemma select_log_dangling cats l :
  (forall c, In c cats -> c_id c <> l_taskid l) -> select_log (mkDB cats [l]) = [].
Proof.
  intros H. unfold select_log. cbn [log_table category_table flat_map].
  rewrite filter_none; [reflexivity|].
  intros c Hc. apply Z.eqb_neq. intros E. now apply (H c Hc).
Qed.

Lemma select_log_drop cats l1 l l2 :
  (forall c, In c cats -> c_id c <> l_taskid l) ->
  select_log (mkDB cats (l1 ++ l :: l2)) = select_log (mkDB cats (l1 ++ l2)).
Proof.
  intros H. change (l :: l2) with ([l] ++ l2).
  rewrite !select_log_app, select_log_dangling by assumption. reflexivity.
Qed.

Lemma get_log_df_select self self' :
  select_log self = select_log self' -> get_log_df self = get_log_df self'.
Proof. intros E. unfold get_log_df. now rewrite E. Qed.

Lemma summaries_select self self' :
  select_log self = select_log self' ->
  get_log_df self = get_log_df self' /\
  get_df_log_summary self = get_df_log_summary self' /\
  get_df_log_summary_weeks self = get_df_log_summary_weeks self' /\
  get_df_log_summary_months self = get_df_log_summary_months self' /\
  (forall today days, get_df_summary self today days = get_df_summary self' today days).
Proof.
  intros E. pose proof (get_log_df_select _ _ E) as El.
  unfold get_df_log_summary, get_df_log_summary_weeks, get_df_log_summary_months,
    get_df_summary.
  rewrite El. repeat split.
Qed.

Lemma unique_id_row cats c c' :
  NoDup (map c_id cats) -> In c cats -> In c' cats -> c_id c = c_id c' -> c = c'.
Proof.
  induction cats as [|a cats IH]; intros Hnd Hc Hc' E; [contradiction|].
  simpl in Hnd. inversion Hnd as [|x xs Hnotin Hnd']; subst.
  destruct Hc as [-> | Hc], Hc' as [-> | Hc'].
  - reflexivity.
  - exfalso. apply Hnotin. rewrite E. now apply in_map.
  - exfalso. apply Hnotin. rewrite <- E. now apply in_map.
  - now apply IH.
Qed.

Lemma filter_flat_map {A B : Type} (p : B -> bool) (f : A -> list B) l :
  filter p (flat_map f l) = flat_map (fun x => filter p (f x)) l.
Proof.
  induction l as [|a l IH]; simpl; [reflexivity|].
  now rewrite filter_app, IH.
Qed.

Lemma filter_comm {A : Type} (p q : A -> bool) l :
  filter p (filter q l) = filter q (filter p l).
Proof.
  induction l as [|a l IH]; simpl; [reflexivity|].
  destruct (q a) eqn:Eq, (p a) eqn:Ep; simpl; rewrite ?Eq, ?Ep, IH; reflexivity.
Qed.

Lemma select_log_delete self a g :
  select_log (delete_activity self a g)
  = filter (fun r => negb (of_activity a g r)) (select_log self).
Proof.
  unfold select_log, delete_activity. cbn [log_table category_table].
  rewrite filter_flat_map. apply flat_map_ext. intros l.
  rewrite filter_comm, filter_map_swap. reflexivity.
Qed.

Lemma delete_leaves_dangling self a g l c :
  NoDup (map c_id (category_table self)) ->
  In c (category_table self) -> c_id c = l_taskid l ->
  c_activity c = a -> c_grouping c = g ->
  forall c', In c' (category_table (delete_activity self a g)) -> c_id c' <> l_taskid l.
Proof.
  intros Hnd Hc Hid Ha Hg c' Hc' E.
  unfold delete_activity in Hc'. cbn [category_table] in Hc'.
  apply filter_In in Hc'. destruct Hc' as [Hin Hkeep].
  assert (c = c') by (apply (unique_id_row (category_table self)); congruence).
  subst c'. rewrite Ha, Hg, !String.eqb_refl in Hkeep. discriminate.
Qed.

(** a bucket whose rows all survive a filter keeps its key and its total *)
Lemma group_sum_filter_In {A : Type} (key : A -> list scalar) (val : A -> Z)
  (p : A -> bool) (l : list A) k v :
  (forall x, In x l -> key x = k -> p x = true) ->
  In (k, v) (group_sum (map (fun x => (key x, val x)) (filter p l))) <->
  In (k, v) (group_sum (map (fun x => (key x, val x)) l)).
Proof.
  intros H. rewrite !group_sum_In, !map_map. cbn [fst].
  assert (Ek : In k (map key (filter p l)) <-> In k (map key l)).
  { rewrite !in_map_iff. split.
    - intros (x & E & Hx). apply filter_In in Hx. exists x. tauto.
    - intros (x & E & Hx). exists x. split; [assumption|].
      apply filter_In. split; [assumption | now apply H]. }
  assert (Es : sum_for k (map (fun x => (key x, val x)) (filter p l))
               = sum_for k (map (fun x => (key x, val x)) l)).
  { clear Ek. induction l as [|a l IH]; [reflexivity|].
    assert (IH' := IH (fun x Hx => H x (or_intror Hx))).
    simpl. destruct (p a) eqn:Ep.
    - simpl. now rewrite IH'.
    - rewrite IH'. destruct (key_eqb k (key a)) eqn:Ekey; [|lia].
      apply key_eqb_eq in Ekey. rewrite (H a) in Ep by (auto; now left). discriminate. }
  rewrite Ek, Es. reflexivity.
Qed.

Lemma weekly_row_In rs d h :
  In [VDate d; VStr "Monday"; h] (map weekly_row (weekly_buckets rs)) <->
  exists v, In ([VDate d], v) (weekly_buckets rs) /\ h = VStr (hms_text v).
Proof.
  rewrite in_map_iff. split.
  - intros ([k v] & E & Hb). destruct (weekly_buckets_keys _ _ Hb) as (r & _ & Ek).
    cbn [fst] in Ek. subst k. unfold weekly_row, key_cell in E.
    cbn [fst snd weekly_key nth] in E. injection E as E1 E3.
    exists v. split; [|now symmetry]. unfold weekly_key in Hb. now rewrite E1 in Hb.
  - intros (v & Hb & ->). exists ([VDate d], v). split; [reflexivity | assumption].
Qed.

Lemma rows_monthly_frame B : rows (monthly_frame B) = map daily_row B.
Proof. unfold monthly_frame. apply rows_3. Qed.

Lemma monthly_row_In rs ym mn h :
  In [VStr ym; mn; h] (map daily_row (monthly_buckets rs)) <->
  exists v, In ([VStr ym; mn], v) (monthly_buckets rs) /\ h = VStr (hms_text v).
Proof.
  rewrite in_map_iff. split.
  - intros ([k v] & E & Hb). destruct (monthly_buckets_keys _ _ Hb) as (r & _ & Ek).
    cbn [fst] in Ek. subst k. unfold daily_row, key_cell in E.
    cbn [fst snd monthly_key nth] in E. injection E as E1 E2 E3.
    exists v. split; [|now symmetry]. unfold monthly_key in Hb. now rewrite E1, E2 in Hb.
  - intros (v & Hb & ->). exists ([VStr ym; mn], v). split; [reflexivity | assumption].
Qed.

Lemma hours_row_In rs d n h :
  In [VDate d; n; h] (map hours_row (hours_buckets rs)) <->
  exists v, In ([VDate d; n], v) (hours_buckets rs) /\ h = VFloat (hours_of v).
Proof.
  rewrite in_map_iff. split.
  - intros ([k v] & E & Hb). destruct (hours_buckets_keys _ _ Hb) as (r & _ & Ek).
    cbn [fst] in Ek. subst k. unfold hours_row, key_cell in E.
    cbn [fst snd daily_key nth] in E. injection E as E1 E2 E3.
    exists v. split; [|now symmetry]. unfold daily_key in Hb. now rewrite E1, E2 in Hb.
  - intros (v & Hb & ->). exists ([VDate d; n], v). split; [reflexivity | assumption].
Qed.

(** a summary that returns a frame returns the frame of its buckets *)
Lemma get_df_log_summary_inr self out :
  get_df_log_summary self = inr out ->
  out = daily_frame (daily_buckets (select_log self)).
Proof.
  rewrite get_df_log_summary_check.
  destruct (log_check (select_log self)) as [e | []]; [discriminate|].
  now intros [= <-].
Qed.

Lemma get_df_log_summary_weeks_inr self out :
  get_df_log_summary_weeks self = inr out ->
  out = weekly_frame (weekly_buckets (select_log self)).
Proof.
  rewrite get_df_log_summary_weeks_check.
  destruct (log_check (select_log self)) as [e | []]; [discriminate|].
  cbn [Py.bind]. destruct (week_check (select_log self)) as [e | []]; [discriminate|].
  now intros [= <-].
Qed.

Lemma get_df_log_summary_months_inr self out :
  get_df_log_summary_months self = inr out ->
  out = monthly_frame (monthly_buckets (select_log self)).
Proof.
  rewrite get_df_log_summary_months_check.
  destruct (log_check (select_log self)) as [e | []]; [discriminate|].
  now intros [= <-].
Qed.

Lemma get_df_summary_inr self today days out :
  days <> 7 -> days <> 30 ->
  get_df_summary self today days = inr out ->
  out = hours_frame (hours_buckets (select_log self)).
Proof.
  intros H7 H30. rewrite get_df_summary_check.
  destruct (log_check (select_log self)) as [e | []]; [discriminate|].
  cbn [Py.bind Py.ret]. cbv zeta.
  apply Z.eqb_neq in H7, H30. rewrite H7, H30. now intros [= <-].
Qed.

(** C6.  A log row whose taskid is the id of no category row
    contributes nothing: the SELECT, [get_log_df] and every summary are
    what they are without that row.  After [delete_activity] of the
    activity an interval refers to (ids being unique) that interval is in
    this case, the SELECT is the former one without the rows of the deleted
    activity, and in the daily, weekly, monthly and unfiltered windowed
    summaries a bucket fed only by other activities keeps its row, total
    included. *)
Theorem dangling_intervals_are_dropped :
  (forall cats l1 l l2,
     (forall c, In c cats -> c_id c <> l_taskid l) ->
     select_log (mkDB cats (l1 ++ l :: l2)) = select_log (mkDB cats (l1 ++ l2)) /\
     get_log_df (mkDB cats (l1 ++ l :: l2)) = get_log_df (mkDB cats (l1 ++ l2)) /\
     get_df_log_summary (mkDB cats (l1 ++ l :: l2))
       = get_df_log_summary (mkDB cats (l1 ++ l2)) /\
     get_df_log_summary_weeks (mkDB cats (l1 ++ l :: l2))
       = get_df_log_summary_weeks (mkDB cats (l1 ++ l2)) /\
     get_df_log_summary_months (mkDB cats (l1 ++ l :: l2))
       = get_df_log_summary_months (mkDB cats (l1 ++ l2)) /\
     (forall today days,
        get_df_summary (mkDB cats (l1 ++ l :: l2)) today days
        = get_df_summary (mkDB cats (l1 ++ l2)) today days)) /\
  (forall self a g l c,
     NoDup (map c_id (category_table self)) ->
     In l (log_table self) -> In c (category_table self) -> c_id c = l_taskid l ->
     c_activity c = a -> c_grouping c = g ->
     let self' := delete_activity self a g in
     In l (log_table self') /\
     (forall c', In c' (category_table self') -> c_id c' <> l_taskid l) /\
     select_log self' = filter (fun r => negb (of_activity a g r)) (select_log self) /\
     (forall daily daily' d n h,
        get_df_log_summary self = inr daily -> get_df_log_summary self' = inr daily' ->
        (forall r, In r (select_log self) -> row_date r = d -> of_activity a g r = false) ->
        (In [VDate d; n; h] (rows daily') <-> In [VDate d; n; h] (rows daily))) /\
     (forall weekly weekly' w h,
        get_df_log_summary_weeks self = inr weekly ->
        get_df_log_summary_weeks self' = inr weekly' ->
        (forall r, In r (select_log self) -> row_week_start r = w -> of_activity a g r = false) ->
        (In [VDate w; VStr "Monday"; h] (rows weekly') <->
         In [VDate w; VStr "Monday"; h] (rows weekly))) /\
     (forall monthly monthly' ym mn h,
        get_df_log_summary_months self = inr monthly ->
        get_df_log_summary_months self' = inr monthly' ->
        (forall r, In r (select_log self) ->
                   Calendar.strftime_Y_m (row_date r) = ym -> of_activity a g r = false) ->
        (In [VStr ym; mn; h] (rows monthly') <-> In [VStr ym; mn; h] (rows monthly))) /\
     (forall today days all all' d n h,
        days <> 7 -> days <> 30 ->
        get_df_summary self today days = inr all ->
        get_df_summary self' today days = inr all' ->
        (forall r, In r (select_log self) -> row_date r = d -> of_activity a g r = false) ->
        (In [VDate d; n; h] (rows all') <-> In [VDate d; n; h] (rows all)))).
Proof.
  split.
  - intros cats l1 l l2 H.
    pose proof (select_log_drop cats l1 l l2 H) as E.
    split; [exact E | now apply summaries_select].
  - intros self a g l c Hnd Hl Hc Hid Ha Hg self'.
    pose proof (select_log_delete self a g) as Esel. fold self' in Esel.
    assert (Hkeep : forall d, (forall r, In r (select_log self) -> row_date r = d ->
                                         of_activity a g r = false) ->
                    forall n x, In x (select_log self) -> daily_key x = [VDate d; n] ->
                              negb (of_activity a g x) = true).
    { intros d Hd n x Hx Ex. injection Ex as Ex _. now rewrite (Hd x Hx Ex). }
    split; [exact Hl|]. split; [now apply (delete_leaves_dangling self a g l c)|].
    split; [exact Esel|]. split; [|split; [|split]].
    + intros daily daily' d n h E E' Hd.
      apply get_df_log_summary_inr in E, E'. subst daily daily'.
      rewrite !rows_daily_frame, !daily_row_In, Esel. unfold daily_buckets.
      split; intros (v & Hv & Hh); exists v; (split; [|exact Hh]);
        apply (group_sum_filter_In daily_key row_seconds _ _ _ _ (Hkeep d Hd n)); exact Hv.
    + intros weekly weekly' w h E E' Hw.
      apply get_df_log_summary_weeks_inr in E, E'. subst weekly weekly'.
      rewrite !rows_weekly_frame, !weekly_row_In, Esel. unfold weekly_buckets.
      assert (Hk : forall x, In x (select_log self) -> weekly_key x = [VDate w] ->
                             negb (of_activity a g x) = true).
      { intros x Hx Ex. injection Ex as Ex. now rewrite (Hw x Hx Ex). }
      split; intros (v & Hv & Hh); exists v; (split; [|exact Hh]);
        apply (group_sum_filter_In weekly_key row_seconds _ _ _ _ Hk); exact Hv.
    + intros monthly monthly' ym mn h E E' Hm.
      apply get_df_log_summary_months_inr in E, E'. subst monthly monthly'.
      rewrite !rows_monthly_frame, !monthly_row_In, Esel. unfold monthly_buckets.
      assert (Hk : forall x, In x (select_log self) -> monthly_key x = [VStr ym; mn] ->
                             negb (of_activity a g x) = true).
      { intros x Hx Ex. injection Ex as Ex _. now rewrite (Hm x Hx Ex). }
      split; intros (v & Hv & Hh); exists v; (split; [|exact Hh]);
        apply (group_sum_filter_In monthly_key row_seconds _ _ _ _ Hk); exact Hv.
    + intros today days all all' d n h H7 H30 E E' Hd.
      apply get_df_summary_inr in E, E'; try assumption. subst all all'.
      rewrite !rows_hours_frame, !hours_row_In, Esel. unfold hours_buckets.
      split; intros (v & Hv & Hh); exists v; (split; [|exact Hh]);
        apply (group_sum_filter_In daily_key row_duration _ _ _ _ (Hkeep d Hd n)); exact Hv.
Qed.

Lemma dangling_intervals_are_dropped_witness :
  select_log (delete_activity Examples.two_activities_one_date "B" "home")
  = [mkRow 1 "A" "work" (Calendar.datetime 2024 1 1 9 0 0)
           (Calendar.datetime 2024 1 1 10 30 0)].
Proof.
  destruct (proj2 dangling_intervals_are_dropped Examples.two_activities_one_date
              "B"%string "home"%string
              (mkLog 2 2 (Calendar.datetime 2024 1 1 13 0 0)
                     (Calendar.datetime 2024 1 1 13 45 10) None)
              (mkCategory 2 "B" "home"))
    as (_ & _ & E & _).
  - repeat constructor; simpl; intuition discriminate.
  - right. now left.
  - right. now left.
  - reflexivity.
  - reflexivity.
  - reflexivity.
  - rewrite E. vm_compute. reflexivity.
Defined.

End Frames.

(** ** The formatters: decoding, the daily wrap and negative totals *)

Section FormattersMore.
Import Float64 PyFormat TimerFuncs HMS.

Lemma hms_reassemble s : s / 3600 * 3600 + (s / 60) mod 60 * 60 + s mod 60 = s.
Proof.
  assert (E : s / 3600 = s / 60 / 60) by (rewrite Z.div_div by lia; reflexivity).
  pose proof (Z.div_mod s 60 ltac:(lia)).
  pose proof (Z.div_mod (s / 60) 60 ltac:(lia)).
  lia.
Qed.

Lemma day_wrap_fields s :
  (s mod 86400 / 3600) mod 24 = (s / 3600) mod 24 /\
  (s mod 86400 / 60) mod 60 = (s / 60) mod 60 /\
  (s mod 86400) mod 60 = s mod 60.
Proof.
  pose proof (Z.div_mod s 86400 ltac:(lia)) as D.
  pose proof (Z.mod_pos_bound s 86400 ltac:(lia)) as B.
  set (r := s mod 86400) in *. set (q := s / 86400) in *.
  assert (E1 : s / 3600 = q * 24 + r / 3600).
  { rewrite D. replace (86400 * q + r) with (q * 24 * 3600 + r) by lia.
    rewrite Z.div_add_l by lia. reflexivity. }
  assert (E2 : s / 60 = q * 1440 + r / 60).
  { rewrite D. replace (86400 * q + r) with (q * 1440 * 60 + r) by lia.
    rewrite Z.div_add_l by lia. reflexivity. }
  assert (E3 : s mod 60 = r mod 60).
  { rewrite D. replace (86400 * q + r) with (r + q * 1440 * 60) by lia.
    apply Z.mod_add. lia. }
  repeat split.
  - rewrite E1. replace (q * 24 + r / 3600) with (r / 3600 + q * 24) by lia.
    now rewrite Z.mod_add by lia.
  - rewrite E2. replace (q * 1440 + r / 60) with (r / 60 + q * 24 * 60) by lia.
    now rewrite Z.mod_add by lia.
  - now rewrite E3.
Qed.

(** X1.  Within 3600 * 2^41 seconds of zero, negative totals included,
    the hours, minutes and seconds that [get_time_hms] computes from a
    total add up, through [get_total_seconds], to that total again; so two
    totals with the same three fields are the same total. *)
Theorem hms_fields_give_back_the_total s1 s2 :
  - (3600 * 2 ^ 41) <= s1 < 3600 * 2 ^ 41 ->
  - (3600 * 2 ^ 41) <= s2 < 3600 * 2 ^ 41 ->
  (exists h m sec,
     get_time_hms_locals s1 = inr (h, m, sec) /\ get_total_seconds h m sec = s1) /\
  (get_time_hms_locals s1 = get_time_hms_locals s2 -> s1 = s2).
Proof.
  intros H1 H2. split.
  - exists (s1 / 3600), ((s1 / 60) mod 60), (s1 mod 60). split.
    + now apply get_time_hms_locals_exact.
    + apply hms_reassemble.
  - rewrite !get_time_hms_locals_exact by assumption. intros [= Eh Em Es].
    rewrite <- (hms_reassemble s1), <- (hms_reassemble s2). now rewrite Eh, Em, Es.
Qed.

Lemma hms_fields_give_back_the_total_witness :
  (exists h m sec,
     get_time_hms_locals (-3725) = inr (h, m, sec) /\ get_total_seconds h m sec = -3725) /\
  (get_time_hms_locals (-3725) = get_time_hms_locals 90061 -> -3725 = 90061).
Proof. apply hms_fields_give_back_the_total; lia. Defined.

(** X2.  [formatted_time] is a clock of one day: within 3600 * 2^41
    seconds of zero it prints a total and that total modulo 86400 alike,
    and its three fields add up to the total modulo 86400. *)
Theorem formatted_time_wraps_every_day s :
  - (3600 * 2 ^ 41) <= s < 3600 * 2 ^ 41 ->
  formatted_time s = formatted_time (s mod 86400) /\
  exists h m sec,
    formatted_time_locals s = inr (h, m, sec) /\
    get_total_seconds h m sec = s mod 86400.
Proof.
  intros Hs.
  pose proof (Z.mod_pos_bound s 86400 ltac:(lia)) as B.
  destruct (day_wrap_fields s) as (E1 & E2 & E3).
  assert (L : formatted_time_locals (s mod 86400) = formatted_time_locals s).
  { rewrite !formatted_time_locals_exact by lia. now rewrite E1, E2, E3. }
  split.
  - unfold formatted_time. now rewrite L.
  - exists ((s / 3600) mod 24), ((s / 60) mod 60), (s mod 60). split.
    + now apply formatted_time_locals_exact.
    + rewrite <- E1, <- E2, <- E3. unfold get_total_seconds.
      rewrite (Z.mod_small (s mod 86400 / 3600) 24).
      * apply hms_reassemble.
      * split; [apply Z.div_pos; lia | apply Z.div_lt_upper_bound; lia].
Qed.

Lemma formatted_time_wraps_every_day_witness :
  formatted_time 90061 = formatted_time (90061 mod 86400) /\
  exists h m sec,
    formatted_time_locals 90061 = inr (h, m, sec) /\
    get_total_seconds h m sec = 90061 mod 86400.
Proof. apply formatted_time_wraps_every_day. lia. Defined.

Lemma decimal_length n : (1 <= String.length (decimal n))%nat.
Proof.
  unfold decimal. destruct (Z.to_int n) as [d | d]; destruct d; simpl; lia.
Qed.

Lemma format_02_negative n :
  n < 0 -> format_02 n = ("-" ++ decimal (- n))%string.
Proof.
  intros Hn. unfold format_02.
  destruct (Z.ltb_spec n 0) as [_ | H]; [|lia].
  rewrite Z.abs_neq by lia.
  pose proof (decimal_length (- n)) as L.
  assert (E : (2 - String.length "-" - String.length (decimal (- n)) = 0)%nat)
    by (change (String.length "-") with 1%nat; lia).
  now rewrite E.
Qed.

(** X3.  For a negative total within 3600 * 2^41 seconds of zero,
    [get_time_hms] prints a minus sign and the numeral of
    -floor(s / 3600) as the hour field, without padding, and the minute
    and second fields are those of floor division, between 00 and 59: the
    text of -1 is -1:59:59, one hour back and 59:59 forward. *)
Theorem get_time_hms_negative_total s :
  - (3600 * 2 ^ 41) <= s < 0 ->
  get_time_hms s =
    inr ("-" ++ decimal (- (s / 3600)) ++ ":" ++ two_digits ((s / 60) mod 60)
           ++ ":" ++ two_digits (s mod 60))%string /\
  s / 3600 <= -1 /\ 0 <= (s / 60) mod 60 <= 59 /\ 0 <= s mod 60 <= 59.
Proof.
  intros Hs. destruct (field_ranges s) as (_ & Hm & Hsec).
  assert (Hh : s / 3600 <= -1).
  { pose proof (Z.div_lt_upper_bound s 3600 0 ltac:(lia) ltac:(lia)). lia. }
  split; [|lia].
  unfold get_time_hms. rewrite get_time_hms_locals_exact by lia. simpl.
  unfold Py.ret. f_equal.
  rewrite format_02_negative by lia.
  rewrite !format_02_two_digits by lia.
  reflexivity.
Qed.

Lemma get_time_hms_negative_total_witness :
  get_time_hms (-1) = inr "-1:59:59"%string.
Proof.
  destruct (get_time_hms_negative_total (-1)) as [H _]; [lia|]. exact H.
Defined.

(** X4.  Below one day, 0 <= s < 86400, [formatted_time] and
    [get_time_hms] print the same text; from one day on, below
    3600 * 2^41, their hour fields differ, as only [formatted_time] wraps. *)
Theorem formatters_agree_below_one_day s :
  0 <= s < 3600 * 2 ^ 41 ->
  (s < 86400 -> formatted_time s = get_time_hms s) /\
  (86400 <= s ->
   exists h h' m sec,
     formatted_time_locals s = inr (h, m, sec) /\
     get_time_hms_locals s = inr (h', m, sec) /\ h < 24 <= h').
Proof.
  intros Hs. split.
  - intros Hd. unfold formatted_time, get_time_hms.
    rewrite formatted_time_locals_exact, get_time_hms_locals_exact by lia.
    rewrite (Z.mod_small (s / 3600) 24); [reflexivity|].
    split; [apply Z.div_pos; lia | apply Z.div_lt_upper_bound; lia].
  - intros Hd.
    exists ((s / 3600) mod 24), (s / 3600), ((s / 60) mod 60), (s mod 60).
    rewrite formatted_time_locals_exact, get_time_hms_locals_exact by lia.
    repeat split.
    + apply Z.mod_pos_bound. lia.
    + apply Z.div_le_lower_bound; lia.
Qed.

Lemma formatters_agree_below_one_day_witness :
  formatted_time 3725 = get_time_hms 3725.
Proof.
  destruct (formatters_agree_below_one_day 3725) as [H _]; [lia|].
  apply H. lia.
Defined.

End FormattersMore.

(** ** The two tables: ids, deletion, renaming and logging *)

Section Tables.
Import Py Pandas SQLAlchemyDB AnalysisGraphDFs Enriched.

Lemma max_rowid_above i ids j : In j (i :: ids) -> j <= max_rowid i ids.
Proof.
  unfold max_rowid. induction ids as [|k ids IH]; simpl.
  - intros [-> | []]. lia.
  - intros [-> | [-> | H]]; [specialize (IH (or_introl eq_refl)) | | specialize (IH (or_intror H))];
      lia.
Qed.

Lemma max_rowid_In i ids : In (max_rowid i ids) (i :: ids).
Proof.
  unfold max_rowid. induction ids as [|k ids IH]; simpl; [now left|].
  destruct (Z.max_spec k (fold_right Z.max i ids)) as [[_ ->] | [_ ->]].
  - simpl in IH. tauto.
  - right. now left.
Qed.

Lemma next_rowid_above ids i : In i ids -> i < next_rowid ids.
Proof.
  destruct ids as [|j ids]; [contradiction|]. intros H.
  apply max_rowid_above in H. unfold next_rowid. lia.
Qed.

Lemma next_rowid_successor ids :
  ids <> [] -> exists i, In i ids /\ next_rowid ids = i + 1.
Proof.
  destruct ids as [|j ids]; [contradiction|]. intros _.
  exists (max_rowid j ids). split; [apply max_rowid_In | reflexivity].
Qed.

Lemma sorted_snoc l x :
  StronglySorted Z.lt l -> (forall y, In y l -> y < x) -> StronglySorted Z.lt (l ++ [x]).
Proof.
  induction 1 as [|a l S IH F]; intros H; simpl.
  - repeat constructor.
  - constructor.
    + apply IH. intros y Hy. apply H. now right.
    + apply Forall_app. split; [assumption|]. constructor; [|constructor].
      apply H. now left.
Qed.

(** X5.  On a category table whose ids are below 2^63 - 1,
    [insert_activity] adds one row that carries the two names; its id is 1
    in an empty table and otherwise one more than the largest id, so it is
    above every id of the table and at most 2^63 - 1; a table listed by
    increasing id, the order of the SELECT, stays so with the new row
    last; rows that had distinct ids still have, and the log table is left
    alone. *)
Theorem insert_activity_takes_a_fresh_id (self : db) (a g : string) :
  (forall c, In c (view_categories self) -> c_id c < 2 ^ 63 - 1) ->
  exists c,
    view_categories (insert_activity self a g) = view_categories self ++ [c] /\
    c_activity c = a /\ c_grouping c = g /\
    (view_categories self = [] -> c_id c = 1) /\
    (view_categories self <> [] ->
     exists c', In c' (view_categories self) /\ c_id c = c_id c' + 1) /\
    (forall c', In c' (view_categories self) -> c_id c' < c_id c) /\
    c_id c <= 2 ^ 63 - 1 /\
    (StronglySorted Z.lt (map c_id (view_categories self)) ->
     StronglySorted Z.lt (map c_id (view_categories (insert_activity self a g)))) /\
    (NoDup (map c_id (view_categories self)) ->
     NoDup (map c_id (view_categories (insert_activity self a g)))) /\
    log_table (insert_activity self a g) = log_table self.
Proof.
  intros Hmax.
  exists (mkCategory (next_rowid (map c_id (category_table self))) a g).
  unfold view_categories in *. cbn [insert_activity category_table log_table
                               c_id c_activity c_grouping].
  assert (Above : forall c', In c' (category_table self) ->
                             c_id c' < next_rowid (map c_id (category_table self))).
  { intros c' H. apply next_rowid_above, in_map, H. }
  split; [reflexivity|]. split; [reflexivity|]. split; [reflexivity|].
  split; [|split; [|split; [|split; [|split; [|split]]]]].
  - intros ->. reflexivity.
  - intros Hne.
    destruct (next_rowid_successor (map c_id (category_table self))) as (i & Hi & E).
    + intros E. apply map_eq_nil in E. contradiction.
    + apply in_map_iff in Hi as (c' & <- & Hc'). now exists c'.
  - exact Above.
  - destruct (category_table self) as [|c0 cs] eqn:E; [cbn; lia|].
    destruct (next_rowid_successor (map c_id (c0 :: cs))) as (i & Hi & ->);
      [discriminate|].
    apply in_map_iff in Hi as (c' & <- & Hc'). specialize (Hmax c' Hc'). lia.
  - intros S. rewrite map_app. cbn [map c_id]. apply sorted_snoc; [assumption|].
    intros y Hy. apply in_map_iff in Hy as (c' & <- & Hc'). now apply Above.
  - intros N. rewrite map_app. cbn [map c_id].
    apply NoDup_app; [assumption | repeat constructor; simpl; tauto |].
    intros i Hi [E | []]. apply next_rowid_above in Hi. lia.
  - reflexivity.
Qed.

Lemma insert_activity_takes_a_fresh_id_witness :
  exists c,
    view_categories (insert_activity Examples.two_activities_one_date "C" "garden")
      = view_categories Examples.two_activities_one_date ++ [c] /\
    c_id c = 3.
Proof.
  destruct (insert_activity_takes_a_fresh_id Examples.two_activities_one_date
              "C"%string "garden"%string) as (c & E & _ & _ & _ & Hs & _).
  - intros c [<- | [<- | []]]; vm_compute; reflexivity.
  - exists c. split; [exact E|].
    vm_compute in E. injection E as <-. reflexivity.
Defined.

(** X6.  [__init__] leaves neither table empty; it changes nothing when
    neither is empty to begin with, so opening a database a second time
    adds no row; on a new file it makes the placeholder activity with id 1
    and one interval of that activity. *)
Theorem init_leaves_no_table_empty (found : db) (now now' : Z) :
  category_table (init found now now') <> [] /\
  log_table (init found now now') <> [] /\
  (category_table found <> [] -> log_table found <> [] -> init found now now' = found) /\
  (forall t t', init (init found now now') t t' = init found now now') /\
  init (mkDB [] []) now now' =
    mkDB [mkCategory 1 "Add Tasks on the Setup Tab" "Double click to edit"]
         [mkLog 1 1 now now' None].
Proof.
  destruct found as [[|c cs] [|l ls]]; cbn; repeat split; try discriminate;
    intros; try reflexivity; try contradiction.
Qed.

Lemma delete_filter_idem {A : Type} (p : A -> bool) l : filter p (filter p l) = filter p l.
Proof.
  induction l as [|x l IH]; simpl; [reflexivity|].
  destruct (p x) eqn:E; simpl; [rewrite E|]; now rewrite IH.
Qed.

(** X7.  [delete_activity] removes every row whose activity and grouping
    are both the given ones, duplicates included, and no other row; it
    leaves the log table alone, keeps ids distinct, and deleting a second
    time changes nothing. *)
Theorem delete_activity_removes_every_match (self : db) (a g : string) :
  (forall c, In c (view_categories (delete_activity self a g)) <->
             In c (view_categories self) /\ ~ (c_activity c = a /\ c_grouping c = g)) /\
  log_table (delete_activity self a g) = log_table self /\
  (NoDup (map c_id (view_categories self)) ->
   NoDup (map c_id (view_categories (delete_activity self a g)))) /\
  delete_activity (delete_activity self a g) a g = delete_activity self a g.
Proof.
  unfold view_categories, delete_activity. cbn [category_table log_table].
  split; [|split; [reflexivity | split]].
  - intros c. rewrite filter_In, negb_true_iff, andb_false_iff.
    rewrite <- !not_true_iff_false, !String.eqb_eq.
    split; intros [H N]; (split; [assumption|]).
    + intros [E1 E2]. destruct N; contradiction.
    + destruct (String.eqb_spec (c_activity c) a) as [E1|]; [|now left].
      destruct (String.eqb_spec (c_grouping c) g) as [E2|]; [|now right].
      exfalso. now apply N.
  - apply NoDup_map_filter.
  - now rewrite delete_filter_idem.
Qed.

(** X8.  Deleting an activity that was just inserted gives the store
    back, when no row had that activity and grouping before. *)
Theorem delete_undoes_insert (self : db) (a g : string) :
  (forall c, In c (view_categories self) -> ~ (c_activity c = a /\ c_grouping c = g)) ->
  delete_activity (insert_activity self a g) a g = self.
Proof.
  intros H. destruct self as [cats logs]. unfold view_categories in H.
  unfold delete_activity, insert_activity. cbn [category_table log_table] in *.
  f_equal. rewrite filter_app. cbn [filter c_activity c_grouping].
  rewrite !String.eqb_refl. cbn [andb negb]. rewrite app_nil_r.
  apply forallb_filter_id, forallb_forall. intros c Hc.
  apply negb_true_iff, andb_false_iff.
  destruct (String.eqb_spec (c_activity c) a) as [E1|]; [|now left].
  destruct (String.eqb_spec (c_grouping c) g) as [E2|]; [|now right].
  exfalso. now apply (H c Hc).
Qed.

Lemma delete_undoes_insert_witness :
  delete_activity (insert_activity Examples.one_interval "B" "home") "B" "home"
  = Examples.one_interval.
Proof.
  apply delete_undoes_insert.
  intros c [E | []] [H _]; subst c; discriminate H.
Defined.

Lemma select_log_map (f : category_row -> category_row) cats logs :
  (forall c, c_id (f c) = c_id c) ->
  select_log (mkDB (map f cats) logs) =
  flat_map (fun l =>
              map (fun c => mkRow (l_id l) (c_activity (f c)) (c_grouping (f c))
                                  (l_start l) (l_stop l))
                  (filter (fun c => l_taskid l =? c_id c) cats))
           logs.
Proof.
  intros Hid. unfold select_log. cbn [category_table log_table].
  induction logs as [|l logs IH]; simpl; [reflexivity|].
  rewrite IH. f_equal.
  rewrite filter_map_swap, map_map.
  f_equal. apply filter_ext. intros c. now rewrite Hid.
Qed.

Lemma buckets_ignore_names (ren : Row -> Row) rs :
  (forall r, start (ren r) = start r /\ stop (ren r) = stop r) ->
  daily_buckets (map ren rs) = daily_buckets rs /\
  weekly_buckets (map ren rs) = weekly_buckets rs /\
  monthly_buckets (map ren rs) = monthly_buckets rs /\
  hours_buckets (map ren rs) = hours_buckets rs.
Proof.
  intros H.
  unfold daily_buckets, weekly_buckets, monthly_buckets, hours_buckets.
  rewrite !map_map.
  repeat split; f_equal; apply map_ext; intros r; destruct (H r) as [E1 E2];
    unfold daily_key, weekly_key, monthly_key, row_seconds, row_duration,
      row_week_start, row_day_name, row_date; now rewrite E1, E2.
Qed.

Lemma forallb_map_ext {A B : Type} (f : B -> bool) (g : A -> bool) (h : A -> B) l :
  (forall x, f (h x) = g x) -> forallb f (map h l) = forallb g l.
Proof.
  intros H. induction l as [|x l IH]; [reflexivity|].
  cbn [map forallb]. now rewrite H, IH.
Qed.

(** what the summaries raise depends on the timestamps only *)
Lemma checks_ignore_names (ren : Row -> Row) rs :
  (forall r, start (ren r) = start r /\ stop (ren r) = stop r) ->
  log_check (map ren rs) = log_check rs /\ week_check (map ren rs) = week_check rs.
Proof.
  intros H. split.
  - destruct rs as [|r rs]; [reflexivity|].
    unfold log_check. change (map ren (r :: rs)) with (ren r :: map ren rs).
    cbv iota. change (ren r :: map ren rs) with (map ren (r :: rs)).
    rewrite (forallb_map_ext _ (fun r => timestamp_fits (stop r * 1000))),
      (forallb_map_ext _ (fun r => timestamp_fits (start r * 1000))),
      (forallb_map_ext _ (fun r => in_int64 (row_duration r))); [reflexivity | | |];
      intros x; destruct (H x) as [E1 E2]; unfold row_duration; now rewrite ?E1, ?E2.
  - unfold week_check. rewrite (forallb_map_ext _ week_in_range); [reflexivity|].
    intros x. destruct (H x) as [E1 E2]. unfold week_in_range, row_date. now rewrite E1.
Qed.

(** X9.  [update_activity] renames the matching rows in place: ids, their
    order and the log table stay, every interval stays joined to its
    activity under the new names, and the daily, weekly, monthly and
    windowed summaries are what they were before the renaming. *)
Theorem renaming_an_activity_keeps_the_summaries
  (self : db) (oa og na ng : string) :
  map c_id (view_categories (update_activity self oa og na ng))
    = map c_id (view_categories self) /\
  log_table (update_activity self oa og na ng) = log_table self /\
  select_log (update_activity self oa og na ng) =
    map (fun r => if of_activity oa og r
                  then mkRow (id r) na ng (start r) (stop r) else r)
        (select_log self) /\
  get_df_log_summary (update_activity self oa og na ng) = get_df_log_summary self /\
  get_df_log_summary_weeks (update_activity self oa og na ng)
    = get_df_log_summary_weeks self /\
  get_df_log_summary_months (update_activity self oa og na ng)
    = get_df_log_summary_months self /\
  (forall today days,
     get_df_summary (update_activity self oa og na ng) today days
     = get_df_summary self today days).
Proof.
  set (ren := fun r => if of_activity oa og r
                       then mkRow (id r) na ng (start r) (stop r) else r).
  set (f := fun c => if String.eqb (c_activity c) oa && String.eqb (c_grouping c) og
                     then mkCategory (c_id c) na ng else c).
  assert (Hid : forall c, c_id (f c) = c_id c).
  { intros c. unfold f. now destruct (_ && _). }
  assert (S : select_log (update_activity self oa og na ng) = map ren (select_log self)).
  { destruct self as [cats logs]. unfold update_activity.
    cbn [category_table log_table]. fold f.
    rewrite (select_log_map f) by assumption.
    unfold select_log. cbn [category_table log_table].
    induction logs as [|l logs IH]; simpl; [reflexivity|].
    rewrite map_app, IH. f_equal. rewrite map_map. apply map_ext. intros c.
    unfold ren, of_activity, f. cbn [activity grouping id start stop].
    now destruct (_ && _). }
  assert (R : forall r, start (ren r) = start r /\ stop (ren r) = stop r).
  { intros r. unfold ren. now destruct (of_activity oa og r). }
  destruct (buckets_ignore_names ren (select_log self) R) as (B1 & B2 & B3 & B4).
  split; [|split; [|split; [exact S|]]].
  - unfold view_categories, update_activity. cbn [category_table]. fold f.
    rewrite map_map. apply map_ext, Hid.
  - reflexivity.
  - destruct (checks_ignore_names ren (select_log self) R) as (L & W).
    rewrite !get_df_log_summary_check, !get_df_log_summary_weeks_check,
      !get_df_log_summary_months_check.
    rewrite S, L, W, B1, B2, B3.
    repeat split. intros today days.
    rewrite !get_df_summary_check. now rewrite S, L, B4.
Qed.

(** X10.  On a store with distinct category ids, log ids below
    2^63 - 1 and joined intervals that pandas holds, an interval that
    pandas holds, logged by [insert_timestamp] for an activity of the
    table, adds exactly one row to the result of the SELECT, last, with
    the names of that activity and an id above every log id, and
    [get_log_df] then returns a frame; logged under an id that no activity
    has, the interval adds no row. *)
Theorem logged_interval_joins_its_activity (self : db) (c : category_row) (t0 t1 : Z) :
  In c (view_categories self) ->
  NoDup (map c_id (view_categories self)) ->
  (forall l, In l (log_table self) -> l_id l < 2 ^ 63 - 1) ->
  (forall r, In r (select_log self) -> in_range r = true) ->
  timestamp_fits (t0 * 1000) = true -> timestamp_fits (t1 * 1000) = true ->
  in_int64 (t1 * 1000 - t0 * 1000) = true ->
  exists i,
    (forall l, In l (log_table self) -> l_id l < i) /\ i <= 2 ^ 63 - 1 /\
    select_log (insert_timestamp self (c_id c) t0 t1) =
      select_log self ++ [mkRow i (c_activity c) (c_grouping c) t0 t1] /\
    get_log_df (insert_timestamp self (c_id c) t0 t1) =
      inr (enriched (select_log (insert_timestamp self (c_id c) t0 t1))) /\
    (forall j, (forall c', In c' (view_categories self) -> c_id c' <> j) ->
               select_log (insert_timestamp self j t0 t1) = select_log self).
Proof.
  intros Hc N Hmax Hfit H0 H1 Hd. unfold view_categories in *.
  assert (A : forall i,
             select_log (insert_timestamp self i t0 t1) =
             select_log self ++
             map (fun c' => mkRow (next_rowid (map l_id (log_table self)))
                                  (c_activity c') (c_grouping c') t0 t1)
                 (filter (fun c' => i =? c_id c') (category_table self))).
  { intros i. destruct self as [cats logs]. unfold insert_timestamp.
    cbn [category_table log_table]. rewrite select_log_app. f_equal.
    unfold select_log. cbn. now rewrite app_nil_r. }
  assert (F : filter (fun c' => c_id c =? c_id c') (category_table self) = [c]).
  { clear A Hfit. induction (category_table self) as [|x l IH]; [contradiction|].
    cbn [map] in N. apply NoDup_cons_iff in N as [Nx N]. simpl.
    destruct Hc as [-> | Hc].
    - rewrite Z.eqb_refl. f_equal. apply filter_none. intros y Hy.
      apply Z.eqb_neq. intros E. apply Nx. rewrite E. now apply in_map.
    - destruct (Z.eqb_spec (c_id c) (c_id x)) as [E|_].
      + exfalso. apply Nx. rewrite <- E. now apply in_map.
      + now apply IH. }
  assert (S := A (c_id c)). rewrite F in S. cbn [map] in S.
  exists (next_rowid (map l_id (log_table self))).
  split; [|split; [|split; [exact S|split]]].
  - intros l Hl. apply next_rowid_above, in_map, Hl.
  - destruct (log_table self) as [|l0 ls] eqn:E; [cbn; lia|].
    destruct (next_rowid_successor (map l_id (l0 :: ls))) as (i & Hi & ->);
      [discriminate|].
    apply in_map_iff in Hi as (l & <- & Hl). specialize (Hmax l Hl). lia.
  - apply get_log_df_nonempty.
    + rewrite S. now destruct (select_log self).
    + rewrite S, forallb_app. apply andb_true_iff. split.
      * now apply forallb_forall.
      * cbn [forallb]. unfold in_range, row_duration. cbn [start stop].
        now rewrite H0, H1, Hd.
  - intros j Hj. rewrite A, filter_none; [apply app_nil_r|].
    intros c' Hc'. apply Z.eqb_neq. intros E. now apply (Hj c' Hc').
Qed.

Lemma logged_interval_joins_its_activity_witness :
  select_log (insert_timestamp Examples.one_interval 1
                (Calendar.datetime 2024 1 2 9 0 0) (Calendar.datetime 2024 1 2 9 30 0)) =
    select_log Examples.one_interval ++
    [mkRow 2 "A" "work" (Calendar.datetime 2024 1 2 9 0 0)
           (Calendar.datetime 2024 1 2 9 30 0)].
Proof.
  destruct (logged_interval_joins_its_activity Examples.one_interval
              (mkCategory 1 "A" "work")
              (Calendar.datetime 2024 1 2 9 0 0) (Calendar.datetime 2024 1 2 9 30 0))
    as (i & _ & _ & H & _).
  - now left.
  - repeat constructor. simpl. tauto.
  - intros l [<- | []]. vm_compute. reflexivity.
  - intros r [<- | []]. vm_compute. reflexivity.
  - vm_compute. reflexivity.
  - vm_compute. reflexivity.
  - vm_compute. reflexivity.
  - vm_compute in H. injection H as <-. vm_compute. reflexivity.
Defined.

End Tables.

(** ** The rounded seconds of an interval *)

Section Seconds.
Import Py Pandas SQLAlchemyDB AnalysisGraphDFs Enriched.

Lemma rint_cases z f :
  (inject_Z f <= z)%Q -> (z < inject_Z f + 1)%Q ->
  ((z - inject_Z f < 1 # 2)%Q -> Float64.rint z = f) /\
  ((1 # 2 < z - inject_Z f)%Q -> Float64.rint z = f + 1) /\
  ((z - inject_Z f == 1 # 2)%Q -> Float64.rint z = if Z.even f then f else f + 1).
Proof.
  intros H1 H2.
  assert (F : Qfloor z = f).
  { apply Qfloor_unique; [assumption|]. rewrite inject_Z_plus. exact H2. }
  unfold Float64.rint. rewrite F.
  repeat split; intros H;
    destruct (Qcompare_spec (z - inject_Z f) (1 # 2)); try reflexivity; lra.
Qed.

Lemma half_grid_representable (n : Z) :
  Z.abs n < 2 ^ 53 -> Float64.representable (inject_Z n * (1 # 1073741824))%Q.
Proof.
  intros H. exists n, (- 30). split; [assumption|].
  assert (E : (Float64.pow2 (- 30) == 1 # 1073741824)%Q) by reflexivity.
  now rewrite E.
Qed.

(** the double of [d / 10^9] rounds to the integer that the exact
    quotient rounds to *)
Lemma seconds_of_exact d (y : Q) :
  Z.abs d < 2 ^ 22 * 1000000000 ->
  (y * (1000000000 # 1) == inject_Z d)%Q ->
  seconds_of d = Float64.rint y.
Proof.
  intros Hd Ey. unfold seconds_of.
  assert (E9 : Float64.round (inject_Z 1000000000) = (1000000000 # 1)%Q)
    by (vm_compute; reflexivity).
  rewrite E9.
  assert (R1 : (Float64.round (inject_Z d) <= inject_Z d)%Q).
  { apply round_le; [apply Qle_refl | apply representable_Z; lia]. }
  assert (R2 : (inject_Z d <= Float64.round (inject_Z d))%Q).
  { apply round_ge; [apply Qle_refl | apply representable_Z; lia]. }
  set (r := Float64.round (inject_Z d)) in *.
  set (w := (r / (1000000000 # 1))%Q).
  assert (Ew : (w * (1000000000 # 1) == r)%Q) by (unfold w; field).
  pose proof (Z.div_mod d 1000000000 ltac:(lia)) as D.
  pose proof (Z.mod_pos_bound d 1000000000 ltac:(lia)) as B.
  set (f := d / 1000000000) in *. set (rho := d mod 1000000000) in *.
  assert (Hf : - 2 ^ 22 <= f < 2 ^ 22) by lia.
  assert (Ed : (inject_Z d == (1000000000 # 1) * inject_Z f + inject_Z rho)%Q).
  { rewrite D, inject_Z_plus, inject_Z_mult. reflexivity. }
  assert (B0 : (0 <= inject_Z rho)%Q) by (change 0%Q with (inject_Z 0); rewrite <- Zle_Qle; lia).
  assert (Y1 : (inject_Z f <= y)%Q) by lra.
  assert (Rf : Float64.representable (inject_Z f)) by (apply representable_Z; lia).
  assert (X1 : (inject_Z f <= Float64.round w)%Q) by (apply round_ge; [lra | assumption]).
  destruct (Z.compare_spec rho 500000000) as [Eh | Hlt | Hgt].
  - (* the exact quotient is a half: a double holds it *)
    assert (Eh' : (inject_Z rho == 500000000 # 1)%Q) by (rewrite Eh; reflexivity).
    assert (Rh : Float64.representable (inject_Z (2 ^ 30 * f + 2 ^ 29) * (1 # 1073741824))%Q)
      by (apply half_grid_representable; lia).
    assert (Eg : (inject_Z (2 ^ 30 * f + 2 ^ 29) * (1 # 1073741824)
                  == inject_Z f + (1 # 2))%Q).
    { rewrite inject_Z_plus, inject_Z_mult.
      change (inject_Z (2 ^ 30)) with (1073741824 # 1)%Q.
      change (inject_Z (2 ^ 29)) with (536870912 # 1)%Q. field. }
    assert (X2 : (Float64.round w <= inject_Z f + (1 # 2))%Q).
    { rewrite <- Eg. apply round_le; [rewrite Eg; lra | assumption]. }
    assert (X3 : (inject_Z f + (1 # 2) <= Float64.round w)%Q).
    { rewrite <- Eg. apply round_ge; [rewrite Eg; lra | assumption]. }
    destruct (rint_cases (Float64.round w) f) as (_ & _ & Hx); [lra | lra |].
    destruct (rint_cases y f) as (_ & _ & Hy); [lra | lra |].
    rewrite Hx, Hy by lra. reflexivity.
  - (* below the half: the next double below the half bounds the quotient *)
    assert (B1 : (inject_Z rho <= 499999999 # 1)%Q).
    { change (499999999 # 1)%Q with (inject_Z 499999999). rewrite <- Zle_Qle. lia. }
    assert (Ru : Float64.representable
                   (inject_Z (2 ^ 30 * f + 2 ^ 29 - 1) * (1 # 1073741824))%Q)
      by (apply half_grid_representable; lia).
    assert (Eg : (inject_Z (2 ^ 30 * f + 2 ^ 29 - 1) * (1 # 1073741824)
                  == inject_Z f + (1 # 2) - (1 # 1073741824))%Q).
    { unfold Z.sub. rewrite !inject_Z_plus, inject_Z_mult.
      change (inject_Z (2 ^ 30)) with (1073741824 # 1)%Q.
      change (inject_Z (2 ^ 29)) with (536870912 # 1)%Q.
      change (inject_Z (- (1))) with (- 1 # 1)%Q. field. }
    assert (X2 : (Float64.round w <= inject_Z f + (1 # 2) - (1 # 1073741824))%Q).
    { rewrite <- Eg. apply round_le; [rewrite Eg; lra | assumption]. }
    destruct (rint_cases (Float64.round w) f) as (Hx & _); [lra | lra |].
    destruct (rint_cases y f) as (Hy & _); [lra | lra |].
    rewrite Hx, Hy by lra. reflexivity.
  - (* above the half *)
    assert (B1 : (500000001 # 1 <= inject_Z rho)%Q).
    { change (500000001 # 1)%Q with (inject_Z 500000001). rewrite <- Zle_Qle. lia. }
    assert (B2 : (inject_Z rho <= 999999999 # 1)%Q).
    { change (999999999 # 1)%Q with (inject_Z 999999999). rewrite <- Zle_Qle. lia. }
    assert (Rl : Float64.representable
                   (inject_Z (2 ^ 30 * f + 2 ^ 29 + 1) * (1 # 1073741824))%Q)
      by (apply half_grid_representable; lia).
    assert (El : (inject_Z (2 ^ 30 * f + 2 ^ 29 + 1) * (1 # 1073741824)
                  == inject_Z f + (1 # 2) + (1 # 1073741824))%Q).
    { rewrite !inject_Z_plus, inject_Z_mult.
      change (inject_Z (2 ^ 30)) with (1073741824 # 1)%Q.
      change (inject_Z (2 ^ 29)) with (536870912 # 1)%Q.
      change (inject_Z 1) with (1 # 1)%Q. field. }
    assert (Ru : Float64.representable
                   (inject_Z (2 ^ 30 * f + 2 ^ 30 - 1) * (1 # 1073741824))%Q)
      by (apply half_grid_representable; lia).
    assert (Eu : (inject_Z (2 ^ 30 * f + 2 ^ 30 - 1) * (1 # 1073741824)
                  == inject_Z f + 1 - (1 # 1073741824))%Q).
    { unfold Z.sub. rewrite !inject_Z_plus, inject_Z_mult.
      change (inject_Z (2 ^ 30)) with (1073741824 # 1)%Q.
      change (inject_Z (- (1))) with (- 1 # 1)%Q. field. }
    assert (X2 : (inject_Z f + (1 # 2) + (1 # 1073741824) <= Float64.round w)%Q).
    { rewrite <- El. apply round_ge; [rewrite El; lra | assumption]. }
    assert (X3 : (Float64.round w <= inject_Z f + 1 - (1 # 1073741824))%Q).
    { rewrite <- Eu. apply round_le; [rewrite Eu; lra | assumption]. }
    destruct (rint_cases (Float64.round w) f) as (_ & Hx & _); [lra | lra |].
    destruct (rint_cases y f) as (_ & Hy & _); [lra | lra |].
    rewrite Hx, Hy by lra. reflexivity.
Qed.

(** X11.  When every joined interval has timestamps that datetime64[ns]
    holds and is shorter than 2^22 seconds (48 days) in either direction,
    the [seconds_duration] column of
    [get_log_df] holds, for each interval, the exact quotient
    (stop - start) / 1 second rounded to the nearest integer, ties to the
    even one: the two float divisions lose nothing.  An interval of a whole
    number k of seconds gets k, and one with stop = start gets 0. *)
Theorem seconds_duration_is_the_nearest_second (self : db) :
  select_log self <> [] ->
  (forall r, In r (select_log self) -> in_range r = true) ->
  (forall r, In r (select_log self) -> Z.abs (stop r - start r) < 2 ^ 22 * 1000000) ->
  exists df,
    get_log_df self = inr df /\
    getitem df "seconds_duration" =
      inr (mkSeries int64
             (map (fun r => VInt (Float64.rint (stop r - start r # 1000000)))
                  (select_log self))) /\
    (forall r k, In r (select_log self) ->
                 stop r - start r = k * 1000000 -> row_seconds r = k) /\
    (forall r, In r (select_log self) -> stop r = start r -> row_seconds r = 0).
Proof.
  intros N Hfit H. apply forallb_forall in Hfit.
  assert (S : forall r, In r (select_log self) ->
                        row_seconds r = Float64.rint (stop r - start r # 1000000)).
  { intros r Hr. unfold row_seconds, row_duration. apply seconds_of_exact.
    - specialize (H r Hr). lia.
    - replace (stop r * 1000 - start r * 1000) with ((stop r - start r) * 1000) by lia.
      rewrite inject_Z_mult.
      rewrite <- (Qmake_mult_den (stop r - start r) 1000000).
      change (inject_Z 1000) with (1000 # 1)%Q.
      change (inject_Z (Z.pos 1000000)) with (1000000 # 1)%Q.
      set (q := (stop r - start r # 1000000)%Q). ring. }
  assert (K : forall r k, In r (select_log self) ->
                          stop r - start r = k * 1000000 -> row_seconds r = k).
  { intros r k Hr E. unfold row_seconds, row_duration.
    rewrite (seconds_of_exact _ (inject_Z k)).
    - destruct (rint_cases (inject_Z k) k) as (Hk & _); [lra | lra |].
      apply Hk. lra.
    - specialize (H r Hr). lia.
    - replace (stop r * 1000 - start r * 1000) with (k * 1000000000) by lia.
      rewrite inject_Z_mult. reflexivity. }
  exists (enriched (select_log self)). split; [now apply get_log_df_nonempty|].
  split; [|split].
  - cbn [enriched getitem String.eqb Ascii.eqb Bool.eqb andb]. unfold ret. do 2 f_equal.
    apply map_ext_in. intros r Hr. now rewrite (S r Hr).
  - exact K.
  - intros r Hr E. apply (K r 0 Hr). lia.
Qed.

Lemma seconds_duration_is_the_nearest_second_witness :
  exists df,
    get_log_df Examples.one_interval = inr df /\
    getitem df "seconds_duration" = inr (mkSeries int64 [VInt 5400]).
Proof.
  destruct (seconds_duration_is_the_nearest_second Examples.one_interval)
    as (df & E1 & E2 & _).
  - discriminate.
  - intros r [<- | []]. vm_compute. reflexivity.
  - intros r [<- | []]. vm_compute. reflexivity.
  - exists df. split; [exact E1|]. rewrite E2. vm_compute. reflexivity.
Defined.

End Seconds.

(** ** Buckets: totals, order, weekdays and nested windows *)

Section Buckets.
Import Py Pandas SQLAlchemyDB AnalysisGraphDFs Enriched.

Lemma sum_map_add {A : Type} (a b : A -> Z) l :
  fold_right Z.add 0 (map (fun x => a x + b x) l)
  = fold_right Z.add 0 (map a l) + fold_right Z.add 0 (map b l).
Proof. induction l as [|x l IH]; simpl; lia. Qed.

Lemma sum_indicator_out K k v :
  ~ In k K -> fold_right Z.add 0 (map (fun k' => if key_eqb k' k then v else 0) K) = 0.
Proof.
  induction K as [|a K IH]; simpl; intros H; [reflexivity|].
  rewrite IH by tauto.
  destruct (key_eqb a k) eqn:E; [|reflexivity].
  apply key_eqb_eq in E. tauto.
Qed.

Lemma sum_indicator K k v :
  NoDup K -> In k K ->
  fold_right Z.add 0 (map (fun k' => if key_eqb k' k then v else 0) K) = v.
Proof.
  induction K as [|a K IH]; simpl; intros N H; [contradiction|].
  apply NoDup_cons_iff in N as [Na N].
  destruct H as [-> | H].
  - rewrite key_eqb_refl, sum_indicator_out by assumption. lia.
  - rewrite IH by assumption.
    destruct (key_eqb a k) eqn:E; [|reflexivity].
    apply key_eqb_eq in E. subst. contradiction.
Qed.

(** the sums of the keys of a list that has every key once add up to the
    sum of all values *)
Lemma sum_for_partition K kv :
  NoDup K -> (forall k, In k (map fst kv) -> In k K) ->
  fold_right Z.add 0 (map (fun k => sum_for k kv) K) = fold_right Z.add 0 (map snd kv).
Proof.
  intros N. induction kv as [|[k' v] kv IH]; intros H.
  - simpl. induction K as [|a K IHK]; simpl; [reflexivity|].
    apply NoDup_cons_iff in N as [_ N]. now rewrite IHK.
  - cbn [sum_for map snd fold_right].
    rewrite (sum_map_add (fun k => if key_eqb k k' then v else 0) (fun k => sum_for k kv)).
    rewrite sum_indicator; [|assumption | apply H; now left].
    rewrite IH; [reflexivity|]. intros k Hk. apply H. now right.
Qed.

Lemma sum_for_bounds k kv :
  (forall x, In x kv -> 0 <= snd x) ->
  0 <= sum_for k kv <= fold_right Z.add 0 (map snd kv).
Proof.
  induction kv as [|[k' v] kv IH]; intros H; simpl; [lia|].
  pose proof (H (k', v) (or_introl eq_refl)) as Hv. simpl in Hv.
  assert (IH' := IH (fun x Hx => H x (or_intror Hx))).
  destruct (key_eqb k k'); lia.
Qed.

Lemma group_sum_total kv :
  (forall x, In x kv -> 0 <= snd x) ->
  fold_right Z.add 0 (map snd kv) < 2 ^ 63 ->
  fold_right Z.add 0 (map snd (group_sum kv)) = fold_right Z.add 0 (map snd kv).
Proof.
  intros Hpos Hmax.
  rewrite <- (sum_for_partition (map fst (group_sum kv)) kv).
  - unfold group_sum. rewrite !map_map. cbn [fst snd]. f_equal.
    apply map_ext. intros k. apply wrap64_small.
    pose proof (sum_for_bounds k kv Hpos). lia.
  - apply group_sum_keys_NoDup.
  - intros k. apply group_sum_keys_In.
Qed.

Lemma get_log_df_inr self df :
  get_log_df self = inr df -> df = enriched (select_log self).
Proof.
  rewrite get_log_df_check.
  destruct (log_check (select_log self)) as [e | []]; [discriminate|].
  now intros [= <-].
Qed.

Lemma map_VInt_inj l1 l2 : map VInt l1 = map VInt l2 -> l1 = l2.
Proof.
  revert l2. induction l1 as [|x l1 IH]; intros [|y l2] H; try discriminate; [reflexivity|].
  injection H as -> H. f_equal. now apply IH.
Qed.

(** X12.  Grouping loses and repeats nothing: when [get_log_df] returns
    a frame whose [seconds_duration] column holds no negative number and
    adds up to less than 2^63, the [seconds_duration] column of the frame
    that [groupby(['date', 'DayOfWeek'])[...].sum()] makes of it adds up to
    the same number, and the daily summary prints the totals of that
    column, in order. *)
Theorem grouping_keeps_the_total (self : db) (log_df : Pandas.DataFrame) (seconds : list Z) :
  get_log_df self = inr log_df ->
  getitem log_df "seconds_duration" = inr (mkSeries int64 (map VInt seconds)) ->
  (forall s, In s seconds -> 0 <= s) ->
  fold_right Z.add 0 seconds < 2 ^ 63 ->
  exists grouped totals daily,
    groupby_sum log_df ["date"; "DayOfWeek"]%string "seconds_duration" = inr grouped /\
    getitem grouped "seconds_duration" = inr (mkSeries int64 (map VInt totals)) /\
    fold_right Z.add 0 totals = fold_right Z.add 0 seconds /\
    get_df_log_summary self = inr daily /\
    getitem daily "hms_duration"
      = inr (mkSeries object (map (fun t => VStr (hms_text t)) totals)).
Proof.
  intros E G Hpos Hmax.
  assert (Ed := get_log_df_inr _ _ E). subst log_df.
  set (rs := select_log self) in *.
  assert (Es : seconds = map row_seconds rs).
  { cbn [enriched getitem String.eqb Ascii.eqb Bool.eqb andb] in G.
    injection G as G. rewrite <- (map_map row_seconds VInt) in G.
    symmetry. now apply map_VInt_inj. }
  subst seconds.
  eexists. exists (map snd (daily_buckets rs)). eexists.
  split; [|split; [|split; [|split]]].
  - rewrite (groupby_sum_2 rs (enriched rs) "date" "DayOfWeek" "seconds_duration"
               object object int64
               (fun r => VDate (row_date r)) (fun r => VStr (row_day_name r))
               (map (fun r => VInt (row_seconds r)) rs) row_seconds VInt);
      try reflexivity.
    + apply summands_ints.
    + unfold enriched. cbn [nrows values]. apply length_map.
  - cbv zeta. cbn [getitem String.eqb Ascii.eqb Bool.eqb andb]. unfold ret.
    now rewrite map_map.
  - unfold daily_buckets.
    assert (Em : map snd (map (fun r => (daily_key r, row_seconds r)) rs)
                 = map row_seconds rs) by (rewrite map_map; reflexivity).
    rewrite group_sum_total; rewrite ?Em; [reflexivity | | assumption].
    intros x Hx. apply in_map_iff in Hx as (r & <- & Hr). cbn [snd].
    apply Hpos. now apply in_map.
  - rewrite get_df_log_summary_check. rewrite get_log_df_check in E.
    fold rs. fold rs in E. destruct (log_check rs) as [e | []]; [discriminate E|].
    reflexivity.
  - cbn [daily_frame getitem String.eqb Ascii.eqb Bool.eqb andb]. unfold ret.
    now rewrite map_map.
Qed.

Lemma grouping_keeps_the_total_witness :
  exists grouped totals,
    groupby_sum (enriched (select_log Examples.tuesday_thursday))
                ["date"; "DayOfWeek"]%string "seconds_duration" = inr grouped /\
    getitem grouped "seconds_duration" = inr (mkSeries int64 (map VInt totals)) /\
    fold_right Z.add 0 totals = 9000.
Proof.
  destruct (grouping_keeps_the_total Examples.tuesday_thursday
              (enriched (select_log Examples.tuesday_thursday)) [5400; 1200; 2400])
    as (grouped & totals & daily & E1 & E2 & E3 & _).
  - vm_compute. reflexivity.
  - vm_compute. reflexivity.
  - intros s [<- | [<- | [<- | []]]]; lia.
  - vm_compute. reflexivity.
  - exists grouped, totals. split; [exact E1|]. split; [exact E2|].
    rewrite E3. reflexivity.
Defined.

(** *** Sorted keys *)

Lemma insert_key_HdRel a k l :
  HdRel (fun x y => key_leb x y = true) a l -> key_leb a k = true ->
  HdRel (fun x y => key_leb x y = true) a (insert_key k l).
Proof.
  intros H Hk. destruct l as [|b l]; simpl; [now constructor|].
  destruct (key_leb k b); constructor; [assumption|].
  now inversion H.
Qed.

Lemma insert_key_sorted k l :
  (forall a, In a l -> key_leb k a = false -> key_leb a k = true) ->
  Sorted (fun x y => key_leb x y = true) l ->
  Sorted (fun x y => key_leb x y = true) (insert_key k l).
Proof.
  intros T S. induction S as [|b l S IH Hd]; simpl.
  - repeat constructor.
  - destruct (key_leb k b) eqn:E.
    + repeat constructor; assumption.
    + constructor.
      * apply IH. intros a Ha. apply T. now right.
      * apply insert_key_HdRel; [assumption|]. apply T; [now left | assumption].
Qed.

Lemma sort_keys_sorted l :
  (forall a b, In a l -> In b l -> key_leb a b = false -> key_leb b a = true) ->
  Sorted (fun x y => key_leb x y = true) (sort_keys l).
Proof.
  induction l as [|k l IH]; intros T; simpl; [constructor|].
  apply insert_key_sorted.
  - intros a Ha. apply (Permutation_in _ (sort_keys_perm l)) in Ha.
    apply T; [now left | now right].
  - apply IH. intros a b Ha Hb. apply T; now right.
Qed.

Lemma key_leb_refl k : key_leb k k = true.
Proof.
  induction k as [|a k IH]; simpl; [reflexivity|].
  now rewrite (proj2 (scalar_eqb_eq a a) eq_refl).
Qed.

(** keys that start with a date and are determined by it *)
Section DateKeys.
Variable tail : Z -> list scalar.

Lemma date_key_leb d1 d2 :
  key_leb (VDate d1 :: tail d1) (VDate d2 :: tail d2) = true -> d1 <= d2.
Proof.
  cbn [key_leb scalar_eqb scalar_leb].
  destruct (Z.eqb_spec d1 d2) as [-> | _]; [lia|]. apply Z.leb_le.
Qed.

Lemma date_key_total d1 d2 :
  key_leb (VDate d1 :: tail d1) (VDate d2 :: tail d2) = false ->
  key_leb (VDate d2 :: tail d2) (VDate d1 :: tail d1) = true.
Proof.
  cbn [key_leb scalar_eqb scalar_leb].
  destruct (Z.eqb_spec d1 d2) as [-> | N].
  - intros H. now rewrite key_leb_refl in H.
  - intros H. apply Z.leb_gt in H.
    destruct (Z.eqb_spec d2 d1) as [-> | _]; [lia|]. apply Z.leb_le. lia.
Qed.

Lemma date_keys_sorted (ds : list Z) :
  exists ds',
    sort_keys (unique_keys (map (fun d => VDate d :: tail d) ds))
      = map (fun d => VDate d :: tail d) ds' /\
    StronglySorted Z.lt ds' /\
    (forall d, In d ds' <-> In d ds).
Proof.
  set (K := sort_keys (unique_keys (map (fun d => VDate d :: tail d) ds))).
  assert (HK : forall k, In k K <-> In k (map (fun d => VDate d :: tail d) ds)).
  { intros k. unfold K.
    rewrite <- (unique_keys_In k (map (fun d => VDate d :: tail d) ds)).
    split; apply Permutation_in.
    - apply sort_keys_perm.
    - symmetry. apply sort_keys_perm. }
  assert (NK : NoDup K).
  { unfold K. eapply Permutation_NoDup; [symmetry; apply sort_keys_perm|].
    apply unique_keys_NoDup. }
  assert (SK : Sorted (fun x y => key_leb x y = true) K).
  { apply sort_keys_sorted. intros a b Ha Hb.
    apply (proj1 (unique_keys_In _ _)) in Ha, Hb.
    apply in_map_iff in Ha as (d1 & <- & _). apply in_map_iff in Hb as (d2 & <- & _).
    apply date_key_total. }
  clearbody K. revert HK NK SK. revert ds.
  induction K as [|k K IH]; intros ds HK NK SK.
  - exists []. repeat split; try constructor; try contradiction.
    intros H. apply (in_map (fun d => VDate d :: tail d)) in H. now apply HK in H.
  - apply NoDup_cons_iff in NK as [Nk NK].
    apply Sorted_inv in SK as [SK Hd].
    assert (Hk : In k (map (fun d => VDate d :: tail d) ds)) by (apply HK; now left).
    apply in_map_iff in Hk as (d & <- & Hdin).
    destruct (IH (filter (fun x => negb (x =? d)) ds)) as (ds' & E & S & I).
    + intros k. rewrite in_map_iff. split.
      * intros Hk. assert (Hk' : In k (map (fun d => VDate d :: tail d) ds))
          by (apply HK; now right).
        apply in_map_iff in Hk' as (x & <- & Hx). exists x. split; [reflexivity|].
        apply filter_In. split; [assumption|].
        apply negb_true_iff, Z.eqb_neq. intros ->. contradiction.
      * intros (x & <- & Hx). apply filter_In in Hx as [Hx Hne].
        apply negb_true_iff, Z.eqb_neq in Hne.
        assert (Hk' : In (VDate x :: tail x) ((VDate d :: tail d) :: K)).
        { apply HK, in_map_iff. now exists x. }
        destruct Hk' as [[= E] | Hk']; [congruence | assumption].
    + assumption.
    + assumption.
    + exists (d :: ds'). cbn [map]. rewrite E. split; [reflexivity|]. split.
      * constructor; [assumption|].
        apply Forall_forall. intros x Hx.
        assert (Hx' : In (VDate x :: tail x) K).
        { rewrite E. exact (in_map (fun d => VDate d :: tail d) _ _ Hx). }
        assert (Hle : d <= x).
        { rewrite E in Hd. clear - Hd S Hx tail.
          induction S as [|y l S IHS F]; [contradiction|].
          cbn [map] in Hd. apply HdRel_inv in Hd. apply date_key_leb in Hd.
          destruct Hx as [-> | Hx]; [assumption|].
          rewrite Forall_forall in F. specialize (F x Hx). lia. }
        assert (Hne : d <> x) by (intros ->; contradiction).
        lia.
      * intros x. cbn [In]. rewrite I, filter_In, negb_true_iff, Z.eqb_neq.
        destruct (Z.eq_dec d x) as [-> | Hne]; [tauto|].
        split; [intros [? | [? ?]]; [contradiction | assumption] | intros H; right; split; [assumption | congruence]].
Qed.

End DateKeys.

Lemma StronglySorted_filter (p : Z -> bool) l :
  StronglySorted Z.lt l -> StronglySorted Z.lt (filter p l).
Proof.
  induction 1 as [|a l S IH F]; simpl; [constructor|].
  destruct (p a); [|assumption].
  constructor; [assumption|].
  rewrite Forall_forall in *. intros x Hx. apply F. now apply filter_In in Hx.
Qed.

Lemma sorted_dates_filter (m : list scalar * Z -> bool) (B : list (list scalar * Z)) ds :
  map (key_cell 0) B = map VDate ds -> StronglySorted Z.lt ds ->
  exists ds', map (key_cell 0) (filter m B) = map VDate ds' /\ StronglySorted Z.lt ds'.
Proof.
  revert ds. induction B as [|b B IH]; intros ds CB S.
  - exists []. split; [reflexivity | constructor].
  - destruct ds as [|d ds]; [discriminate|]. cbn [map] in CB.
    injection CB as Eb CB. apply StronglySorted_inv in S as [S F].
    destruct (IH ds CB S) as (ds' & E' & S').
    cbn [filter]. destruct (m b).
    + exists (d :: ds'). cbn [map]. rewrite Eb, E'. split; [reflexivity|].
      constructor; [assumption|].
      rewrite Forall_forall in *. intros x Hx. apply F.
      assert (Hx' : In (VDate x) (map VDate ds)).
      { rewrite <- CB. apply (in_map VDate) in Hx. rewrite <- E' in Hx.
        apply in_map_iff in Hx as (b' & Eb' & Hb'). apply filter_In in Hb' as [Hb' _].
        rewrite <- Eb'. apply (in_map (key_cell 0)), Hb'. }
      apply in_map_iff in Hx' as (y & Ey & Hy). injection Ey as ->. exact Hy.
    + exists ds'. split; assumption.
Qed.

Lemma getitem_date_filtered (B : list (list scalar * Z)) (m : list scalar * Z -> bool) :
  getitem (filter_rows (hours_frame B) (map m B)) "date"
  = inr (mkSeries object (map (key_cell 0) (filter m B))).
Proof.
  unfold hours_frame, filter_rows.
  cbn [map fst snd dtype_of values getitem String.eqb Ascii.eqb Bool.eqb andb].
  unfold ret. now rewrite filter_mask_map.
Qed.

(** X13.  On a store whose joined intervals pandas holds, the rows of
    the summaries come in calendar order: the dates of the daily summary
    are strictly increasing, so each date has one row, and so are the
    dates of the windowed summary, whatever the window, and, when
    datetime64[ns] holds the week starts too, the week starts of the
    weekly summary. *)
Theorem summaries_are_in_date_order (self : db) :
  select_log self <> [] ->
  (forall r, In r (select_log self) -> in_range r = true) ->
  (exists daily ds,
     get_df_log_summary self = inr daily /\
     getitem daily "date" = inr (mkSeries object (map VDate ds)) /\
     StronglySorted Z.lt ds /\
     (forall d, In d ds <-> In d (map row_date (select_log self)))) /\
  ((forall r, In r (select_log self) -> week_in_range r = true) ->
   exists weekly ws,
     get_df_log_summary_weeks self = inr weekly /\
     getitem weekly "week_start" = inr (mkSeries object (map VDate ws)) /\
     StronglySorted Z.lt ws /\
     (forall d, In d ws <-> In d (map row_week_start (select_log self)))) /\
  (forall today days,
     exists out ds,
       get_df_summary self today days = inr out /\
       getitem out "date" = inr (mkSeries object (map VDate ds)) /\
       StronglySorted Z.lt ds).
Proof.
  intros N Hfit. apply forallb_forall in Hfit.
  destruct (date_keys_sorted (fun d => [VStr (Calendar.day_name d)])
              (map row_date (select_log self))) as (ds & E & S & I).
  destruct (date_keys_sorted (fun _ => []) (map row_week_start (select_log self)))
    as (ws & Ew & Sw & Iw).
  rewrite map_map in E, Ew.
  assert (KD : map fst (daily_buckets (select_log self))
               = map (fun d => [VDate d; VStr (Calendar.day_name d)]) ds).
  { unfold daily_buckets. rewrite group_sum_keys, map_map. exact E. }
  assert (KH : map fst (hours_buckets (select_log self))
               = map (fun d => [VDate d; VStr (Calendar.day_name d)]) ds).
  { unfold hours_buckets. rewrite group_sum_keys, map_map. exact E. }
  assert (KW : map fst (weekly_buckets (select_log self)) = map (fun d => [VDate d]) ws).
  { unfold weekly_buckets. rewrite group_sum_keys, map_map. exact Ew. }
  assert (C0 : forall (B : list (list scalar * Z)) (g : Z -> list scalar) l,
             map fst B = map (fun d => VDate d :: g d) l ->
             map (key_cell 0) B = map VDate l).
  { intros B g l H. unfold key_cell.
    rewrite <- (map_map fst (fun k => nth 0 k (VInt 0))), H, map_map. reflexivity. }
  split; [|split].
  - exists (daily_frame (daily_buckets (select_log self))), ds.
    split; [now apply get_df_log_summary_nonempty|].
    split; [|split; assumption].
    cbn [daily_frame getitem String.eqb Ascii.eqb Bool.eqb andb]. unfold ret.
    now rewrite (C0 _ (fun d => [VStr (Calendar.day_name d)]) ds).
  - intros Hweek. apply forallb_forall in Hweek.
    exists (weekly_frame (weekly_buckets (select_log self))), ws.
    split; [now apply get_df_log_summary_weeks_nonempty|].
    split; [|split; assumption].
    cbn [weekly_frame getitem String.eqb Ascii.eqb Bool.eqb andb]. unfold ret.
    now rewrite (C0 _ (fun _ => []) ws).
  - intros today days. rewrite get_df_summary_nonempty by assumption.
    assert (CB := C0 _ (fun d => [VStr (Calendar.day_name d)]) ds KH).
    clear KH. generalize dependent (hours_buckets (select_log self)). intros B CB.
    cbv zeta. destruct ((days =? 7) || (days =? 30)).
    + destruct (sorted_dates_filter (fun b => in_window today days (hours_row b)) B ds CB S)
        as (ds' & E' & S').
      exists (filter_rows (hours_frame B)
                (map (fun b => in_window today days (hours_row b)) B)), ds'.
      split; [reflexivity|]. split; [|assumption].
      now rewrite getitem_date_filtered, E'.
    + exists (hours_frame B), ds. split; [reflexivity|]. split; [|assumption].
      cbn [hours_frame getitem String.eqb Ascii.eqb Bool.eqb andb]. unfold ret.
      now rewrite CB.
Qed.

Lemma summaries_are_in_date_order_witness :
  exists daily ds,
    get_df_log_summary Examples.tuesday_thursday = inr daily /\
    getitem daily "date" = inr (mkSeries object (map VDate ds)) /\
    StronglySorted Z.lt ds.
Proof.
  destruct (summaries_are_in_date_order Examples.tuesday_thursday)
    as ((daily & ds & E & G & S & _) & _).
  - discriminate.
  - intros r Hr. vm_compute in Hr.
    repeat (destruct Hr as [<- | Hr]; [vm_compute; reflexivity|]). contradiction.
  - exists daily, ds. split; [exact E|]. split; [exact G | exact S].
Defined.

End Buckets.
